(** * Lathe telemetry generator: a shallow embedding of
      [mongodb_data_generator.py]

    The development follows the Python module top-down: the static lookup
    tables, [calculate_machine_parameters], [ensure_collections_exist] and
    [generate_batch_sensor_data].

    Modelling conventions.
    - Python floats and numpy float arrays are exact rationals ([Q]) and
      lists of rationals; numeric equalities are stated with [==].  Rounding
      of IEEE arithmetic is outside the model.
    - Python exceptions are values of [exn]; a computation that may raise
      returns [exn + A].  Only subclasses of [Exception] are modelled, which
      is what [except Exception] catches.
    - The two process-wide generators ([random] and [numpy.random]), the
      wall clock and the MongoDB server are the environment of a call: an
      [Env] fixes what each successive draw, clock reading and database
      request answers, and a [State] records how far the call has consumed
      them and what it has written.  Console output ([print]) and
      [time.sleep] have no effect on any value computed and are left out. *)

From Stdlib Require Import ZArith QArith Qround Qminmax.
From Stdlib Require Import String Ascii List Bool DecimalString.
From Stdlib Require Import Lia Lqa.
Import ListNotations.

Open Scope string_scope.
Open Scope Z_scope.
Open Scope Q_scope.

(** ** Python values used by the module *)

Module Py.

(** The exceptions that can reach the handler of
    [generate_batch_sensor_data]. [PyMongoError] stands for whatever the
    driver raises; its text is supplied by the environment. *)
Inductive exn : Type :=
| KeyError (key : string)
| ValueError (msg : string)
| IndexError (msg : string)
| PyMongoError (msg : string).

Definition backslash : ascii := "092"%char.
Definition single_quote : ascii := "039"%char.
Definition double_quote : ascii := "034"%char.

Definition contains (c : ascii) (s : string) : bool :=
  existsb (Ascii.eqb c) (list_ascii_of_string s).

(** A string of ASCII characters only. *)
Definition is_ascii (s : string) : bool :=
  forallb (fun c => (nat_of_ascii c <? 128)%nat) (list_ascii_of_string s).

Definition hex_digit (n : nat) : ascii :=
  match String.get n "0123456789abcdef" with
  | Some c => c
  | None => "0"%char
  end.

Definition escaped (c : ascii) : string :=
  String backslash (String c EmptyString).

(** One character inside [repr]: the quote in use and the backslash are
    escaped, tab, newline and carriage return are written [\t], [\n] and
    [\r], the other control characters [\xNN]. *)
Definition repr_char (quote c : ascii) : string :=
  let code := nat_of_ascii c in
  if Ascii.eqb c quote || Ascii.eqb c backslash then escaped c
  else if Ascii.eqb c "009"%char then escaped "t"
  else if Ascii.eqb c "010"%char then escaped "n"
  else if Ascii.eqb c "013"%char then escaped "r"
  else if (code <? 32)%nat || (code =? 127)%nat then
    String backslash
           (String "x"
                   (String (hex_digit (code / 16))
                           (String (hex_digit (code mod 16)) EmptyString)))
  else String c EmptyString.

(** [repr] of a Python [str]: between single quotes, or between double
    quotes when the text has an apostrophe and no double quote, with the
    characters escaped as [repr_char] says.  This is Python's [repr] on
    ASCII text; characters beyond ASCII are copied, which Python does for
    the printable ones only, so statements about the exact text are made
    for ASCII text ([is_ascii]). *)
Definition repr (s : string) : string :=
  let quote := if contains single_quote s && negb (contains double_quote s)
               then double_quote else single_quote in
  String quote
         (String.concat EmptyString
                        (map (repr_char quote) (list_ascii_of_string s))
          ++ String quote EmptyString).

(** [str(e)]: a [KeyError] prints the [repr] of its key, the others their
    message. *)
Definition str (e : exn) : string :=
  match e with
  | KeyError key => repr key
  | ValueError msg => msg
  | IndexError msg => msg
  | PyMongoError msg => msg
  end.

(** [str(n)] for an [int]. *)
Definition str_int (n : Z) : string := NilZero.string_of_int (Z.to_int n).

(** [int(x)] for a float: truncation towards zero. *)
Definition int (x : Q) : Z := Z.quot (Qnum x) (Zpos (Qden x)).

(** A dict literal, in the order it is written. *)
Definition dict (V : Type) : Type := list (string * V).

(** [d[k]]: the value, or [KeyError(k)]. *)
Fixpoint getitem {V : Type} (d : dict V) (k : string) : exn + V :=
  match d with
  | [] => inl (KeyError k)
  | (k', v) :: d' => if String.eqb k k' then inr v else getitem d' k
  end.

Definition keys {V : Type} (d : dict V) : list string := map fst d.

(** [a[-1]] on a numpy array. *)
Definition last_item (a : list Q) : exn + Q :=
  match a with
  | [] => inl (IndexError "index -1 is out of bounds for axis 0 with size 0")
  | x :: a' => inr (last a' x)
  end.

(** Elementwise binary operation on two arrays of the same shape. *)
Fixpoint zip_with {A B C : Type} (f : A -> B -> C)
         (xs : list A) (ys : list B) : list C :=
  match xs, ys with
  | x :: xs', y :: ys' => f x y :: zip_with f xs' ys'
  | _, _ => []
  end.

(** [range(n)] as floats, the [arange(0, num)] of [linspace]. *)
Definition arange (n : nat) : list Q :=
  map (fun i => inject_Z (Z.of_nat i)) (seq 0 n).

(** [y[-1] = v] on a non-empty array. *)
Definition set_last (y : list Q) (v : Q) : list Q :=
  match y with
  | [] => []
  | _ :: _ => removelast y ++ [v]
  end.

(** [numpy.linspace(start, stop, num)] with the default [endpoint=True]:
    [num] evenly spaced points over the closed interval, the step being
    [(stop - start) / (num - 1)], and the last point set to [stop]. *)
Definition linspace (start stop : Q) (num : Z) : exn + list Q :=
  if (num <? 0)%Z then
    inl (ValueError ("Number of samples, " ++ str_int num
                       ++ ", must be non-negative."))
  else
    let div := (num - 1)%Z in
    let y := arange (Z.to_nat num) in
    let delta := stop - start in
    let y := if (0 <? div)%Z
             then map (fun v => v * (delta / inject_Z div) + start) y
             else map (fun v => v * delta + start) y in
    inr (if (1 <? num)%Z then set_last y stop else y).

(** [numpy.clip(a, a_min, a_max)] on one element. *)
Definition clip (a a_min a_max : Q) : Q := Qmin a_max (Qmax a a_min).

End Py.

Import Py.

(** ** Static tables (lines 8-21) *)

Record MaterialProfile : Type := {
  hardness : Q;
  thermal_conductivity : Q;
  specific_heat : Q
}.

Definition MATERIAL_PROFILES : dict MaterialProfile :=
  [ ("Mild Steel",
     {| hardness := 120; thermal_conductivity := 50; specific_heat := 460 |});
    ("Aluminum",
     {| hardness := 35; thermal_conductivity := 237; specific_heat := 900 |});
    ("Wood",
     {| hardness := 2; thermal_conductivity := 0.12; specific_heat := 1700 |}) ].

Definition TOOL_WEAR_RATES : dict Q :=
  [ ("Mild Steel", 0.15); ("Aluminum", 0.08); ("Wood", 0.02) ].

Definition JOB_TYPES : list string :=
  [ "turning"; "facing"; "threading"; "drilling"; "boring"; "knurling" ].

(** ** Environment and state of a call *)

(** What one pass of the connection loop meets: the constructor
    [MongoClient(...)] may raise, or return a client whose [ping] raises. *)
Inductive ConnectOutcome : Type :=
| Connected
| ConstructorRaises (e : exn)
| PingRaises (e : exn).

Record Env : Type := {
  (** the k-th raw value of [random]'s generator *)
  random_raw : nat -> Z;
  (** the k-th standard normal deviate of [numpy.random]'s generator *)
  standard_normal : nat -> Q;
  (** the k-th reading of [datetime.now()], in microseconds *)
  datetime_now : nat -> Z;
  (** the outcome of connection attempt k *)
  connect_outcome : nat -> ConnectOutcome;
  (** whether the k-th [create_index] raises *)
  create_index_outcome : nat -> option exn;
  (** whether [insert_one] raises (duplicate JobID, server down, ...) *)
  insert_one_outcome : option exn;
  (** whether [insert_many] of batch k raises, and after how many documents
      of the batch were written *)
  insert_many_outcome : nat -> option (exn * nat);
  (** whether [update_one] raises *)
  update_one_outcome : option exn
}.

(** A document of [Lathe<id>.JobDetails]. *)
Record JobRecord : Type := {
  job_JobID : string;
  job_LatheID : Z;
  job_Material : string;
  job_JobType : string;
  job_ToolNo : Z;
  StartTime : Z;
  Status : string;
  FinalToolWear : Q;
  EndTime : option Z
}.

(** A document of [Lathe<id>.SensoryData]. *)
Record Document : Type := {
  timestamp : Z;
  JobID : string;
  LatheID : Z;
  Material : string;
  JobType : string;
  ToolNo : Z;
  Temperature : Q;
  Vibration : Q;
  RPM : Q;
  Power : Q;
  ToolWear : Q
}.

(** The collections [Lathe<id>.JobDetails] and [Lathe<id>.SensoryData] of
    all lathes are kept in two lists; the [LatheID] field of a document
    names the collection it is in. *)
Record State : Type := {
  random_pos : nat;
  normal_pos : nat;
  clock_pos : nat;
  JobDetails : list JobRecord;
  SensoryData : list Document;
  (** ['client' in locals()] *)
  client_bound : bool;
  client_closed : bool
}.

Definition with_random_pos (n : nat) (s : State) : State :=
  {| random_pos := n; normal_pos := normal_pos s; clock_pos := clock_pos s;
     JobDetails := JobDetails s; SensoryData := SensoryData s;
     client_bound := client_bound s; client_closed := client_closed s |}.

Definition with_normal_pos (n : nat) (s : State) : State :=
  {| random_pos := random_pos s; normal_pos := n; clock_pos := clock_pos s;
     JobDetails := JobDetails s; SensoryData := SensoryData s;
     client_bound := client_bound s; client_closed := client_closed s |}.

Definition with_clock_pos (n : nat) (s : State) : State :=
  {| random_pos := random_pos s; normal_pos := normal_pos s; clock_pos := n;
     JobDetails := JobDetails s; SensoryData := SensoryData s;
     client_bound := client_bound s; client_closed := client_closed s |}.

Definition with_JobDetails (l : list JobRecord) (s : State) : State :=
  {| random_pos := random_pos s; normal_pos := normal_pos s;
     clock_pos := clock_pos s;
     JobDetails := l; SensoryData := SensoryData s;
     client_bound := client_bound s; client_closed := client_closed s |}.

Definition with_SensoryData (l : list Document) (s : State) : State :=
  {| random_pos := random_pos s; normal_pos := normal_pos s;
     clock_pos := clock_pos s;
     JobDetails := JobDetails s; SensoryData := l;
     client_bound := client_bound s; client_closed := client_closed s |}.

Definition with_client (bound closed : bool) (s : State) : State :=
  {| random_pos := random_pos s; normal_pos := normal_pos s;
     clock_pos := clock_pos s;
     JobDetails := JobDetails s; SensoryData := SensoryData s;
     client_bound := bound; client_closed := closed |}.

(** ** The monad of a call: state passing with exceptions *)

Definition M (A : Type) : Type := State -> (exn + A) * State.

Definition ret {A : Type} (a : A) : M A := fun s => (inr a, s).

Definition raise {A : Type} (e : exn) : M A := fun s => (inl e, s).

Definition bind {A B : Type} (m : M A) (k : A -> M B) : M B :=
  fun s =>
    match m s with
    | (inl e, s') => (inl e, s')
    | (inr a, s') => k a s'
    end.

(** A pure computation that may raise. *)
Definition lift {A : Type} (r : exn + A) : M A := fun s => (r, s).

(** A request whose failure is decided by the environment. *)
Definition request (o : option exn) : M unit :=
  match o with
  | Some e => raise e
  | None => ret tt
  end.

Declare Scope py_scope.
Delimit Scope py_scope with py.
Notation "x <- m ;; k" := (bind m (fun x => k))
  (at level 61, m at next level, right associativity) : py_scope.
Notation "' pat <- m ;; k" := (bind m (fun x => match x with pat => k end))
  (at level 61, pat pattern, m at next level, right associativity) : py_scope.
Notation "m ;;; k" := (bind m (fun _ => k))
  (at level 61, right associativity) : py_scope.
Open Scope py_scope.

(** ** The module's functions *)

(** The arrays computed by the simulation block of
    [generate_batch_sensor_data] (lines 100-143). *)
Record Simulation : Type := {
  n_points : Z;
  elapsed_minutes : list Q;
  tool_wear : list Q;
  current_rpm : list Q;
  current_power : list Q;
  workpiece_temp : list Q;
  vibration : list Q
}.

(** [zip] of the six sequences into the documents of lines 151-165. *)
Fixpoint make_documents (job_id : string) (lathe_id : Z)
         (material job_type : string) (tool_no : Z)
         (timestamps : list Z) (temps vibs rpms pwrs wears : list Q)
  : list Document :=
  match timestamps, temps, vibs, rpms, pwrs, wears with
  | ts :: timestamps', temp :: temps', vib :: vibs', rpm :: rpms',
    pwr :: pwrs', wear :: wears' =>
      {| timestamp := ts; JobID := job_id; LatheID := lathe_id;
         Material := material; JobType := job_type; ToolNo := tool_no;
         Temperature := temp; Vibration := vib; RPM := rpm; Power := pwr;
         ToolWear := wear |}
        :: make_documents job_id lathe_id material job_type tool_no
             timestamps' temps' vibs' rpms' pwrs' wears'
  | _, _, _, _, _, _ => []
  end.

(** [range(0, stop, step)]. *)
Definition range_step (stop step : nat) : list nat :=
  map (fun k => (k * step)%nat) (seq 0 ((stop + step - 1) / step)).

(** [update_one] with the filter [{'JobID': job_id}] on the JobDetails
    collection of [lathe_id]: the first match is updated. *)
Fixpoint update_first (lathe_id : Z) (job_id : string)
         (set : JobRecord -> JobRecord) (col : list JobRecord)
  : list JobRecord :=
  match col with
  | [] => []
  | r :: col' =>
      if (job_LatheID r =? lathe_id)%Z && String.eqb (job_JobID r) job_id
      then set r :: col'
      else r :: update_first lathe_id job_id set col'
  end.

Section Generator.

Variable env : Env.

(** [random.randint(a, b)]: an integer of [a..b] fixed by the generator's
    next raw value. *)
Definition randint (a b : Z) : M Z :=
  fun s =>
    (inr (a + random_raw env (random_pos s) mod (b - a + 1))%Z,
     with_random_pos (S (random_pos s)) s).

(** [numpy.random.normal(loc, scale, size)]: [size] successive draws,
    each [loc + scale * z] for the generator's next standard deviate. *)
Definition np_random_normal (loc scale : Q) (size : Z) : M (list Q) :=
  fun s =>
    if (size <? 0)%Z then
      (inl (ValueError "negative dimensions are not allowed"), s)
    else
      let n := Z.to_nat size in
      (inr (map (fun k => loc + scale * standard_normal env (normal_pos s + k))
                (seq 0 n)),
       with_normal_pos (normal_pos s + n) s).

(** [datetime.now()]. *)
Definition now : M Z :=
  fun s => (inr (datetime_now env (clock_pos s)),
            with_clock_pos (S (clock_pos s)) s).

(** Lines 23-40.  Both dict literals are built in full before they are
    indexed, so the three [randint] draws happen whatever the material. *)
Definition calculate_machine_parameters
           (material job_type : string) (tool_diameter : Z) : M (Z * Q) :=
  mild_steel <- randint 800 1200 ;;
  aluminum <- randint 1500 2500 ;;
  wood <- randint 2800 3500 ;;
  base_rpm <- lift (getitem [ ("Mild Steel", mild_steel);
                              ("Aluminum", aluminum);
                              ("Wood", wood) ] material) ;;
  factor <- lift (getitem [ ("turning", 3.5); ("facing", 4.0);
                            ("threading", 2.8); ("drilling", 5.0);
                            ("boring", 3.0); ("knurling", 2.5) ] job_type) ;;
  let base_power := factor * (inject_Z tool_diameter / 10) in
  ret (base_rpm, base_power).

(** Lines 42-52: three [create_index] requests. *)
Definition ensure_collections_exist (lathe_id : Z) : M unit :=
  request (create_index_outcome env 0) ;;;
  request (create_index_outcome env 1) ;;;
  request (create_index_outcome env 2).

Definition max_retries : nat := 3.

(** Lines 61-74: the connection loop over [range(max_retries)].  A failed
    attempt re-raises on the last pass and otherwise goes round again. *)
Fixpoint connect_loop (attempts : list nat) : M unit :=
  match attempts with
  | [] => ret tt
  | attempt :: rest =>
      fun s =>
        match connect_outcome env attempt with
        | Connected => (inr tt, with_client true (client_closed s) s)
        | ConstructorRaises e =>
            if Nat.eqb attempt (max_retries - 1) then (inl e, s)
            else connect_loop rest s
        | PingRaises e =>
            let s' := with_client true (client_closed s) s in
            if Nat.eqb attempt (max_retries - 1) then (inl e, s')
            else connect_loop rest s'
        end
  end.

Definition insert_one (r : JobRecord) : M unit :=
  request (insert_one_outcome env) ;;;
  (fun s => (inr tt, with_JobDetails (JobDetails s ++ [r]) s)).

(** [insert_many] of batch number [k]; returns [len(result.inserted_ids)].
    When the request raises, the documents the server had already taken
    stay written. *)
Definition insert_many (k : nat) (batch : list Document) : M nat :=
  fun s =>
    match insert_many_outcome env k with
    | None =>
        (inr (length batch), with_SensoryData (SensoryData s ++ batch) s)
    | Some (e, written) =>
        (inl e,
         with_SensoryData (SensoryData s ++ firstn written batch) s)
    end.

Definition update_one (lathe_id : Z) (job_id : string)
           (set : JobRecord -> JobRecord) : M unit :=
  request (update_one_outcome env) ;;;
  (fun s =>
     (inr tt,
      with_JobDetails (update_first lathe_id job_id set (JobDetails s)) s)).

Definition batch_size : nat := 1000.

(** Lines 168-176: the loop over [range(0, len(documents), batch_size)]. *)
Fixpoint insert_batches (starts : list nat) (documents : list Document)
         (inserted_count : nat) : M nat :=
  match starts with
  | [] => ret inserted_count
  | i :: rest =>
      let batch := firstn batch_size (skipn i documents) in
      n <- insert_many (i / batch_size) batch ;;
      insert_batches rest documents (inserted_count + n)
  end.

(** Lines 100-143: the simulation parameters and the six arrays. *)
Definition simulate (duration : Q) (material job_type : string)
           (tool_no : Z) : M Simulation :=
  let tool_diameter := (10 + tool_no * 2)%Z in
  ' (base_rpm, base_power) <-
    calculate_machine_parameters material job_type tool_diameter ;;
  let cooling_efficiency := 0.7 in
  let ambient_temp := 25 in
  let n_points := int (duration * 60 / 5) in
  elapsed_minutes <- lift (linspace 0 duration n_points) ;;
  rate <- lift (getitem TOOL_WEAR_RATES material) ;;
  wear_noise <- np_random_normal 1 0.05 n_points ;;
  let tool_wear :=
    map (Qmin 100)
        (zip_with Qmult (map (Qmult rate) elapsed_minutes) wear_noise) in
  rpm_noise <- np_random_normal 0 0.03 n_points ;;
  let current_rpm :=
    zip_with (fun wear noise =>
                inject_Z base_rpm * (1 - wear / 500) * (1 + noise))
             tool_wear rpm_noise in
  let current_rpm := map (Qmax 100) current_rpm in
  let power_factor := map (fun wear => 1 + (wear / 100) * 0.5) tool_wear in
  power_noise <- np_random_normal 0 0.05 n_points ;;
  let current_power :=
    zip_with (fun factor noise => base_power * factor * (1 + noise))
             power_factor power_noise in
  let current_power := map (Qmax 0.5) current_power in
  material_props <- lift (getitem MATERIAL_PROFILES material) ;;
  let heat_generation := map (fun pwr => pwr * 1000 * 0.8) current_power in
  let temp_increase :=
    zip_with (fun heat t =>
                (heat * t * 60)
                / (specific_heat material_props * hardness material_props))
             heat_generation elapsed_minutes in
  let workpiece_temp :=
    map (fun inc => ambient_temp + inc * (1 - cooling_efficiency))
        temp_increase in
  temp_noise <- np_random_normal 0 2 n_points ;;
  let workpiece_temp :=
    zip_with (fun temp noise => clip (temp + noise) ambient_temp 300)
             workpiece_temp temp_noise in
  vibration_base <- lift (getitem [ ("Mild Steel", 2.5); ("Aluminum", 1.8);
                                    ("Wood", 0.8) ] material) ;;
  vib_noise <- np_random_normal 0 0.1 n_points ;;
  let vibration :=
    zip_with (fun x noise => x * (1 + noise))
             (zip_with (fun rpm wear =>
                          vibration_base * (rpm / 1000) * (1 + wear / 50))
                       current_rpm tool_wear)
             vib_noise in
  let vibration := map (Qmax 0) vibration in
  ret {| n_points := n_points; elapsed_minutes := elapsed_minutes;
         tool_wear := tool_wear; current_rpm := current_rpm;
         current_power := current_power; workpiece_temp := workpiece_temp;
         vibration := vibration |}.

(** [timedelta(seconds=5*i)] added to a reading of the clock. *)
Definition add_seconds (t : Z) (seconds : Z) : Z :=
  (t + seconds * 1000000)%Z.

(** Lines 57-188: the body of the [try] statement.
    [client.get_database()] only builds a handle.  [timestamps[-1]] is
    read after [tool_wear[-1]], which has already raised when the arrays
    are empty. *)
Definition try_body (lathe_id : Z) (job_id : string) (duration : Q)
           (material job_type : string) (tool_no : Z) : M string :=
  connect_loop (seq 0 max_retries) ;;;
  ensure_collections_exist lathe_id ;;;
  start_time <- now ;;
  let job_record :=
    {| job_JobID := job_id; job_LatheID := lathe_id;
       job_Material := material; job_JobType := job_type;
       job_ToolNo := tool_no; StartTime := start_time;
       Status := "Running"; FinalToolWear := 0; EndTime := None |} in
  insert_one job_record ;;;
  sim <- simulate duration material job_type tool_no ;;
  base_time <- now ;;
  let timestamps :=
    map (fun i => add_seconds base_time (5 * Z.of_nat i))
        (seq 0 (Z.to_nat (n_points sim))) in
  let documents :=
    make_documents job_id lathe_id material job_type tool_no timestamps
      (workpiece_temp sim) (vibration sim) (current_rpm sim)
      (current_power sim) (tool_wear sim) in
  inserted_count <-
    insert_batches (range_step (length documents) batch_size) documents 0 ;;
  final_wear <- lift (last_item (tool_wear sim)) ;;
  let end_time := last timestamps base_time in
  update_one lathe_id job_id
    (fun r =>
       {| job_JobID := job_JobID r; job_LatheID := job_LatheID r;
          job_Material := job_Material r; job_JobType := job_JobType r;
          job_ToolNo := job_ToolNo r; StartTime := StartTime r;
          Status := "Completed"; FinalToolWear := final_wear;
          EndTime := Some end_time |}) ;;;
  ret ("Successfully generated " ++ str_int (Z.of_nat inserted_count)
         ++ " data points for Job " ++ job_id
         ++ " (Lathe " ++ str_int lathe_id ++ ")").

(** Lines 54-194: the [try] body under [except Exception] and [finally].
    The function starts with no local [client]; whatever the body does,
    the client is closed if one was bound, and an exception becomes the
    returned text. *)
Definition generate_batch_sensor_data
           (lathe_id : Z) (job_id : string) (duration : Q)
           (material job_type : string) (tool_no : Z) : M string :=
  fun s =>
    let '(r, s1) :=
      try_body lathe_id job_id duration material job_type tool_no
               (with_client false false s) in
    let s2 := if client_bound s1 then with_client true true s1 else s1 in
    match r with
    | inr message => (inr message, s2)
    | inl e => (inr ("Error occurred: " ++ str e), s2)
    end.

End Generator.

(** ** Concrete environments used in the examples *)

(** A server that answers every request, a generator whose deviates are all
    zero (every [numpy.random.normal] draw is its mean). *)
Definition calm_env : Env :=
  {| random_raw := fun _ => 0%Z;
     standard_normal := fun _ => 0;
     datetime_now := fun k => Z.of_nat k;
     connect_outcome := fun _ => Connected;
     create_index_outcome := fun _ => None;
     insert_one_outcome := None;
     insert_many_outcome := fun _ => None;
     update_one_outcome := None |}.

(** An empty database and fresh generators. *)
Definition fresh : State :=
  {| random_pos := 0; normal_pos := 0; clock_pos := 0;
     JobDetails := []; SensoryData := [];
     client_bound := false; client_closed := false |}.


(** ** Vocabulary of the statements *)

(** A material is known when the property tables have it; the tables of
    wear rates, base speeds and base vibrations have the same keys. *)
Definition known_material (material : string) : Prop :=
  In material (keys MATERIAL_PROFILES).

Definition known_job_type (job_type : string) : Prop :=
  In job_type JOB_TYPES.

(** [sample_formulas env p base_rpm base_power rate props vb sim]: the six
    arrays of [sim] have [n_points sim] entries, and entry [i] of each is
    the value of the formula of lines 110-143 at elapsed time
    [elapsed_minutes[i]], with the deviates the generator hands out from
    position [p] on, array after array. *)
Definition sample_formulas (env : Env) (p : nat) (base_rpm : Z)
           (base_power rate : Q) (props : MaterialProfile) (vb : Q)
           (sim : Simulation) : Prop :=
  let n := Z.to_nat (n_points sim) in
  let z := fun k => standard_normal env (p + k) in
  (length (elapsed_minutes sim) = n /\ length (tool_wear sim) = n
   /\ length (current_rpm sim) = n /\ length (current_power sim) = n
   /\ length (workpiece_temp sim) = n /\ length (vibration sim) = n)
  /\ forall i, (i < n)%nat ->
       let t := nth i (elapsed_minutes sim) 0 in
       let wear := nth i (tool_wear sim) 0 in
       let rpm := nth i (current_rpm sim) 0 in
       let pwr := nth i (current_power sim) 0 in
       wear = Qmin 100 (rate * t * (1 + 0.05 * z i))
       /\ rpm = Qmax 100 (inject_Z base_rpm * (1 - wear / 500)
                          * (1 + (0 + 0.03 * z (n + i)%nat)))
       /\ pwr = Qmax 0.5 (base_power * (1 + (wear / 100) * 0.5)
                          * (1 + (0 + 0.05 * z (2 * n + i)%nat)))
       /\ nth i (workpiece_temp sim) 0
          = clip (25 + (pwr * 1000 * 0.8 * t * 60)
                       / (specific_heat props * hardness props) * (1 - 0.7)
                  + (0 + 2 * z (3 * n + i)%nat)) 25 300
       /\ nth i (vibration sim) 0
          = Qmax 0 (vb * (rpm / 1000) * (1 + wear / 50)
                    * (1 + (0 + 0.1 * z (4 * n + i)%nat))).


(** The three phases of the [try] body. *)

Section Phases.

Variable env : Env.

(** Lines 57-98: connection, indexes and the job record. *)
Definition open_job (lathe_id : Z) (job_id material job_type : string)
           (tool_no : Z) : M unit :=
  connect_loop env (seq 0 max_retries) ;;;
  ensure_collections_exist env lathe_id ;;;
  start_time <- now env ;;
  insert_one env
    {| job_JobID := job_id; job_LatheID := lathe_id;
       job_Material := material; job_JobType := job_type;
       job_ToolNo := tool_no; StartTime := start_time;
       Status := "Running"; FinalToolWear := 0; EndTime := None |}.

(** The documents of lines 145-165 for the arrays of [sim]. *)
Definition documents_of (lathe_id : Z) (job_id material job_type : string)
           (tool_no : Z) (base_time : Z) (sim : Simulation)
  : list Document :=
  make_documents job_id lathe_id material job_type tool_no
    (map (fun i => add_seconds base_time (5 * Z.of_nat i))
         (seq 0 (Z.to_nat (n_points sim))))
    (workpiece_temp sim) (vibration sim) (current_rpm sim)
    (current_power sim) (tool_wear sim).

(** Lines 145-188: timestamps, documents, batches and the job update. *)
Definition store_samples (lathe_id : Z) (job_id material job_type : string)
           (tool_no : Z) (sim : Simulation) : M string :=
  base_time <- now env ;;
  let timestamps :=
    map (fun i => add_seconds base_time (5 * Z.of_nat i))
        (seq 0 (Z.to_nat (n_points sim))) in
  let documents :=
    documents_of lathe_id job_id material job_type tool_no base_time sim in
  inserted_count <-
    insert_batches env (range_step (length documents) batch_size)
                   documents 0 ;;
  final_wear <- lift (last_item (tool_wear sim)) ;;
  let end_time := last timestamps base_time in
  update_one env lathe_id job_id
    (fun r =>
       {| job_JobID := job_JobID r; job_LatheID := job_LatheID r;
          job_Material := job_Material r; job_JobType := job_JobType r;
          job_ToolNo := job_ToolNo r; StartTime := StartTime r;
          Status := "Completed"; FinalToolWear := final_wear;
          EndTime := Some end_time |}) ;;;
  ret ("Successfully generated " ++ str_int (Z.of_nat inserted_count)
         ++ " data points for Job " ++ job_id
         ++ " (Lathe " ++ str_int lathe_id ++ ")").

End Phases.

(** The connection loop gets through when one of its passes connects. *)
Definition connects (env : Env) : bool :=
  existsb (fun k => match connect_outcome env k with
                    | Connected => true
                    | _ => false
                    end)
          (seq 0 max_retries).

(** A database that serves every request of a call. *)
Definition db_available (env : Env) : Prop :=
  connects env = true
  /\ (forall k, create_index_outcome env k = None)
  /\ insert_one_outcome env = None
  /\ (forall k, insert_many_outcome env k = None)
  /\ update_one_outcome env = None.

(** [writes P m]: whatever [m] does, the SensoryData collections only grow,
    and by documents that satisfy [P]. *)
Definition writes (P : Document -> Prop) {A : Type} (m : M A) : Prop :=
  forall s r s',
    m s = (r, s') ->
    exists w, SensoryData s' = (SensoryData s ++ w)%list /\ Forall P w.

(** [quiet m]: [m] leaves the two generators and the SensoryData
    collections as they are. *)
Definition quiet {A : Type} (m : M A) : Prop :=
  forall s r s',
    m s = (r, s') ->
    SensoryData s' = SensoryData s
    /\ normal_pos s' = normal_pos s
    /\ random_pos s' = random_pos s.

(** The clamp bounds of one document. *)
Definition within_clamps (d : Document) : Prop :=
  100 <= RPM d /\ 0.5 <= Power d
  /\ 25 <= Temperature d <= 300 /\ 0 <= Vibration d.

(** [silent m]: [m] leaves the SensoryData collections as they are. *)
Definition silent {A : Type} (m : M A) : Prop :=
  forall s r s', m s = (r, s') -> SensoryData s' = SensoryData s.

(** The text a call answers with when its [try] body ends in [r]. *)
Definition answer (r : exn + string) : string :=
  match r with
  | inr message => message
  | inl e => "Error occurred: " ++ str e
  end.

(** ** Further environments used in the examples *)

(** As [calm_env], but the second deviate handed out is forty standard
    deviations below the mean. *)
Definition gusty_env : Env :=
  {| random_raw := fun _ => 0%Z;
     standard_normal := fun k => if Nat.eqb k 1 then -40 else 0;
     datetime_now := fun k => Z.of_nat k;
     connect_outcome := fun _ => Connected;
     create_index_outcome := fun _ => None;
     insert_one_outcome := None;
     insert_many_outcome := fun _ => None;
     update_one_outcome := None |}.

(** The deviates [numpy.random.normal] can hand out.  The process-wide
    numpy generator draws a standard deviate by the polar method from two
    uniforms of 53 bits: [z = x * sqrt(-2 * ln(r2) / r2)] with
    [r2 = x1^2 + x2^2] in [2^-104, 1), so that
    [|z| <= sqrt(2 * 104 * ln 2) < 12.01]. *)
Definition numpy_deviates (env : Env) : Prop :=
  forall k, -(12.01) <= standard_normal env k
            /\ standard_normal env k <= 12.01.

(** As [calm_env], but the second deviate handed out is twelve standard
    deviations below the mean, about as low as numpy's generator goes. *)
Definition breezy_env : Env :=
  {| random_raw := fun _ => 0%Z;
     standard_normal := fun k => if Nat.eqb k 1 then -12 else 0;
     datetime_now := fun k => Z.of_nat k;
     connect_outcome := fun _ => Connected;
     create_index_outcome := fun _ => None;
     insert_one_outcome := None;
     insert_many_outcome := fun _ => None;
     update_one_outcome := None |}.

(** The generators of [calm_env] behind a server that cannot be reached
    and another clock. *)
Definition offline_env : Env :=
  {| random_raw := fun _ => 0%Z;
     standard_normal := fun _ => 0;
     datetime_now := fun k => (1000 + Z.of_nat k)%Z;
     connect_outcome :=
       fun _ => PingRaises (PyMongoError "localhost:27017: connection refused");
     create_index_outcome := fun _ => None;
     insert_one_outcome := None;
     insert_many_outcome := fun _ => None;
     update_one_outcome := None |}.

(** A database that already holds a sample of an earlier job. *)
Definition used : State :=
  {| random_pos := 0; normal_pos := 0; clock_pos := 7;
     JobDetails := [];
     SensoryData :=
       [ {| timestamp := 0; JobID := "JOB0000"; LatheID := 9;
            Material := "Wood"; JobType := "facing"; ToolNo := 2;
            Temperature := 25; Vibration := 0; RPM := 100; Power := 0.5;
            ToolWear := 0 |} ];
     client_bound := false; client_closed := false |}.

(** [same_draws env env' s s']: from where the two states stand, the two
    environments hand out the same raw integers and the same deviates. *)
Definition same_draws (env env' : Env) (s s' : State) : Prop :=
  (forall k, random_raw env (random_pos s + k)
             = random_raw env' (random_pos s' + k))
  /\ (forall k, standard_normal env (normal_pos s + k)
                = standard_normal env' (normal_pos s' + k)).

(** [agree env env' m m']: run on the same draws, [m] and [m'] end the same
    way and leave the generators on the same draws. *)
Definition agree (env env' : Env) {A : Type} (m m' : M A) : Prop :=
  forall s s',
    same_draws env env' s s' ->
    fst (m s) = fst (m' s')
    /\ same_draws env env' (snd (m s)) (snd (m' s')).

(** ** The driver [generate_sample_data] (lines 196-220) *)

(** [format(n, '02d')]: the decimal digits, zero filled to two characters. *)
Definition format_02d (n : Z) : string :=
  let digits := str_int n in
  if (String.length digits <? 2)%nat then "0" ++ digits else digits.

(** Line 203: [f"JOB{lathe_id:02d}{job_num:02d}"]. *)
Definition job_id_of (lathe_id job_num : Z) : string :=
  "JOB" ++ format_02d lathe_id ++ format_02d job_num.

(** [range(1, n + 1)]. *)
Definition range_from_1 (n : Z) : list Z :=
  map Z.of_nat (seq 1 (Z.to_nat n)).

(** The pairs [(lathe_id, job_num)] in the order the two loops of lines
    201-202 visit them. *)
Definition job_numbers (num_lathes jobs_per_lathe : Z) : list (Z * Z) :=
  flat_map (fun lathe_id => map (pair lathe_id) (range_from_1 jobs_per_lathe))
           (range_from_1 num_lathes).

Section RandomModule.

Variable env : Env.

(** [random.random()]: 53 bits of the generator's next raw value, scaled
    into [0, 1). *)
Definition random_random : M Q :=
  fun s =>
    (inr (inject_Z (random_raw env (random_pos s) mod 2 ^ 53)
          / inject_Z (2 ^ 53)),
     with_random_pos (S (random_pos s)) s).

(** [random.uniform(a, b)]: [a + (b - a) * random()].  With floats the
    rounding of this sum may reach [b] itself; the statements about the
    driver allow for it. *)
Definition uniform (a b : Q) : M Q :=
  u <- random_random ;;
  ret (a + (b - a) * u).

(** [random.choice(seq)]: the element at an index below [len(seq)] fixed by
    the generator's next raw value; an empty sequence raises. *)
Definition choice {A : Type} (seq : list A) : M A :=
  fun s =>
    match seq with
    | [] => (inl (IndexError "Cannot choose from an empty sequence"), s)
    | a :: _ =>
        (inr (nth (Z.to_nat (random_raw env (random_pos s)
                             mod Z.of_nat (length seq))) seq a),
         with_random_pos (S (random_pos s)) s)
    end.

End RandomModule.

Section Driver.

(** The environment that serves the c-th job of a run.  In one process the
    generators and the clock are the same in all of them; the database may
    answer each job differently. *)
Variable env_of_call : nat -> Env.

(** Lines 201-218: the two nested loops, over the pairs
    [(lathe_id, job_num)] in the order the loops visit them. *)
Fixpoint run_jobs (materials : list string) (jobs : list (Z * Z))
         (call : nat) (results : list string) : M (list string) :=
  match jobs with
  | [] => ret results
  | (lathe_id, job_num) :: rest =>
      let env := env_of_call call in
      let job_id := job_id_of lathe_id job_num in
      material <- choice env materials ;;
      job_type <- choice env JOB_TYPES ;;
      tool_no <- randint env 1 10 ;;
      duration <- uniform env 5 30 ;;
      result <- generate_batch_sensor_data env lathe_id job_id duration
                                           material job_type tool_no ;;
      run_jobs materials rest (S call) (results ++ [result])
  end.

(** Lines 196-220. *)
Definition generate_sample_data (num_lathes jobs_per_lathe : Z)
  : M (list string) :=
  let materials := keys MATERIAL_PROFILES in
  run_jobs materials (job_numbers num_lathes jobs_per_lathe) 0 [].

End Driver.

(** ** Vocabulary of the further properties *)

(** The exception a connection attempt ends with, if any. *)
Definition raised_by (o : ConnectOutcome) : option exn :=
  match o with
  | Connected => None
  | ConstructorRaises e => Some e
  | PingRaises e => Some e
  end.

(** [preserves f m]: whatever [m] does, the observation [f] of the state
    is the same before and after. *)
Definition preserves {X A : Type} (f : State -> X) (m : M A) : Prop :=
  forall s r s', m s = (r, s') -> f s' = f s.

(** Two states that differ at most in the client flags. *)
Definition same_but_client (s s' : State) : Prop :=
  random_pos s' = random_pos s /\ normal_pos s' = normal_pos s
  /\ clock_pos s' = clock_pos s /\ JobDetails s' = JobDetails s
  /\ SensoryData s' = SensoryData s.

(** The tags a call puts on each of its documents. *)
Definition tagged (lathe_id : Z) (job_id material job_type : string)
           (tool_no : Z) (d : Document) : Prop :=
  JobID d = job_id /\ LatheID d = lathe_id /\ Material d = material
  /\ JobType d = job_type /\ ToolNo d = tool_no.

(** No record of this lathe and job in a JobDetails collection. *)
Definition no_record_of (lathe_id : Z) (job_id : string)
           (col : list JobRecord) : Prop :=
  Forall (fun r => ~ (job_LatheID r = lathe_id /\ job_JobID r = job_id)) col.

(** A server that is down at every connection attempt, the last one with a
    time-out. *)
Definition down_env : Env :=
  {| random_raw := fun _ => 0%Z;
     standard_normal := fun _ => 0;
     datetime_now := fun k => Z.of_nat k;
     connect_outcome :=
       fun k => if Nat.eqb k 2
                then PingRaises (PyMongoError "localhost:27017: timed out")
                else ConstructorRaises (PyMongoError "connection refused");
     create_index_outcome := fun _ => None;
     insert_one_outcome := None;
     insert_many_outcome := fun _ => None;
     update_one_outcome := None |}.

(** A server that fails the first batch after two documents. *)
Definition full_disk_env : Env :=
  {| random_raw := fun _ => 0%Z;
     standard_normal := fun _ => 0;
     datetime_now := fun k => Z.of_nat k;
     connect_outcome := fun _ => Connected;
     create_index_outcome := fun _ => None;
     insert_one_outcome := None;
     insert_many_outcome :=
       fun k => if Nat.eqb k 0 then Some (PyMongoError "disk full", 2%nat)
                else None;
     update_one_outcome := None |}.

(** What the text of one job of the driver looks like when it went well. *)
Definition job_succeeded (job : Z * Z) (result : string) : Prop :=
  exists points : Z,
    (60 <= points <= 360)%Z
    /\ result = "Successfully generated " ++ str_int points
                 ++ " data points for Job " ++ job_id_of (fst job) (snd job)
                 ++ " (Lathe " ++ str_int (fst job) ++ ")".

(** A document used where [nth] and [last] ask for a default. *)
Definition blank_document : Document :=
  {| timestamp := 0; JobID := ""; LatheID := 0; Material := "";
     JobType := ""; ToolNo := 0; Temperature := 0; Vibration := 0;
     RPM := 0; Power := 0; ToolWear := 0 |}.

(** The connection, the indexes and the job record get through. *)
Definition job_can_open (env : Env) : Prop :=
  connects env = true
  /\ (forall k, create_index_outcome env k = None)
  /\ insert_one_outcome env = None.

(** * Properties *)

(** ** Lists and arrays *)

Section Arrays.

Context {A B C : Type}.

Lemma zip_with_length (f : A -> B -> C) (xs : list A) (ys : list B) :
  length (zip_with f xs ys) = Nat.min (length xs) (length ys).
Proof.
  revert ys; induction xs as [|x xs IH]; intros [|y ys]; simpl; auto.
Qed.

Lemma zip_with_nth (f : A -> B -> C) (xs : list A) (ys : list B)
      (i : nat) (a : A) (b : B) (c : C) :
  (i < length xs)%nat -> (i < length ys)%nat ->
  nth i (zip_with f xs ys) c = f (nth i xs a) (nth i ys b).
Proof.
  revert ys i; induction xs as [|x xs IH]; intros [|y ys] [|i];
    simpl; intros; try lia; auto.
  apply IH; lia.
Qed.

Lemma zip_with_Forall (P : C -> Prop) (f : A -> B -> C)
      (xs : list A) (ys : list B) :
  (forall x y, P (f x y)) -> Forall P (zip_with f xs ys).
Proof.
  intros H; revert ys; induction xs as [|x xs IH]; intros [|y ys];
    simpl; constructor; auto.
Qed.

Lemma map_Forall (P : B -> Prop) (f : A -> B) (xs : list A) :
  (forall x, P (f x)) -> Forall P (map f xs).
Proof.
  intros H; induction xs; simpl; constructor; auto.
Qed.

End Arrays.

Lemma Forall_firstn {A : Type} (P : A -> Prop) (n : nat) (l : list A) :
  Forall P l -> Forall P (firstn n l).
Proof.
  intros H; revert n; induction H; intros [|n]; simpl; constructor; auto.
Qed.

Lemma Forall_skipn {A : Type} (P : A -> Prop) (n : nat) (l : list A) :
  Forall P l -> Forall P (skipn n l).
Proof.
  intros H; revert n; induction H; intros [|n]; simpl; auto.
Qed.

Lemma arange_length (n : nat) : length (arange n) = n.
Proof. unfold arange; now rewrite length_map, length_seq. Qed.

Lemma arange_nth (n i : nat) :
  (i < n)%nat -> nth i (arange n) 0 = inject_Z (Z.of_nat i).
Proof.
  intros H; unfold arange.
  rewrite (nth_indep _ 0 (inject_Z (Z.of_nat 0))) by now rewrite length_map, length_seq.
  rewrite (map_nth (fun i => inject_Z (Z.of_nat i))), seq_nth; auto.
Qed.

Lemma set_last_cons (a b : Q) (y : list Q) (v : Q) :
  set_last (a :: b :: y) v = a :: set_last (b :: y) v.
Proof. reflexivity. Qed.

Lemma set_last_length (y : list Q) (v : Q) :
  length (set_last y v) = length y.
Proof.
  induction y as [|a [|b y] IH]; auto.
  rewrite set_last_cons. simpl length in *. now rewrite IH.
Qed.

Lemma set_last_nth (y : list Q) (v : Q) (i : nat) :
  (i < length y)%nat ->
  nth i (set_last y v) 0 = if Nat.eqb i (length y - 1) then v else nth i y 0.
Proof.
  revert i; induction y as [|a [|b y] IH]; intros i H.
  - simpl in H; lia.
  - simpl in H. assert (i = 0%nat) by lia; subst; reflexivity.
  - rewrite set_last_cons. destruct i as [|i]; [reflexivity|].
    simpl nth. rewrite IH by (simpl in *; lia).
    simpl length. replace (S (S (length y)) - 1)%nat with (S (length y)) by lia.
    replace (S (length y) - 1)%nat with (length y) by lia.
    reflexivity.
Qed.

(** ** [linspace] *)

Lemma linspace_inr (start stop : Q) (num : Z) (l : list Q) :
  linspace start stop num = inr l ->
  (0 <= num)%Z /\ length l = Z.to_nat num.
Proof.
  unfold linspace. destruct (Z.ltb_spec num 0); [discriminate|].
  intros E; injection E as <-. split; [assumption|].
  destruct (1 <? num)%Z; destruct (0 <? num - 1)%Z;
    rewrite ?set_last_length, length_map, arange_length; reflexivity.
Qed.

Lemma linspace_total (start stop : Q) (num : Z) :
  (0 <= num)%Z -> exists l, linspace start stop num = inr l.
Proof.
  intros H. unfold linspace. destruct (Z.ltb_spec num 0); [lia|].
  eexists; reflexivity.
Qed.

Lemma linspace_raises (start stop : Q) (num : Z) :
  (num < 0)%Z -> exists msg, linspace start stop num = inl (ValueError msg).
Proof.
  intros H. unfold linspace. destruct (Z.ltb_spec num 0); [|lia].
  eexists; reflexivity.
Qed.

(** With at least two points, point [i] of [linspace(0, stop, num)] is
    [i * stop / (num - 1)]. *)
Lemma linspace_nth (stop : Q) (num : Z) (l : list Q) (i : nat) :
  linspace 0 stop num = inr l -> (1 < num)%Z -> (i < Z.to_nat num)%nat ->
  nth i l 0 == inject_Z (Z.of_nat i) * (stop / inject_Z (num - 1)).
Proof.
  intros E Hn Hi. unfold linspace in E.
  destruct (Z.ltb_spec num 0); [lia|].
  destruct (Z.ltb_spec 0 (num - 1)); [|lia].
  destruct (Z.ltb_spec 1 num); [|lia].
  injection E as <-.
  rewrite set_last_nth by (now rewrite length_map, arange_length).
  rewrite length_map, arange_length.
  assert (D : ~ inject_Z (num - 1) == 0).
  { intros D. unfold Qeq in D; simpl in D. lia. }
  destruct (Nat.eqb_spec i (Z.to_nat num - 1)) as [->|Hne].
  - replace (Z.of_nat (Z.to_nat num - 1)) with (num - 1)%Z by lia.
    field. exact D.
  - rewrite (nth_indep _ 0 ((fun v => v * ((stop - 0) / inject_Z (num - 1)) + 0) 0))
      by (now rewrite length_map, arange_length).
    rewrite (map_nth (fun v => v * ((stop - 0) / inject_Z (num - 1)) + 0)).
    rewrite arange_nth by assumption.
    field. exact D.
Qed.

(** The single point of [linspace(0, stop, 1)] is [0]. *)
Lemma linspace_first (stop : Q) (num : Z) (l : list Q) :
  linspace 0 stop num = inr l -> (0 < num)%Z -> nth 0 l 0 == 0.
Proof.
  intros E Hn.
  destruct (Z.eq_dec num 1) as [->|Hne].
  - unfold linspace in E; simpl in E. injection E as <-. simpl. ring.
  - rewrite (linspace_nth stop num l 0 E) by lia. simpl. 
    unfold Qeq; simpl. lia.
Qed.

(** ** The monad *)

Lemma bind_inr {A B : Type} (m : M A) (k : A -> M B) (s s' : State) (b : B) :
  bind m k s = (inr b, s') ->
  exists a s1, m s = (inr a, s1) /\ k a s1 = (inr b, s').
Proof.
  unfold bind. destruct (m s) as [[e|a] s1]; [discriminate|].
  intros H; exists a, s1; auto.
Qed.

Lemma bind_inl {A B : Type} (m : M A) (k : A -> M B) (s s' : State) (e : exn) :
  bind m k s = (inl e, s') ->
  m s = (inl e, s') \/ exists a s1, m s = (inr a, s1) /\ k a s1 = (inl e, s').
Proof.
  unfold bind. destruct (m s) as [[e'|a] s1]; intros H.
  - left; injection H as -> ->; reflexivity.
  - right; exists a, s1; auto.
Qed.

Lemma bind_eq_inr {A B : Type} (m : M A) (k : A -> M B) (s s1 : State) (a : A) :
  m s = (inr a, s1) -> bind m k s = k a s1.
Proof. unfold bind; now intros ->. Qed.

Lemma bind_eq_inl {A B : Type} (m : M A) (k : A -> M B) (s s1 : State) (e : exn) :
  m s = (inl e, s1) -> bind m k s = (inl e, s1).
Proof. unfold bind; now intros ->. Qed.

Lemma lift_inr {A : Type} (r : exn + A) (s s' : State) (a : A) :
  lift r s = (inr a, s') -> r = inr a /\ s' = s.
Proof. unfold lift; intros H; injection H as -> ->; auto. Qed.

(** ** Lookups *)

Lemma getitem_In {V : Type} (d : dict V) (k : string) :
  In k (keys d) -> exists v, getitem d k = inr v.
Proof.
  induction d as [|[k' v] d IH]; simpl; [tauto|].
  destruct (String.eqb_spec k k') as [->|Hne]; [eauto|].
  intros [E|H]; [congruence|auto].
Qed.

Lemma getitem_not_In {V : Type} (d : dict V) (k : string) :
  ~ In k (keys d) -> getitem d k = inl (KeyError k).
Proof.
  induction d as [|[k' v] d IH]; simpl; [reflexivity|].
  destruct (String.eqb_spec k k') as [->|Hne]; [tauto|].
  intros H; apply IH; tauto.
Qed.

Lemma getitem_inr {V : Type} (d : dict V) (k : string) (v : V) :
  getitem d k = inr v -> In (k, v) d.
Proof.
  induction d as [|[k' v'] d IH]; simpl; [discriminate|].
  destruct (String.eqb_spec k k') as [->|Hne].
  - intros E; injection E as ->; auto.
  - auto.
Qed.

Lemma TOOL_WEAR_RATES_keys : keys TOOL_WEAR_RATES = keys MATERIAL_PROFILES.
Proof. reflexivity. Qed.

Lemma TOOL_WEAR_RATES_pos (material : string) (rate : Q) :
  getitem TOOL_WEAR_RATES material = inr rate -> 0 < rate.
Proof.
  intros H; apply getitem_inr in H; simpl in H.
  destruct H as [H|[H|[H|[]]]]; injection H as _ <-; reflexivity.
Qed.

(** ** The generators *)

Section Draws.

Variable env : Env.

Lemma randint_range (a b : Z) (s : State) :
  (a <= b)%Z ->
  exists r, randint env a b s = (inr r, with_random_pos (S (random_pos s)) s)
            /\ (a <= r <= b)%Z.
Proof.
  intros H; unfold randint; eexists; split; [reflexivity|].
  pose proof (Z.mod_pos_bound (random_raw env (random_pos s)) (b - a + 1)).
  lia.
Qed.

Lemma np_random_normal_inr (loc scale : Q) (size : Z) (s s' : State)
      (l : list Q) :
  np_random_normal env loc scale size s = (inr l, s') ->
  (0 <= size)%Z
  /\ l = map (fun k => loc + scale * standard_normal env (normal_pos s + k))
             (seq 0 (Z.to_nat size))
  /\ s' = with_normal_pos (normal_pos s + Z.to_nat size) s.
Proof.
  unfold np_random_normal. destruct (Z.ltb_spec size 0); [discriminate|].
  intros E; injection E as <- <-; auto.
Qed.

Lemma np_random_normal_total (loc scale : Q) (size : Z) (s : State) :
  (0 <= size)%Z ->
  np_random_normal env loc scale size s
  = (inr (map (fun k => loc + scale * standard_normal env (normal_pos s + k))
              (seq 0 (Z.to_nat size))),
     with_normal_pos (normal_pos s + Z.to_nat size) s).
Proof.
  intros H; unfold np_random_normal.
  destruct (Z.ltb_spec size 0); [lia|reflexivity].
Qed.

(** [calculate_machine_parameters] on a known material and job type. *)
Lemma calculate_machine_parameters_known
      (material job_type : string) (tool_diameter : Z) (s : State) :
  known_material material -> known_job_type job_type ->
  exists base_rpm factor,
    calculate_machine_parameters env material job_type tool_diameter s
    = (inr (base_rpm, factor * (inject_Z tool_diameter / 10)),
       with_random_pos (3 + random_pos s) s)
    /\ (800 <= base_rpm <= 3500)%Z /\ 0 < factor.
Proof.
  intros Hm Hj. unfold calculate_machine_parameters.
  destruct (randint_range 800 1200 s) as (r1 & E1 & B1); [lia|].
  rewrite (bind_eq_inr _ _ _ _ _ E1).
  destruct (randint_range 1500 2500 (with_random_pos (S (random_pos s)) s))
    as (r2 & E2 & B2); [lia|].
  rewrite (bind_eq_inr _ _ _ _ _ E2).
  match type of E2 with _ = (_, ?s2) =>
    destruct (randint_range 2800 3500 s2) as (r3 & E3 & B3); [lia|] end.
  rewrite (bind_eq_inr _ _ _ _ _ E3).
  unfold bind, lift, ret.
  unfold known_material in Hm; simpl in Hm.
  unfold known_job_type in Hj; simpl in Hj.
  destruct Hm as [<-|[<-|[<-|[]]]];
    destruct Hj as [<-|[<-|[<-|[<-|[<-|[<-|[]]]]]]];
    cbn [getitem String.eqb Ascii.eqb Bool.eqb];
    eexists; eexists; (split; [reflexivity|split; [lia|reflexivity]]).
Qed.

End Draws.

(** ** The simulation block, sample by sample *)

Lemma map_nth_lt {A B : Type} (f : A -> B) (l : list A) (i : nat) (a : A) (b : B) :
  (i < length l)%nat -> nth i (map f l) b = f (nth i l a).
Proof.
  intros H. rewrite (nth_indep _ b (f a)) by now rewrite length_map.
  apply map_nth.
Qed.

Lemma draws_nth (f : nat -> Q) (n i : nat) :
  (i < n)%nat -> nth i (map f (seq 0 n)) 0 = f i.
Proof.
  intros H. rewrite (map_nth_lt f _ i 0%nat) by now rewrite length_seq.
  now rewrite seq_nth.
Qed.

Section SimulationBlock.

Variable env : Env.

Lemma simulate_inr (duration : Q) (material job_type : string)
      (tool_no : Z) (s s' : State) (sim : Simulation) :
  simulate env duration material job_type tool_no s = (inr sim, s') ->
  exists base_rpm base_power rate props vb s1,
    calculate_machine_parameters env material job_type (10 + tool_no * 2) s
    = (inr (base_rpm, base_power), s1)
    /\ getitem TOOL_WEAR_RATES material = inr rate
    /\ getitem MATERIAL_PROFILES material = inr props
    /\ getitem [ ("Mild Steel", 2.5); ("Aluminum", 1.8); ("Wood", 0.8) ]
               material = inr vb
    /\ n_points sim = int (duration * 60 / 5)
    /\ linspace 0 duration (n_points sim) = inr (elapsed_minutes sim)
    /\ sample_formulas env (normal_pos s1) base_rpm base_power rate props
                       vb sim
    /\ s' = with_normal_pos (normal_pos s1 + 5 * Z.to_nat (n_points sim)) s1.
Proof.
  unfold simulate. intros H.
  apply bind_inr in H as ([base_rpm base_power] & s1 & Hcalc & H).
  apply bind_inr in H as (el & s2 & Hel & H).
  apply lift_inr in Hel as [Hel ->].
  apply bind_inr in H as (rate & s2 & Hrate & H).
  apply lift_inr in Hrate as [Hrate ->].
  apply bind_inr in H as (wn & s2 & Hwn & H).
  apply np_random_normal_inr in Hwn as (Hn & -> & ->).
  apply bind_inr in H as (rn & s3 & Hrn & H).
  apply np_random_normal_inr in Hrn as (_ & -> & ->).
  apply bind_inr in H as (pn & s4 & Hpn & H).
  apply np_random_normal_inr in Hpn as (_ & -> & ->).
  apply bind_inr in H as (props & s5 & Hprops & H).
  apply lift_inr in Hprops as [Hprops ->].
  apply bind_inr in H as (tn & s6 & Htn & H).
  apply np_random_normal_inr in Htn as (_ & -> & ->).
  apply bind_inr in H as (vb & s7 & Hvb & H).
  apply lift_inr in Hvb as [Hvb ->].
  apply bind_inr in H as (vn & s8 & Hvn & H).
  apply np_random_normal_inr in Hvn as (_ & -> & ->).
  unfold ret in H. injection H as <- <-.
  exists base_rpm, base_power, rate, props, vb, s1.
  destruct (linspace_inr _ _ _ _ Hel) as [_ Lel].
  set (n := Z.to_nat (int (duration * 60 / 5))) in *.
  split; [exact Hcalc|]. split; [exact Hrate|]. split; [exact Hprops|].
  split; [exact Hvb|]. split; [reflexivity|]. split; [exact Hel|].
  split.
  2:{ cbn [n_points]. fold n. unfold with_normal_pos; cbn. f_equal. lia. }
  unfold sample_formulas.
  cbn [n_points elapsed_minutes tool_wear current_rpm current_power
         workpiece_temp vibration normal_pos with_normal_pos].
  fold n. set (p := normal_pos s1).
  set (wn := map (fun k => 1 + 0.05 * standard_normal env (p + k)) (seq 0 n)).
  set (tw := map (Qmin 100) (zip_with Qmult (map (Qmult rate) el) wn)).
  set (rn := map (fun k => 0 + 0.03 * standard_normal env (p + n + k)) (seq 0 n)).
  set (rpm := map (Qmax 100) (zip_with _ tw rn)).
  set (pn := map (fun k => 0 + 0.05 * standard_normal env (p + n + n + k))
                 (seq 0 n)).
  set (pw := map (Qmax 0.5) (zip_with _ (map _ tw) pn)).
  set (tn := map (fun k => 0 + 2 * standard_normal env (p + n + n + n + k))
                 (seq 0 n)).
  set (vn := map (fun k => 0 + 0.1 * standard_normal env (p + n + n + n + n + k))
                 (seq 0 n)).
  assert (Lwn : length wn = n) by (unfold wn; now rewrite length_map, length_seq).
  assert (Lrn : length rn = n) by (unfold rn; now rewrite length_map, length_seq).
  assert (Lpn : length pn = n) by (unfold pn; now rewrite length_map, length_seq).
  assert (Ltn : length tn = n) by (unfold tn; now rewrite length_map, length_seq).
  assert (Lvn : length vn = n) by (unfold vn; now rewrite length_map, length_seq).
  assert (Ltw : length tw = n).
  { unfold tw. now rewrite length_map, zip_with_length, length_map, Lel, Lwn,
      Nat.min_id. }
  assert (Lrpm : length rpm = n).
  { unfold rpm. now rewrite length_map, zip_with_length, Ltw, Lrn, Nat.min_id. }
  assert (Lpw : length pw = n).
  { unfold pw. now rewrite length_map, zip_with_length, length_map, Ltw, Lpn,
      Nat.min_id. }
  split.
  { repeat split; auto.
    - now rewrite zip_with_length, length_map, zip_with_length, length_map,
        Lpw, Lel, Ltn, !Nat.min_id.
    - now rewrite length_map, !zip_with_length, Lrpm, Ltw, Lvn, !Nat.min_id. }
  intros i Hi.
  assert (Ewn : nth i wn 0 = 1 + 0.05 * standard_normal env (p + i))
    by (unfold wn; now rewrite draws_nth).
  assert (Ern : nth i rn 0 = 0 + 0.03 * standard_normal env (p + (n + i))).
  { unfold rn; rewrite draws_nth by assumption. do 3 f_equal. lia. }
  assert (Epn : nth i pn 0 = 0 + 0.05 * standard_normal env (p + (2 * n + i))).
  { unfold pn; rewrite draws_nth by assumption. do 3 f_equal. lia. }
  assert (Etn : nth i tn 0 = 0 + 2 * standard_normal env (p + (3 * n + i))).
  { unfold tn; rewrite draws_nth by assumption. do 3 f_equal. lia. }
  assert (Evn : nth i vn 0 = 0 + 0.1 * standard_normal env (p + (4 * n + i))).
  { unfold vn; rewrite draws_nth by assumption. do 3 f_equal. lia. }
  assert (Etw : nth i tw 0 = Qmin 100 (rate * nth i el 0 * nth i wn 0)).
  { unfold tw. rewrite (map_nth_lt _ _ _ 0)
      by (now rewrite zip_with_length, length_map, Lel, Lwn, Nat.min_id).
    rewrite (zip_with_nth _ _ _ _ 0 0) by (rewrite ?length_map; lia).
    now rewrite (map_nth_lt _ _ _ 0) by lia. }
  assert (Erpm : nth i rpm 0
                 = Qmax 100 (inject_Z base_rpm * (1 - nth i tw 0 / 500)
                             * (1 + nth i rn 0))).
  { unfold rpm. rewrite (map_nth_lt _ _ _ 0)
      by (now rewrite zip_with_length, Ltw, Lrn, Nat.min_id).
    now rewrite (zip_with_nth _ _ _ _ 0 0) by lia. }
  assert (Epw : nth i pw 0
                = Qmax 0.5 (base_power * (1 + nth i tw 0 / 100 * 0.5)
                            * (1 + nth i pn 0))).
  { unfold pw. rewrite (map_nth_lt _ _ _ 0)
      by (now rewrite zip_with_length, length_map, Ltw, Lpn, Nat.min_id).
    rewrite (zip_with_nth _ _ _ _ 0 0) by (rewrite ?length_map; lia).
    now rewrite (map_nth_lt _ _ _ 0) by lia. }
  split; [now rewrite Etw, Ewn|].
  split; [now rewrite Erpm, Ern|].
  split; [now rewrite Epw, Epn|].
  split.
  - rewrite (zip_with_nth _ _ _ _ 0 0)
      by (rewrite ?length_map, ?zip_with_length, ?length_map; lia).
    rewrite (map_nth_lt _ _ _ 0)
      by (rewrite ?zip_with_length, ?length_map; lia).
    rewrite (zip_with_nth _ _ _ _ 0 0) by (rewrite ?length_map; lia).
    rewrite (map_nth_lt _ _ _ 0) by lia.
    now rewrite Etn.
  - rewrite (map_nth_lt _ _ _ 0) by (rewrite !zip_with_length; lia).
    rewrite (zip_with_nth _ _ _ _ 0 0) by (rewrite ?zip_with_length; lia).
    rewrite (zip_with_nth _ _ _ _ 0 0) by lia.
    now rewrite Evn.
Qed.

End SimulationBlock.

Lemma lift_eq {A : Type} (r : exn + A) (a : A) (s : State) :
  r = inr a -> lift r s = (inr a, s).
Proof. now intros ->. Qed.

Lemma lift_raises {A : Type} (r : exn + A) (e : exn) (s : State) :
  r = inl e -> lift r s = (inl e, s).
Proof. now intros ->. Qed.

Section SimulationRuns.

Variable env : Env.

(** The block returns its arrays on every known material and job type
    once [n_points] is not negative. *)
Lemma simulate_total (duration : Q) (material job_type : string)
      (tool_no : Z) (s : State) :
  known_material material -> known_job_type job_type ->
  (0 <= int (duration * 60 / 5))%Z ->
  exists sim s', simulate env duration material job_type tool_no s
                 = (inr sim, s').
Proof.
  intros Hm Hj Hn.
  destruct (calculate_machine_parameters_known env material job_type
              (10 + tool_no * 2) s Hm Hj) as (base_rpm & factor & E & _ & _).
  destruct (linspace_total 0 duration _ Hn) as [el Hel].
  destruct (getitem_In TOOL_WEAR_RATES material Hm) as [rate Hrate].
  destruct (getitem_In MATERIAL_PROFILES material Hm) as [props Hprops].
  destruct (getitem_In [ ("Mild Steel", 2.5); ("Aluminum", 1.8); ("Wood", 0.8) ]
              material Hm) as [vb Hvb].
  unfold simulate.
  rewrite (bind_eq_inr _ _ _ _ _ E).
  rewrite (bind_eq_inr _ _ _ _ _ (lift_eq _ _ _ Hel)).
  rewrite (bind_eq_inr _ _ _ _ _ (lift_eq _ _ _ Hrate)).
  rewrite (bind_eq_inr _ _ _ _ _ (np_random_normal_total env _ _ _ _ Hn)).
  rewrite (bind_eq_inr _ _ _ _ _ (np_random_normal_total env _ _ _ _ Hn)).
  rewrite (bind_eq_inr _ _ _ _ _ (np_random_normal_total env _ _ _ _ Hn)).
  rewrite (bind_eq_inr _ _ _ _ _ (lift_eq _ _ _ Hprops)).
  rewrite (bind_eq_inr _ _ _ _ _ (np_random_normal_total env _ _ _ _ Hn)).
  rewrite (bind_eq_inr _ _ _ _ _ (lift_eq _ _ _ Hvb)).
  rewrite (bind_eq_inr _ _ _ _ _ (np_random_normal_total env _ _ _ _ Hn)).
  unfold ret. eexists; eexists; reflexivity.
Qed.

(** On a material that the tables do not have, the block stops at the
    first lookup, after the three [randint] draws and before any
    [numpy.random] draw. *)
Lemma simulate_unknown_material (duration : Q) (material job_type : string)
      (tool_no : Z) (s : State) :
  ~ known_material material ->
  simulate env duration material job_type tool_no s
  = (inl (KeyError material), with_random_pos (3 + random_pos s) s).
Proof.
  intros Hm. unfold simulate.
  apply bind_eq_inl. unfold calculate_machine_parameters.
  unfold randint at 1. unfold bind at 1.
  unfold randint at 1. unfold bind at 1.
  unfold randint at 1. unfold bind at 1.
  apply bind_eq_inl.
  rewrite getitem_not_In by exact Hm.
  reflexivity.
Qed.

(** On a known material and a job type that the table of power factors
    does not have, it stops at the second lookup. *)
Lemma simulate_unknown_job_type (duration : Q) (material job_type : string)
      (tool_no : Z) (s : State) :
  known_material material -> ~ known_job_type job_type ->
  simulate env duration material job_type tool_no s
  = (inl (KeyError job_type), with_random_pos (3 + random_pos s) s).
Proof.
  intros Hm Hj. unfold simulate.
  apply bind_eq_inl. unfold calculate_machine_parameters.
  unfold randint at 1. unfold bind at 1.
  unfold randint at 1. unfold bind at 1.
  unfold randint at 1. unfold bind at 1.
  match goal with |- bind (lift (getitem ?d material)) _ _ = _ =>
    destruct (getitem_In d material Hm) as [base_rpm Hrpm] end.
  rewrite (bind_eq_inr _ _ _ _ _ (lift_eq _ _ _ Hrpm)).
  apply bind_eq_inl.
  rewrite getitem_not_In by exact Hj.
  reflexivity.
Qed.

(** A negative [n_points] stops the block at [linspace]. *)
Lemma simulate_negative_points (duration : Q) (material job_type : string)
      (tool_no : Z) (s : State) :
  known_material material -> known_job_type job_type ->
  (int (duration * 60 / 5) < 0)%Z ->
  exists msg,
    simulate env duration material job_type tool_no s
    = (inl (ValueError msg), with_random_pos (3 + random_pos s) s).
Proof.
  intros Hm Hj Hn.
  destruct (calculate_machine_parameters_known env material job_type
              (10 + tool_no * 2) s Hm Hj) as (base_rpm & factor & E & _ & _).
  destruct (linspace_raises 0 duration _ Hn) as [msg Hel].
  exists msg. unfold simulate.
  rewrite (bind_eq_inr _ _ _ _ _ E).
  apply bind_eq_inl. now apply lift_raises.
Qed.

End SimulationRuns.

(** ** The three phases of the [try] body *)

Section PhaseLemmas.

Variable env : Env.

Lemma try_body_phases (lathe_id : Z) (job_id : string) (duration : Q)
      (material job_type : string) (tool_no : Z) (s : State) :
  try_body env lathe_id job_id duration material job_type tool_no s
  = bind (open_job env lathe_id job_id material job_type tool_no)
         (fun _ =>
            bind (simulate env duration material job_type tool_no)
                 (store_samples env lathe_id job_id material job_type tool_no))
         s.
Proof.
  unfold try_body, open_job, store_samples, documents_of, bind.
  destruct (connect_loop env (seq 0 max_retries) s) as [[e|[]] s1]; auto.
  destruct (ensure_collections_exist env lathe_id s1) as [[e|[]] s2]; auto.
Qed.


End PhaseLemmas.

(** ** What a call writes *)

Lemma writes_bind (P : Document -> Prop) {A B : Type} (m : M A) (k : A -> M B) :
  writes P m ->
  (forall s a s1, m s = (inr a, s1) -> writes P (k a)) ->
  writes P (bind m k).
Proof.
  intros Hm Hk s r s'. unfold bind.
  destruct (m s) as [[e|a] s1] eqn:E.
  - intros H; injection H as <- <-. exact (Hm _ _ _ E).
  - intros H. destruct (Hm _ _ _ E) as (w1 & E1 & F1).
    destruct (Hk _ _ _ E _ _ _ H) as (w2 & E2 & F2).
    exists (w1 ++ w2)%list. rewrite E2, E1, app_assoc. split; [reflexivity|].
    apply Forall_app; auto.
Qed.

Lemma quiet_writes (P : Document -> Prop) {A : Type} (m : M A) :
  quiet m -> writes P m.
Proof.
  intros H s r s' E. destruct (H _ _ _ E) as (E1 & _).
  exists []. rewrite E1, app_nil_r. auto.
Qed.

Lemma quiet_bind {A B : Type} (m : M A) (k : A -> M B) :
  quiet m -> (forall a, quiet (k a)) -> quiet (bind m k).
Proof.
  intros Hm Hk s r s'. unfold bind.
  destruct (m s) as [[e|a] s1] eqn:E.
  - intros H; injection H as <- <-. exact (Hm _ _ _ E).
  - intros H. destruct (Hm _ _ _ E) as (E1 & E2 & E3).
    destruct (Hk _ _ _ _ H) as (F1 & F2 & F3).
    repeat split; congruence.
Qed.

Lemma quiet_ret {A : Type} (a : A) : quiet (ret a).
Proof. intros s r s' H; injection H as <- <-; auto. Qed.

Lemma quiet_lift {A : Type} (r : exn + A) : quiet (lift r).
Proof. intros s r' s' H; injection H as <- <-; auto. Qed.

Lemma quiet_request (o : option exn) : quiet (request o).
Proof. destruct o; intros s r s' H; injection H as <- <-; auto. Qed.

Section Frames.

Variable env : Env.

Lemma quiet_now : quiet (now env).
Proof. intros s r s' H; injection H as <- <-; auto. Qed.

Lemma quiet_connect_loop (attempts : list nat) :
  quiet (connect_loop env attempts).
Proof.
  induction attempts as [|k rest IH]; [apply quiet_ret|].
  intros s r s'. simpl.
  destruct (connect_outcome env k); [| destruct (Nat.eqb _ _) ..].
  - intros H; injection H as <- <-; auto.
  - intros H; injection H as <- <-; auto.
  - apply IH.
  - intros H; injection H as <- <-; auto.
  - intros H. apply IH in H. exact H.
Qed.

Lemma quiet_insert_one (r : JobRecord) : quiet (insert_one env r).
Proof.
  apply quiet_bind; [apply quiet_request|].
  intros _ s r' s' H; injection H as <- <-; auto.
Qed.

Lemma quiet_update_one (lathe_id : Z) (job_id : string)
      (set : JobRecord -> JobRecord) :
  quiet (update_one env lathe_id job_id set).
Proof.
  apply quiet_bind; [apply quiet_request|].
  intros _ s r' s' H; injection H as <- <-; auto.
Qed.

Lemma quiet_open_job (lathe_id : Z) (job_id material job_type : string)
      (tool_no : Z) :
  quiet (open_job env lathe_id job_id material job_type tool_no).
Proof.
  unfold open_job, ensure_collections_exist.
  repeat first [ apply quiet_connect_loop | apply quiet_request
               | apply quiet_now | apply quiet_insert_one
               | apply quiet_bind; [|intros ?] ].
Qed.

Lemma open_job_available (lathe_id : Z) (job_id material job_type : string)
      (tool_no : Z) (s : State) :
  db_available env ->
  exists s', open_job env lathe_id job_id material job_type tool_no s
             = (inr tt, s').
Proof.
  intros (Hc & Hi & Ho & _ & _).
  unfold open_job, ensure_collections_exist, insert_one.
  rewrite !Hi, Ho.
  unfold connects, max_retries in Hc. simpl in Hc.
  unfold bind, max_retries. simpl.
  destruct (connect_outcome env 0); [eauto|..];
    (destruct (connect_outcome env 1); [eauto|..]);
    (destruct (connect_outcome env 2); [eauto|..]); discriminate.
Qed.

(** On an available database the first phase leaves the job record in
    JobDetails, with status "Running". *)
Lemma open_job_record (lathe_id : Z) (job_id material job_type : string)
      (tool_no : Z) (s s' : State) :
  db_available env ->
  open_job env lathe_id job_id material job_type tool_no s = (inr tt, s') ->
  exists job_record,
    JobDetails s' = (JobDetails s ++ [job_record])%list
    /\ job_JobID job_record = job_id /\ job_LatheID job_record = lathe_id
    /\ Status job_record = "Running".
Proof.
  intros (Hc & Hi & Ho & _ & _).
  unfold open_job, ensure_collections_exist, insert_one.
  rewrite !Hi, Ho.
  unfold connects, max_retries in Hc. simpl in Hc.
  unfold bind, max_retries. simpl.
  destruct (connect_outcome env 0); [|destruct (connect_outcome env 1);
    [|destruct (connect_outcome env 2); [|discriminate ..] ..] ..];
    intros H; injection H as <-; eexists; (split; [reflexivity|auto]).
Qed.

Lemma writes_insert_many (P : Document -> Prop) (k : nat)
      (batch : list Document) :
  Forall P batch -> writes P (insert_many env k batch).
Proof.
  intros HP s r s'. unfold insert_many.
  destruct (insert_many_outcome env k) as [[e written]|];
    intros H; injection H as <- <-; simpl.
  - exists (firstn written batch); split; [reflexivity|].
    now apply Forall_firstn.
  - exists batch; auto.
Qed.

Lemma writes_insert_batches (P : Document -> Prop) (starts : list nat)
      (documents : list Document) (count : nat) :
  Forall P documents ->
  writes P (insert_batches env starts documents count).
Proof.
  intros HP. revert count.
  induction starts as [|i rest IH]; intros count; cbn [insert_batches].
  - apply quiet_writes, quiet_ret.
  - apply writes_bind.
    + apply writes_insert_many. now apply Forall_firstn, Forall_skipn.
    + intros; apply IH.
Qed.

End Frames.

Lemma firstn_add_skipn {A : Type} (a b : nat) (l : list A) :
  firstn (a + b) l = (firstn a l ++ firstn b (skipn a l))%list.
Proof.
  revert l; induction a as [|a IH]; intros [|x l]; simpl; auto.
  - now destruct b.
  - now rewrite IH.
Qed.

Lemma skipn_add {A : Type} (a b : nat) (l : list A) :
  skipn (a + b) l = skipn b (skipn a l).
Proof.
  revert l; induction a as [|a IH]; intros [|x l]; simpl; auto.
  now destruct b.
Qed.

Lemma batch_size_pos : (0 < batch_size)%nat.
Proof. unfold batch_size; lia. Qed.

Lemma range_step_covers (len step : nat) :
  (0 < step)%nat -> (len <= (len + step - 1) / step * step)%nat.
Proof.
  intros H.
  pose proof (Nat.div_mod_eq (len + step - 1) step) as E.
  pose proof (Nat.mod_upper_bound (len + step - 1) step) as B.
  nia.
Qed.

Lemma with_SensoryData_id (s : State) :
  with_SensoryData (SensoryData s) s = s.
Proof. now destruct s. Qed.

Lemma make_documents_length (job_id : string) (lathe_id : Z)
      (material job_type : string) (tool_no : Z) (n : nat)
      (timestamps : list Z) (temps vibs rpms pwrs wears : list Q) :
  length timestamps = n -> length temps = n -> length vibs = n ->
  length rpms = n -> length pwrs = n -> length wears = n ->
  length (make_documents job_id lathe_id material job_type tool_no
            timestamps temps vibs rpms pwrs wears) = n.
Proof.
  revert timestamps temps vibs rpms pwrs wears.
  induction n as [|n IH];
    intros [|ts tss] [|t ts'] [|v vs] [|r rs] [|p ps] [|w ws];
    simpl; intros; try discriminate; auto.
Qed.

(** A property of the five numeric fields that holds array by array holds
    of every document built from the arrays. *)
Lemma make_documents_Forall (Pt Pv Pr Pp Pw : Q -> Prop)
      (job_id : string) (lathe_id : Z)
      (material job_type : string) (tool_no : Z)
      (timestamps : list Z) (temps vibs rpms pwrs wears : list Q) :
  Forall Pt temps -> Forall Pv vibs -> Forall Pr rpms ->
  Forall Pp pwrs -> Forall Pw wears ->
  Forall (fun d => Pt (Temperature d) /\ Pv (Vibration d) /\ Pr (RPM d)
                   /\ Pp (Power d) /\ Pw (ToolWear d))
         (make_documents job_id lathe_id material job_type tool_no
            timestamps temps vibs rpms pwrs wears).
Proof.
  revert temps vibs rpms pwrs wears.
  induction timestamps as [|ts tss IH];
    intros [|t ts'] [|v vs] [|r rs] [|p ps] [|w ws] Ht Hv Hr Hp Hw;
    simpl; auto.
  inversion Ht; inversion Hv; inversion Hr; inversion Hp; inversion Hw; subst.
  constructor; auto.
Qed.

Section Storing.

Variable env : Env.

Lemma insert_batches_available (documents : list Document) :
  (forall k, insert_many_outcome env k = None) ->
  forall (m a count : nat) (s : State),
    let chunk := firstn (m * batch_size) (skipn (a * batch_size) documents) in
    insert_batches env (map (fun k => (k * batch_size)%nat) (seq a m))
                   documents count s
    = (inr (count + length chunk)%nat,
       with_SensoryData (SensoryData s ++ chunk) s).
Proof.
  intros Hok. induction m as [|m IH]; intros a count s chunk; subst chunk.
  - cbn [seq map insert_batches Nat.mul firstn length]. unfold ret.
    now rewrite app_nil_r, Nat.add_0_r, with_SensoryData_id.
  - cbn [seq map insert_batches]. unfold bind, insert_many at 1.
    rewrite Nat.div_mul by (pose proof batch_size_pos; lia).
    rewrite Hok, IH.
    replace (S m * batch_size)%nat with (batch_size + m * batch_size)%nat
      by lia.
    replace (S a * batch_size)%nat with (a * batch_size + batch_size)%nat
      by lia.
    rewrite firstn_add_skipn, skipn_add, length_app.
    unfold with_SensoryData; cbn [SensoryData random_pos normal_pos
      clock_pos JobDetails client_bound client_closed].
    now rewrite app_assoc, Nat.add_assoc.
Qed.

Lemma store_samples_available
      (lathe_id : Z) (job_id material job_type : string)
      (tool_no : Z) (sim : Simulation) (s : State) :
  db_available env -> tool_wear sim <> [] ->
  let documents :=
    documents_of lathe_id job_id material job_type tool_no
                 (datetime_now env (clock_pos s)) sim in
  exists s',
    store_samples env lathe_id job_id material job_type tool_no sim s
    = (inr ("Successfully generated "
              ++ str_int (Z.of_nat (length documents))
              ++ " data points for Job " ++ job_id
              ++ " (Lathe " ++ str_int lathe_id ++ ")"), s')
    /\ SensoryData s' = (SensoryData s ++ documents)%list.
Proof.
  intros (_ & _ & _ & Hmany & Hupd) Hne documents.
  unfold store_samples. unfold bind at 1. unfold now at 1.
  fold documents. unfold range_step.
  unfold bind at 1.
  rewrite (insert_batches_available documents Hmany).
  cbn [skipn Nat.mul].
  rewrite firstn_all2 by (apply range_step_covers, batch_size_pos).
  destruct (tool_wear sim) as [|w ws] eqn:Ew; [congruence|].
  unfold bind at 1, lift at 1, last_item.
  unfold update_one. rewrite Hupd. unfold bind, request, ret.
  eexists; split; [reflexivity|]. reflexivity.
Qed.

End Storing.

Lemma silent_bind {A B : Type} (m : M A) (k : A -> M B) :
  silent m -> (forall a, silent (k a)) -> silent (bind m k).
Proof.
  intros Hm Hk s r s'. unfold bind.
  destruct (m s) as [[e|a] s1] eqn:E.
  - intros H; injection H as <- <-. exact (Hm _ _ _ E).
  - intros H. rewrite (Hk _ _ _ _ H). exact (Hm _ _ _ E).
Qed.

Lemma quiet_silent {A : Type} (m : M A) : quiet m -> silent m.
Proof. intros H s r s' E. now destruct (H _ _ _ E). Qed.

Lemma silent_writes (P : Document -> Prop) {A : Type} (m : M A) :
  silent m -> writes P m.
Proof.
  intros H s r s' E. exists []. rewrite (H _ _ _ E), app_nil_r. auto.
Qed.

Lemma writes_nothing {A : Type} (m : M A) (s s' : State) (r : exn + A) :
  writes (fun _ => False) m -> m s = (r, s') ->
  SensoryData s' = SensoryData s.
Proof.
  intros H E. destruct (H _ _ _ E) as ([|d w] & Ew & F).
  - now rewrite Ew, app_nil_r.
  - inversion F; contradiction.
Qed.

Section Calls.

Variable env : Env.

Lemma silent_randint (a b : Z) : silent (randint env a b).
Proof. intros s r s' H; injection H as <- <-; reflexivity. Qed.

Lemma silent_np_random_normal (loc scale : Q) (size : Z) :
  silent (np_random_normal env loc scale size).
Proof.
  intros s r s'. unfold np_random_normal.
  destruct (size <? 0)%Z; intros H; injection H as <- <-; reflexivity.
Qed.

Lemma silent_simulate (duration : Q) (material job_type : string)
      (tool_no : Z) :
  silent (simulate env duration material job_type tool_no).
Proof.
  unfold simulate, calculate_machine_parameters.
  repeat first [ apply silent_randint | apply silent_np_random_normal
               | apply quiet_silent, quiet_lift
               | apply quiet_silent, quiet_ret
               | apply silent_bind; [|intros ?]
               | match goal with
                 | |- silent (match ?x with pair _ _ => _ end) => destruct x
                 end ].
Qed.

Lemma writes_store_samples (P : Document -> Prop)
      (lathe_id : Z) (job_id material job_type : string)
      (tool_no : Z) (sim : Simulation) :
  (forall base_time,
      Forall P (documents_of lathe_id job_id material job_type tool_no
                             base_time sim)) ->
  writes P (store_samples env lathe_id job_id material job_type tool_no sim).
Proof.
  intros HP. unfold store_samples.
  apply writes_bind; [apply quiet_writes, quiet_now|].
  intros _ base_time _ _.
  apply writes_bind; [apply writes_insert_batches, HP|].
  intros _ inserted_count _ _.
  apply quiet_writes.
  repeat first [ apply quiet_lift | apply quiet_update_one | apply quiet_ret
               | apply quiet_bind; [|intros ?] ].
Qed.

(** A call answers with a text, whatever its body does. *)
Lemma generate_batch_sensor_data_answer
      (lathe_id : Z) (job_id : string) (duration : Q)
      (material job_type : string) (tool_no : Z) (s : State) :
  exists r s1,
    try_body env lathe_id job_id duration material job_type tool_no
             (with_client false false s) = (r, s1)
    /\ generate_batch_sensor_data env lathe_id job_id duration material
                                  job_type tool_no s
       = (inr (answer r),
          if client_bound s1 then with_client true true s1 else s1).
Proof.
  unfold generate_batch_sensor_data.
  destruct (try_body _ _ _ _ _ _ _ _) as [[e|message] s1];
    eexists; eexists; split; reflexivity.
Qed.

(** What holds of the documents of every simulation the block can return
    holds of every document a call writes. *)
Lemma writes_generate_batch_sensor_data (P : Document -> Prop)
      (lathe_id : Z) (job_id : string) (duration : Q)
      (material job_type : string) (tool_no : Z) :
  (forall s sim s1 base_time,
      simulate env duration material job_type tool_no s = (inr sim, s1) ->
      Forall P (documents_of lathe_id job_id material job_type tool_no
                             base_time sim)) ->
  writes P (generate_batch_sensor_data env lathe_id job_id duration
                                       material job_type tool_no).
Proof.
  intros HP s r s' H.
  destruct (generate_batch_sensor_data_answer lathe_id job_id duration
              material job_type tool_no s) as (r1 & s1 & Hbody & Hgen).
  rewrite Hgen in H. injection H as <- <-.
  rewrite try_body_phases in Hbody.
  assert (W : writes P
                (bind (open_job env lathe_id job_id material job_type tool_no)
                      (fun _ =>
                         bind (simulate env duration material job_type tool_no)
                              (store_samples env lathe_id job_id material
                                             job_type tool_no)))).
  { apply writes_bind; [apply quiet_writes, quiet_open_job|].
    intros _ _ _ _.
    apply writes_bind; [apply silent_writes, silent_simulate|].
    intros sa sim sb Hsim. apply writes_store_samples.
    intros base_time. exact (HP _ _ _ base_time Hsim). }
  destruct (W _ _ _ Hbody) as (w & Ew & Fw).
  exists w. split; [|exact Fw].
  destruct (client_bound s1); exact Ew.
Qed.

End Calls.

(** ** [int] on floats *)

Lemma int_nonneg (x : Q) : 0 <= x -> (0 <= int x)%Z.
Proof.
  unfold Qle, int; simpl. intros H.
  apply Z.quot_pos; lia.
Qed.

Lemma int_floor (x : Q) : 0 <= x -> int x = Qfloor x.
Proof.
  unfold Qle, int, Qfloor; simpl. intros H. destruct x as [a b]; simpl in *.
  apply Z.quot_div_nonneg; lia.
Qed.

Lemma int_nonpos (x : Q) : x <= 0 -> (int x <= 0)%Z.
Proof.
  unfold Qle, int; simpl. intros H.
  rewrite <- (Z.opp_involutive (Qnum x)), Z.quot_opp_l by lia.
  assert (0 <= - Qnum x ÷ Z.pos (Qden x))%Z by (apply Z.quot_pos; lia).
  lia.
Qed.

Lemma int_pos_inv (x : Q) : (0 < int x)%Z -> 0 < x.
Proof.
  intros H. destruct (Qlt_le_dec 0 x) as [L|L]; [exact L|].
  apply int_nonpos in L. lia.
Qed.

Lemma int_le (x : Q) : (0 < int x)%Z -> inject_Z (int x) <= x.
Proof.
  intros H. rewrite int_floor by (apply Qlt_le_weak, int_pos_inv, H).
  apply Qfloor_le.
Qed.

Lemma n_points_of_positive (duration : Q) :
  0 < duration ->
  int (duration * 60 / 5) = Qfloor (duration * 60 / 5)
  /\ (0 <= int (duration * 60 / 5))%Z.
Proof.
  intros H.
  assert (0 <= duration * 60 / 5).
  { apply Qle_shift_div_l; [reflexivity|]. lra. }
  split; [now apply int_floor | now apply int_nonneg].
Qed.

Lemma n_points_of_nonpositive (duration : Q) :
  duration <= 0 -> (int (duration * 60 / 5) <= 0)%Z.
Proof.
  intros H. apply int_nonpos.
  apply Qle_shift_div_r; [reflexivity|]. lra.
Qed.

(** ** Strings *)

Lemma prefix_app (p s : string) : String.prefix p (p ++ s) = true.
Proof.
  induction p as [|c p IH]; simpl; [now destruct s|].
  destruct (ascii_dec c c); [exact IH|congruence].
Qed.

Lemma answer_raised (e : exn) :
  String.prefix "Error occurred: " (answer (inl e)) = true.
Proof. unfold answer. apply prefix_app. Qed.

(** ** The [try] body, case by case *)

Section Body.

Variable env : Env.

Lemma calculate_machine_parameters_inr
      (material job_type : string) (tool_diameter : Z) (s s1 : State)
      (base_rpm : Z) (base_power : Q) :
  calculate_machine_parameters env material job_type tool_diameter s
  = (inr (base_rpm, base_power), s1) ->
  (800 <= base_rpm <= 3500)%Z /\ s1 = with_random_pos (3 + random_pos s) s.
Proof.
  unfold calculate_machine_parameters, randint, bind, lift, ret.
  cbn [random_pos with_random_pos].
  set (r1 := (800 + _ mod _)%Z). set (r2 := (1500 + _ mod _)%Z).
  set (r3 := (2800 + _ mod _)%Z).
  assert (B1 : (800 <= r1 <= 1200)%Z).
  { subst r1. match goal with |- context [(?a mod ?b)%Z] =>
      pose proof (Z.mod_pos_bound a b) end. lia. }
  assert (B2 : (1500 <= r2 <= 2500)%Z).
  { subst r2. match goal with |- context [(?a mod ?b)%Z] =>
      pose proof (Z.mod_pos_bound a b) end. lia. }
  assert (B3 : (2800 <= r3 <= 3500)%Z).
  { subst r3. match goal with |- context [(?a mod ?b)%Z] =>
      pose proof (Z.mod_pos_bound a b) end. lia. }
  clearbody r1 r2 r3.
  destruct (getitem [("Mild Steel", r1); ("Aluminum", r2); ("Wood", r3)]
                    material) as [e|b] eqn:E; [discriminate|].
  destruct (getitem _ job_type) as [e|f]; [discriminate|].
  intros H; injection H as -> _ <-.
  apply getitem_inr in E. simpl in E.
  split; [|reflexivity].
  destruct E as [E|[E|[E|[]]]]; injection E as _ <-; lia.
Qed.

(** When the simulation block raises whatever state it starts from, so
    does the body, with nothing sampled and nothing written; on an
    available database the exception is the block's. *)
Lemma try_body_when_simulate_raises (raised : exn -> Prop)
      (lathe_id : Z) (job_id : string) (duration : Q)
      (material job_type : string) (tool_no : Z)
      (s0 s1 : State) (r : exn + string) :
  (forall sa, exists e,
      raised e
      /\ simulate env duration material job_type tool_no sa
         = (inl e, with_random_pos (3 + random_pos sa) sa)) ->
  try_body env lathe_id job_id duration material job_type tool_no s0
  = (r, s1) ->
  (exists e, r = inl e /\ (db_available env -> raised e))
  /\ SensoryData s1 = SensoryData s0 /\ normal_pos s1 = normal_pos s0.
Proof.
  intros Hsim H. rewrite try_body_phases in H. unfold bind at 1 in H.
  destruct (open_job env lathe_id job_id material job_type tool_no s0)
    as [[e|[]] sa] eqn:Eo.
  - injection H as <- <-.
    destruct (quiet_open_job env _ _ _ _ _ _ _ _ Eo) as (F1 & F2 & _).
    split; [|auto]. exists e; split; [reflexivity|].
    intros Hdb.
    destruct (open_job_available env lathe_id job_id material job_type
                tool_no s0 Hdb) as [s' E'].
    congruence.
  - destruct (Hsim sa) as (e & He & Es).
    rewrite (bind_eq_inl _ _ _ _ _ Es) in H. injection H as <- <-.
    destruct (quiet_open_job env _ _ _ _ _ _ _ _ Eo) as (F1 & F2 & _).
    split; [|auto]. exists e; auto.
Qed.

Lemma documents_of_no_points
      (lathe_id : Z) (job_id material job_type : string)
      (tool_no : Z) (base_time : Z) (sim : Simulation) :
  (n_points sim <= 0)%Z ->
  documents_of lathe_id job_id material job_type tool_no base_time sim = [].
Proof.
  intros H. unfold documents_of.
  replace (Z.to_nat (n_points sim)) with 0%nat by lia. reflexivity.
Qed.

(** With an empty wear array the last phase ends at [tool_wear[-1]], if
    not before. *)
Lemma store_samples_empty
      (lathe_id : Z) (job_id material job_type : string)
      (tool_no : Z) (sim : Simulation) (s s' : State) (r : exn + string) :
  tool_wear sim = [] ->
  store_samples env lathe_id job_id material job_type tool_no sim s
  = (r, s') ->
  exists e, r = inl e.
Proof.
  intros Hw. unfold store_samples. unfold bind at 1, now at 1.
  unfold bind at 1.
  destruct (insert_batches env _ _ _ _) as [[e|count] s1].
  - intros H; injection H as <- _; eauto.
  - rewrite Hw. unfold bind at 1, lift, last_item.
    intros H; injection H as <- _; eauto.
Qed.

(** On an available database and valid names the body comes down to its
    last phase, run on the arrays of the simulation block. *)
Lemma try_body_available
      (lathe_id : Z) (job_id : string) (duration : Q)
      (material job_type : string) (tool_no : Z) (s : State) :
  db_available env ->
  known_material material -> known_job_type job_type ->
  (0 <= int (duration * 60 / 5))%Z ->
  exists sa sim sb,
    simulate env duration material job_type tool_no sa = (inr sim, sb)
    /\ SensoryData sb = SensoryData s
    /\ try_body env lathe_id job_id duration material job_type tool_no s
       = store_samples env lathe_id job_id material job_type tool_no sim sb.
Proof.
  intros Hdb Hm Hj Hn.
  destruct (open_job_available env lathe_id job_id material job_type
              tool_no s Hdb) as [sa Eo].
  destruct (simulate_total env duration material job_type tool_no sa
              Hm Hj Hn) as (sim & sb & Es).
  exists sa, sim, sb. split; [exact Es|]. split.
  - rewrite (silent_simulate env _ _ _ _ _ _ _ Es).
    now destruct (quiet_open_job env _ _ _ _ _ _ _ _ Eo).
  - rewrite try_body_phases.
    rewrite (bind_eq_inr _ _ _ _ _ Eo).
    now rewrite (bind_eq_inr _ _ _ _ _ Es).
Qed.

(** A call with valid names and at least one sample, on an available
    database: all samples are written and counted in the answer. *)
Lemma generate_batch_sensor_data_success
      (lathe_id : Z) (job_id : string) (duration : Q)
      (material job_type : string) (tool_no : Z) (s : State) :
  db_available env ->
  known_material material -> known_job_type job_type ->
  (1 <= int (duration * 60 / 5))%Z ->
  exists s' documents,
    generate_batch_sensor_data env lathe_id job_id duration material
                               job_type tool_no s
    = (inr ("Successfully generated "
              ++ str_int (int (duration * 60 / 5))
              ++ " data points for Job " ++ job_id
              ++ " (Lathe " ++ str_int lathe_id ++ ")"), s')
    /\ SensoryData s' = (SensoryData s ++ documents)%list
    /\ length documents = Z.to_nat (int (duration * 60 / 5)).
Proof.
  intros Hdb Hm Hj Hn.
  destruct (generate_batch_sensor_data_answer env lathe_id job_id duration
              material job_type tool_no s) as (r & s1 & Hbody & Hgen).
  destruct (try_body_available lathe_id job_id duration material job_type
              tool_no (with_client false false s) Hdb Hm Hj)
    as (sa & sim & sb & Es & Fsb & Hphase); [lia|].
  change (SensoryData (with_client false false s)) with (SensoryData s)
    in Fsb.
  rewrite Hphase in Hbody.
  destruct (simulate_inr env _ _ _ _ _ _ _ Es)
    as (base_rpm & base_power & rate & props & vb & sc & _ & _ & _ & _
        & Hnp & _ & ((L1 & L2 & L3 & L4 & L5 & L6) & _) & _).
  assert (Hne : tool_wear sim <> []).
  { intros E. rewrite E in L2. simpl in L2. lia. }
  destruct (store_samples_available env lathe_id job_id material job_type
              tool_no sim sb Hdb Hne) as (s2 & Est & Fst).
  rewrite Est in Hbody. injection Hbody as <- <-.
  set (documents := documents_of lathe_id job_id material job_type tool_no
                      (datetime_now env (clock_pos sb)) sim) in *.
  assert (Ld : length documents = Z.to_nat (n_points sim)).
  { unfold documents, documents_of.
    apply make_documents_length; auto.
    now rewrite length_map, length_seq. }
  exists (if client_bound s2 then with_client true true s2 else s2), documents.
  split; [|split].
  - rewrite Hgen. unfold answer. rewrite Ld, Hnp.
    rewrite Z2Nat.id by lia. reflexivity.
  - rewrite <- Fsb, <- Fst. now destruct (client_bound s2).
  - now rewrite Ld, Hnp.
Qed.

End Body.

(** ** Calls that produce no sample *)

Section NoSample.

Variable env : Env.

Lemma known_material_dec (material : string) :
  {known_material material} + {~ known_material material}.
Proof. apply in_dec, string_dec. Qed.

Lemma known_job_type_dec (job_type : string) :
  {known_job_type job_type} + {~ known_job_type job_type}.
Proof. apply in_dec, string_dec. Qed.

(** With [n_points <= 0] a call writes no document. *)
Lemma generate_batch_sensor_data_no_points
      (lathe_id : Z) (job_id : string) (duration : Q)
      (material job_type : string) (tool_no : Z) :
  (int (duration * 60 / 5) <= 0)%Z ->
  writes (fun _ => False)
         (generate_batch_sensor_data env lathe_id job_id duration material
                                     job_type tool_no).
Proof.
  intros Hn. apply writes_generate_batch_sensor_data.
  intros s sim s1 base_time Es.
  destruct (simulate_inr env _ _ _ _ _ _ _ Es)
    as (_ & _ & _ & _ & _ & _ & _ & _ & _ & _ & Hnp & _).
  rewrite documents_of_no_points by (rewrite Hnp; exact Hn).
  constructor.
Qed.

(** With [n_points <= 0] the body of a call always ends in an
    exception. *)
Lemma try_body_no_points
      (lathe_id : Z) (job_id : string) (duration : Q)
      (material job_type : string) (tool_no : Z)
      (s0 s1 : State) (r : exn + string) :
  (int (duration * 60 / 5) <= 0)%Z ->
  try_body env lathe_id job_id duration material job_type tool_no s0
  = (r, s1) ->
  exists e, r = inl e.
Proof.
  intros Hn H.
  destruct (known_material_dec material) as [Hm|Hm].
  2:{ destruct (try_body_when_simulate_raises env (fun _ => True)
                  lathe_id job_id duration material job_type tool_no
                  s0 s1 r) as ((e & -> & _) & _); eauto.
      intros sa; eexists; split; [exact I|].
      now apply simulate_unknown_material. }
  destruct (known_job_type_dec job_type) as [Hj|Hj].
  2:{ destruct (try_body_when_simulate_raises env (fun _ => True)
                  lathe_id job_id duration material job_type tool_no
                  s0 s1 r) as ((e & -> & _) & _); eauto.
      intros sa; eexists; split; [exact I|].
      now apply simulate_unknown_job_type. }
  destruct (Z.eq_dec (int (duration * 60 / 5)) 0) as [Hz|Hz].
  2:{ destruct (try_body_when_simulate_raises env (fun _ => True)
                  lathe_id job_id duration material job_type tool_no
                  s0 s1 r) as ((e & -> & _) & _); eauto.
      intros sa.
      destruct (simulate_negative_points env duration material job_type
                  tool_no sa Hm Hj) as [msg E]; [lia|].
      eexists; split; [exact I|exact E]. }
  rewrite try_body_phases in H. unfold bind at 1 in H.
  destruct (open_job env lathe_id job_id material job_type tool_no s0)
    as [[e|[]] sa] eqn:Eo.
  - injection H as <- _; eauto.
  - destruct (simulate_total env duration material job_type tool_no sa
                Hm Hj) as (sim & sb & Es); [lia|].
    rewrite (bind_eq_inr _ _ _ _ _ Es) in H.
    destruct (simulate_inr env _ _ _ _ _ _ _ Es)
      as (_ & _ & _ & _ & _ & _ & _ & _ & _ & _ & Hnp & _
          & ((_ & L2 & _) & _) & _).
    apply (store_samples_empty env _ _ _ _ _ _ _ _ _) in H; [exact H|].
    rewrite Hnp, Hz in L2. now destruct (tool_wear sim).
Qed.

End NoSample.

(** ** Elapsed time *)

Lemma Forall_of_nth (P : Q -> Prop) (l : list Q) :
  (forall i, (i < length l)%nat -> P (nth i l 0)) -> Forall P l.
Proof.
  intros H. apply Forall_nth. intros i d Hi.
  rewrite (nth_indep _ d 0) by exact Hi. auto.
Qed.

Lemma duration_positive (duration : Q) :
  (0 < int (duration * 60 / 5))%Z -> 0 < duration.
Proof.
  intros H. apply int_pos_inv in H.
  destruct (Qlt_le_dec 0 duration) as [L|L]; [exact L|].
  exfalso. apply (Qlt_not_le _ _ H).
  apply Qle_shift_div_r; [reflexivity|]. lra.
Qed.

(** The step between two consecutive points of the time vector. *)
Lemma linspace_step_nonneg (duration : Q) (num : Z) :
  0 <= duration -> (1 < num)%Z -> 0 <= duration / inject_Z (num - 1).
Proof.
  intros Hd Hn. apply Qle_shift_div_l.
  - unfold Qlt; simpl; lia.
  - lra.
Qed.

Lemma elapsed_minutes_monotone (duration : Q) (l : list Q) (i j : nat) :
  linspace 0 duration (int (duration * 60 / 5)) = inr l ->
  (i <= j)%nat -> (j < Z.to_nat (int (duration * 60 / 5)))%nat ->
  0 <= nth i l 0 /\ nth i l 0 <= nth j l 0.
Proof.
  set (num := int (duration * 60 / 5)). intros E Hij Hj.
  assert (Hd : 0 < duration) by (apply duration_positive; fold num; lia).
  destruct (Z.eq_dec num 1) as [H1|H1].
  - assert (i = 0%nat) by lia. assert (j = 0%nat) by lia. subst i j.
    rewrite (linspace_first duration num l E) by lia. split; apply Qle_refl.
  - rewrite (linspace_nth duration num l i E), (linspace_nth duration num l j E)
      by lia.
    pose proof (linspace_step_nonneg duration num (Qlt_le_weak _ _ Hd)
                  ltac:(lia)) as Hs.
    split.
    + apply Qmult_le_0_compat; [|exact Hs]. unfold Qle; simpl; lia.
    + apply Qmult_le_compat_r; [|exact Hs]. unfold Qle; simpl; lia.
Qed.

(** ** Two runs on the same draws *)

Section TwoRuns.

Variables env env' : Env.

Lemma agree_bind {A B : Type} (m m' : M A) (k k' : A -> M B) :
  agree env env' m m' -> (forall a, agree env env' (k a) (k' a)) ->
  agree env env' (bind m k) (bind m' k').
Proof.
  intros Hm Hk s s' Hs. destruct (Hm s s' Hs) as [E R]. unfold bind.
  destruct (m s) as [[e|a] s1], (m' s') as [[e'|a'] s1'];
    simpl in E, R; try discriminate.
  - injection E as <-. auto.
  - injection E as <-. apply Hk, R.
Qed.

Lemma agree_lift {A : Type} (r : exn + A) : agree env env' (lift r) (lift r).
Proof. intros s s' Hs; auto. Qed.

Lemma agree_ret {A : Type} (a : A) : agree env env' (ret a) (ret a).
Proof. intros s s' Hs; auto. Qed.

Lemma agree_randint (a b : Z) :
  agree env env' (randint env a b) (randint env' a b).
Proof.
  intros s s' [Hr Hn]. unfold randint; simpl. split.
  - pose proof (Hr 0%nat) as H0. rewrite !Nat.add_0_r in H0. now rewrite H0.
  - split; simpl; [|exact Hn].
    intros k. pose proof (Hr (S k)) as Hk.
    now rewrite !Nat.add_succ_r in Hk.
Qed.

Lemma agree_np_random_normal (loc scale : Q) (size : Z) :
  agree env env' (np_random_normal env loc scale size)
        (np_random_normal env' loc scale size).
Proof.
  intros s s' [Hr Hn]. unfold np_random_normal.
  destruct (size <? 0)%Z; simpl; [split; [reflexivity|split; assumption]|].
  split.
  - f_equal. apply map_ext. intros k. now rewrite Hn.
  - split; simpl; [exact Hr|].
    intros k. rewrite <- !Nat.add_assoc. apply Hn.
Qed.

Lemma agree_simulate (duration : Q) (material job_type : string)
      (tool_no : Z) :
  agree env env' (simulate env duration material job_type tool_no)
        (simulate env' duration material job_type tool_no).
Proof.
  unfold simulate, calculate_machine_parameters.
  repeat first [ apply agree_randint | apply agree_np_random_normal
               | apply agree_lift | apply agree_ret
               | apply agree_bind; [|intros ?]
               | match goal with
                 | |- agree _ _ (match ?x with pair _ _ => _ end) _ =>
                     destruct x
                 end ].
Qed.

End TwoRuns.

(** * The claims *)

Lemma calm_env_available : db_available calm_env.
Proof. repeat split. Qed.

(** C5. For a known material, a known operation and a positive duration,
    the simulation block returns six arrays of exactly
    floor(duration * 60 / 5) entries each, and on an available database the
    call writes exactly that many documents. *)
Theorem C5_sequence_length
        (env : Env) (lathe_id : Z) (job_id : string) (duration : Q)
        (material job_type : string) (tool_no : Z) (s : State) :
  known_material material -> known_job_type job_type -> 0 < duration ->
  let n := Z.to_nat (Qfloor (duration * 60 / 5)) in
  (exists sim s',
      simulate env duration material job_type tool_no s = (inr sim, s')
      /\ n_points sim = Qfloor (duration * 60 / 5)
      /\ length (elapsed_minutes sim) = n /\ length (tool_wear sim) = n
      /\ length (current_rpm sim) = n /\ length (current_power sim) = n
      /\ length (workpiece_temp sim) = n /\ length (vibration sim) = n)
  /\ (db_available env ->
      exists message s' documents,
        generate_batch_sensor_data env lathe_id job_id duration material
                                   job_type tool_no s = (inr message, s')
        /\ SensoryData s' = (SensoryData s ++ documents)%list
        /\ length documents = n).
Proof.
  intros Hm Hj Hd n.
  destruct (n_points_of_positive duration Hd) as [Hfloor Hnn].
  split.
  - destruct (simulate_total env duration material job_type tool_no s
                Hm Hj Hnn) as (sim & s' & Es).
    exists sim, s'. split; [exact Es|].
    destruct (simulate_inr env _ _ _ _ _ _ _ Es)
      as (_ & _ & _ & _ & _ & _ & _ & _ & _ & _ & Hnp & _ & (L & _) & _).
    rewrite Hnp, Hfloor in L. rewrite Hnp, Hfloor. split; [reflexivity|exact L].
  - intros Hdb. subst n. rewrite <- Hfloor.
    destruct (Z.eq_dec (int (duration * 60 / 5)) 0) as [Hz|Hz].
    + destruct (generate_batch_sensor_data_answer env lathe_id job_id
                  duration material job_type tool_no s)
        as (r & s1 & _ & Hgen).
      eexists; eexists; exists []. split; [exact Hgen|].
      rewrite app_nil_r, Hz. split; [|reflexivity].
      apply (writes_nothing _ _ _ _
               (generate_batch_sensor_data_no_points env lathe_id job_id
                  duration material job_type tool_no ltac:(lia)) Hgen).
    + destruct (generate_batch_sensor_data_success env lathe_id job_id
                  duration material job_type tool_no s Hdb Hm Hj)
        as (s' & documents & Hgen & Hs & Hl); [lia|].
      eexists; exists s', documents. split; [exact Hgen|]. split; assumption.
Qed.

Lemma C5_sequence_length_witness :
  known_material "Wood" /\ known_job_type "turning" /\ 0 < 1 # 4
  /\ db_available calm_env
  /\ exists message s' documents,
      generate_batch_sensor_data calm_env 1 "JOB0101" (1 # 4) "Wood"
                                 "turning" 1 fresh = (inr message, s')
      /\ SensoryData s' = (SensoryData fresh ++ documents)%list
      /\ length documents = 3%nat.
Proof.
  assert (Hm : known_material "Wood") by (unfold known_material; simpl; auto).
  assert (Hj : known_job_type "turning") by (unfold known_job_type; simpl; auto).
  assert (Hd : 0 < 1 # 4) by reflexivity.
  refine (conj Hm (conj Hj (conj Hd (conj calm_env_available _)))).
  exact (proj2 (C5_sequence_length calm_env 1 "JOB0101" (1 # 4) "Wood"
                  "turning" 1 fresh Hm Hj Hd) calm_env_available).
Defined.

(** C1 (what the code does). The time vector comes from
    [linspace(0, duration, n_points)], which spreads the [n_points] samples
    over the closed interval: sample i lies at i * duration / (n_points - 1)
    minutes.  The elapsed minutes start at 0 and increase strictly, but
    with at least two samples the step is strictly longer than the sampling
    interval of 5/60 minutes, so the second sample does not lie at 5/60,
    although line 106 announces a point every 5 seconds and line 147 stamps
    sample i with [base_time + 5 * i] seconds. *)
Theorem C1_elapsed_minutes_spacing
        (env : Env) (duration : Q) (material job_type : string)
        (tool_no : Z) (s s' : State) (sim : Simulation) :
  simulate env duration material job_type tool_no s = (inr sim, s') ->
  (2 <= n_points sim)%Z ->
  let step := duration / inject_Z (n_points sim - 1) in
  (forall i, (i < Z.to_nat (n_points sim))%nat ->
             nth i (elapsed_minutes sim) 0 == inject_Z (Z.of_nat i) * step)
  /\ nth 0 (elapsed_minutes sim) 0 == 0
  /\ (forall i j, (i < j)%nat -> (j < Z.to_nat (n_points sim))%nat ->
         nth i (elapsed_minutes sim) 0 < nth j (elapsed_minutes sim) 0)
  /\ 5 / 60 < step
  /\ ~ nth 1 (elapsed_minutes sim) 0 == 1 * (5 / 60).
Proof.
  intros Es Hn step.
  destruct (simulate_inr env _ _ _ _ _ _ _ Es)
    as (_ & _ & _ & _ & _ & _ & _ & _ & _ & _ & Hnp & Hel & _).
  assert (Hstep : 5 / 60 < step).
  { subst step. apply Qlt_shift_div_l; [unfold Qlt; simpl; lia|].
    pose proof (int_le (duration * 60 / 5)) as Hle.
    rewrite <- Hnp in Hle. specialize (Hle ltac:(lia)).
    replace (n_points sim) with ((n_points sim - 1) + 1)%Z in Hle by lia.
    rewrite inject_Z_plus in Hle.
    change (inject_Z 1) with 1 in Hle.
    unfold Qdiv in *. change (/ 5) with (1 # 5) in Hle.
    change (/ 60) with (1 # 60). lra. }
  assert (Hnth : forall i, (i < Z.to_nat (n_points sim))%nat ->
             nth i (elapsed_minutes sim) 0 == inject_Z (Z.of_nat i) * step).
  { intros i Hi. apply (linspace_nth duration (n_points sim) _ i Hel); lia. }
  split; [exact Hnth|]. split; [|split; [|split; [exact Hstep|]]].
  - apply (linspace_first duration (n_points sim) _ Hel). lia.
  - intros i j Hij Hj. rewrite (Hnth i), (Hnth j) by lia.
    apply Qmult_lt_r.
    + apply Qlt_trans with (5 / 60); [reflexivity|exact Hstep].
    + unfold Qlt; simpl; lia.
  - rewrite (linspace_nth duration (n_points sim) _ 1 Hel) by lia.
    fold step. change (inject_Z (Z.of_nat 1)) with 1. intros E.
    rewrite !Qmult_1_l in E. rewrite E in Hstep.
    exact (Qlt_irrefl _ Hstep).
Qed.

Lemma C1_elapsed_minutes_spacing_witness :
  exists sim s',
    simulate calm_env 1 "Mild Steel" "turning" 1 fresh = (inr sim, s')
    /\ (2 <= n_points sim)%Z
    /\ 5 / 60 < 1 / inject_Z (n_points sim - 1)
    /\ ~ nth 1 (elapsed_minutes sim) 0 == 1 * (5 / 60).
Proof.
  destruct (simulate calm_env 1 "Mild Steel" "turning" 1 fresh)
    as [[e|sim] s'] eqn:E.
  - exfalso. vm_compute in E. discriminate E.
  - assert (Hn : (2 <= n_points sim)%Z).
    { vm_compute in E. injection E as <- _. vm_compute. discriminate. }
    exists sim, s'. split; [reflexivity|]. split; [exact Hn|].
    exact (proj2 (proj2 (proj2 (C1_elapsed_minutes_spacing calm_env 1
                                  "Mild Steel" "turning" 1 fresh s' sim
                                  E Hn)))).
Defined.

(** C10. In every run that returns samples, the first sample's tool wear
    is 0 whatever the noise draw, and with at least two samples the last
    entry of the time vector is the duration itself. *)
Theorem C10_first_wear_and_last_elapsed
        (env : Env) (duration : Q) (material job_type : string)
        (tool_no : Z) (s s' : State) (sim : Simulation) :
  simulate env duration material job_type tool_no s = (inr sim, s') ->
  ((1 <= n_points sim)%Z -> nth 0 (tool_wear sim) 0 == 0)
  /\ ((2 <= n_points sim)%Z -> last (elapsed_minutes sim) 0 = duration).
Proof.
  intros Es.
  destruct (simulate_inr env _ _ _ _ _ _ _ Es)
    as (base_rpm & base_power & rate & props & vb & s1 & _ & _ & _ & _
        & Hnp & Hel & (_ & F) & _).
  split.
  - intros Hn. destruct (F 0%nat ltac:(lia)) as (Ew & _).
    cbv zeta in Ew. rewrite Ew.
    rewrite (linspace_first duration _ _ Hel) by lia.
    rewrite Q.min_r; [ring|].
    rewrite Qmult_0_r, Qmult_0_l. discriminate.
  - intros Hn. unfold linspace in Hel.
    destruct (Z.ltb_spec (n_points sim) 0); [lia|].
    destruct (Z.ltb_spec 1 (n_points sim)); [|lia].
    injection Hel as <-.
    destruct (Z.ltb_spec 0 (n_points sim - 1)); [|lia].
    destruct (Z.to_nat (n_points sim)) as [|[|n]] eqn:En; [lia|lia|].
    unfold set_last, arange. cbn [seq map].
    apply last_last.
Qed.

Lemma C10_first_wear_and_last_elapsed_witness :
  exists sim s',
    simulate gusty_env (1 # 4) "Mild Steel" "turning" 1 fresh = (inr sim, s')
    /\ nth 0 (tool_wear sim) 0 == 0
    /\ last (elapsed_minutes sim) 0 = 1 # 4.
Proof.
  destruct (simulate gusty_env (1 # 4) "Mild Steel" "turning" 1 fresh)
    as [[e|sim] s'] eqn:E.
  - exfalso. vm_compute in E. discriminate E.
  - assert (Hn : (2 <= n_points sim)%Z).
    { vm_compute in E. injection E as <- _. vm_compute. discriminate. }
    exists sim, s'. split; [reflexivity|].
    destruct (C10_first_wear_and_last_elapsed gusty_env (1 # 4) "Mild Steel"
                "turning" 1 fresh s' sim E) as [H1 H2].
    split; [apply H1; lia | apply H2; exact Hn].
Defined.

(** C6. For every run and every produced sample, whatever the noise draws:
    rpm >= 100, power >= 0.5, 25 <= temperature <= 300 and vibration >= 0.
    This holds of the arrays the simulation block returns and of every
    document a call writes to the database. *)
Theorem C6_clamp_bounds
        (env : Env) (lathe_id : Z) (job_id : string) (duration : Q)
        (material job_type : string) (tool_no : Z) :
  (forall s sim s',
      simulate env duration material job_type tool_no s = (inr sim, s') ->
      Forall (fun rpm => 100 <= rpm) (current_rpm sim)
      /\ Forall (fun pwr => 0.5 <= pwr) (current_power sim)
      /\ Forall (fun temp => 25 <= temp <= 300) (workpiece_temp sim)
      /\ Forall (fun vib => 0 <= vib) (vibration sim))
  /\ writes within_clamps
            (generate_batch_sensor_data env lathe_id job_id duration material
                                        job_type tool_no).
Proof.
  assert (A : forall s sim s',
             simulate env duration material job_type tool_no s = (inr sim, s') ->
             Forall (fun rpm => 100 <= rpm) (current_rpm sim)
             /\ Forall (fun pwr => 0.5 <= pwr) (current_power sim)
             /\ Forall (fun temp => 25 <= temp <= 300) (workpiece_temp sim)
             /\ Forall (fun vib => 0 <= vib) (vibration sim)).
  { intros s sim s' Es.
    destruct (simulate_inr env _ _ _ _ _ _ _ Es)
      as (base_rpm & base_power & rate & props & vb & s1 & _ & _ & _ & _
          & _ & _ & ((_ & _ & L3 & L4 & L5 & L6) & F) & _).
    repeat split; apply Forall_of_nth; intros i Hi.
    - rewrite L3 in Hi. destruct (F i Hi) as (_ & -> & _). apply Q.le_max_l.
    - rewrite L4 in Hi. destruct (F i Hi) as (_ & _ & -> & _). apply Q.le_max_l.
    - rewrite L5 in Hi. destruct (F i Hi) as (_ & _ & _ & -> & _).
      unfold clip. split.
      + apply Q.min_glb; [discriminate|apply Q.le_max_r].
      + apply Q.le_min_l.
    - rewrite L6 in Hi. destruct (F i Hi) as (_ & _ & _ & _ & ->).
      apply Q.le_max_l. }
  split; [exact A|].
  apply writes_generate_batch_sensor_data.
  intros s sim s1 base_time Es.
  destruct (A s sim s1 Es) as (Hr & Hp & Ht & Hv).
  unfold documents_of.
  eapply Forall_impl;
    [|apply (make_documents_Forall
               (fun temp => 25 <= temp <= 300) (fun vib => 0 <= vib)
               (fun rpm => 100 <= rpm) (fun pwr => 0.5 <= pwr)
               (fun _ => True)); auto].
  - intros d (H1 & H2 & H3 & H4 & _). unfold within_clamps; auto.
  - apply Forall_of_nth; auto.
Qed.

Lemma C6_clamp_bounds_witness :
  exists sim s',
    simulate gusty_env (1 # 4) "Mild Steel" "turning" 1 fresh = (inr sim, s')
    /\ Forall (fun rpm => 100 <= rpm) (current_rpm sim)
    /\ Forall (fun pwr => 0.5 <= pwr) (current_power sim)
    /\ Forall (fun temp => 25 <= temp <= 300) (workpiece_temp sim)
    /\ Forall (fun vib => 0 <= vib) (vibration sim).
Proof.
  destruct (simulate gusty_env (1 # 4) "Mild Steel" "turning" 1 fresh)
    as [[e|sim] s'] eqn:E.
  - exfalso. vm_compute in E. discriminate E.
  - exists sim, s'. split; [reflexivity|].
    exact (proj1 (C6_clamp_bounds gusty_env 1 "JOB0101" (1 # 4) "Mild Steel"
                    "turning" 1) fresh sim s' E).
Defined.

(** The wear of each sample is min(100, rate * t * noise) with noise the
    sample's own draw 1 + 0.05 * z; it is at most 100 whatever the draw, and
    at least 0 when the draw is not negative. *)
Lemma tool_wear_samples
        (env : Env) (lathe_id : Z) (job_id : string) (duration : Q)
        (material job_type : string) (tool_no : Z) :
  (forall s sim s',
      simulate env duration material job_type tool_no s = (inr sim, s') ->
      exists rate,
        getitem TOOL_WEAR_RATES material = inr rate
        /\ forall i, (i < Z.to_nat (n_points sim))%nat ->
             let noise := 1 + 0.05 * standard_normal env (normal_pos s + i) in
             let t := nth i (elapsed_minutes sim) 0 in
             nth i (tool_wear sim) 0 = Qmin 100 (rate * t * noise)
             /\ nth i (tool_wear sim) 0 <= 100
             /\ (0 <= noise -> 0 <= nth i (tool_wear sim) 0))
  /\ writes (fun d => ToolWear d <= 100)
            (generate_batch_sensor_data env lathe_id job_id duration material
                                        job_type tool_no).
Proof.
  assert (A : forall s sim s',
             simulate env duration material job_type tool_no s = (inr sim, s') ->
             exists rate,
               getitem TOOL_WEAR_RATES material = inr rate
               /\ forall i, (i < Z.to_nat (n_points sim))%nat ->
                    let noise :=
                      1 + 0.05 * standard_normal env (normal_pos s + i) in
                    let t := nth i (elapsed_minutes sim) 0 in
                    nth i (tool_wear sim) 0 = Qmin 100 (rate * t * noise)
                    /\ nth i (tool_wear sim) 0 <= 100
                    /\ (0 <= noise -> 0 <= nth i (tool_wear sim) 0)).
  { intros s sim s' Es.
    destruct (simulate_inr env _ _ _ _ _ _ _ Es)
      as (base_rpm & base_power & rate & props & vb & s1 & Hcalc & Hrate & _
          & _ & Hnp & Hel & (_ & F) & _).
    apply calculate_machine_parameters_inr in Hcalc as [_ ->].
    cbn [normal_pos with_random_pos] in F.
    exists rate. split; [exact Hrate|]. intros i Hi noise t.
    destruct (F i Hi) as (Ew & _). cbv zeta in Ew. fold noise t in Ew.
    split; [exact Ew|]. rewrite Ew. split; [apply Q.le_min_l|].
    intros Hnoise. apply Q.min_glb; [discriminate|].
    rewrite Hnp in Hel, Hi.
    destruct (elapsed_minutes_monotone duration _ i i Hel (Nat.le_refl i) Hi)
      as [Ht _].
    apply Qmult_le_0_compat; [|exact Hnoise].
    apply Qmult_le_0_compat; [|exact Ht].
    apply Qlt_le_weak, (TOOL_WEAR_RATES_pos material), Hrate. }
  split; [exact A|].
  apply writes_generate_batch_sensor_data.
  intros s sim s1 base_time Es.
  destruct (A s sim s1 Es) as (rate & _ & F).
  destruct (simulate_inr env _ _ _ _ _ _ _ Es)
    as (_ & _ & _ & _ & _ & _ & _ & _ & _ & _ & _ & _
        & ((_ & L2 & _) & _) & _).
  unfold documents_of.
  eapply Forall_impl;
    [|apply (make_documents_Forall
               (fun _ => True) (fun _ => True) (fun _ => True)
               (fun _ => True) (fun wear => wear <= 100));
      try (apply Forall_of_nth; auto)].
  - intros d (_ & _ & _ & _ & H). exact H.
  - intros i Hi. rewrite L2 in Hi. now destruct (F i Hi) as (_ & H & _).
Qed.

(** C2. For every run and every produced sample,
    toolWearPct = min(100, wearRate[material] * t * noise) with noise the
    sample's own draw 1 + 0.05 * z of Normal(1, 0.05), and
    0 <= toolWearPct <= 100: the deviates numpy hands out keep the noise
    factor above 0.39.  The same bounds hold of the ToolWear of every
    document a call writes. *)
Theorem C2_tool_wear_within_bounds
        (env : Env) (lathe_id : Z) (job_id : string) (duration : Q)
        (material job_type : string) (tool_no : Z) :
  numpy_deviates env ->
  (forall s sim s',
      simulate env duration material job_type tool_no s = (inr sim, s') ->
      exists rate,
        getitem TOOL_WEAR_RATES material = inr rate
        /\ forall i, (i < Z.to_nat (n_points sim))%nat ->
             let noise := 1 + 0.05 * standard_normal env (normal_pos s + i) in
             let t := nth i (elapsed_minutes sim) 0 in
             nth i (tool_wear sim) 0 = Qmin 100 (rate * t * noise)
             /\ 0.39 <= noise
             /\ 0 <= nth i (tool_wear sim) 0
             /\ nth i (tool_wear sim) 0 <= 100)
  /\ writes (fun d => 0 <= ToolWear d /\ ToolWear d <= 100)
            (generate_batch_sensor_data env lathe_id job_id duration material
                                        job_type tool_no).
Proof.
  intros Hz.
  assert (Hnoise : forall k, 0.39 <= 1 + 0.05 * standard_normal env k).
  { intros k. destruct (Hz k) as [Hlo _]. lra. }
  assert (A : forall s sim s',
             simulate env duration material job_type tool_no s = (inr sim, s') ->
             exists rate,
               getitem TOOL_WEAR_RATES material = inr rate
               /\ forall i, (i < Z.to_nat (n_points sim))%nat ->
                    let noise :=
                      1 + 0.05 * standard_normal env (normal_pos s + i) in
                    let t := nth i (elapsed_minutes sim) 0 in
                    nth i (tool_wear sim) 0 = Qmin 100 (rate * t * noise)
                    /\ 0.39 <= noise
                    /\ 0 <= nth i (tool_wear sim) 0
                    /\ nth i (tool_wear sim) 0 <= 100).
  { intros s sim s' Es.
    destruct (proj1 (tool_wear_samples env lathe_id job_id duration material
                       job_type tool_no) s sim s' Es) as (rate & Hrate & F).
    exists rate. split; [exact Hrate|]. intros i Hi noise t.
    destruct (F i Hi) as (Ew & H100 & H0). cbv zeta in Ew, H0.
    pose proof (Hnoise (normal_pos s + i)%nat) as Hn. fold noise in Hn.
    split; [exact Ew|]. split; [exact Hn|]. split; [|exact H100].
    apply H0. fold noise. lra. }
  split; [exact A|].
  apply writes_generate_batch_sensor_data.
  intros s sim s1 base_time Es.
  destruct (A s sim s1 Es) as (rate & _ & F).
  destruct (simulate_inr env _ _ _ _ _ _ _ Es)
    as (_ & _ & _ & _ & _ & _ & _ & _ & _ & _ & _ & _
        & ((_ & L2 & _) & _) & _).
  unfold documents_of.
  eapply Forall_impl;
    [|apply (make_documents_Forall
               (fun _ => True) (fun _ => True) (fun _ => True)
               (fun _ => True) (fun wear => 0 <= wear /\ wear <= 100));
      try (apply Forall_of_nth; auto)].
  - intros d (_ & _ & _ & _ & H). exact H.
  - intros i Hi. rewrite L2 in Hi.
    destruct (F i Hi) as (_ & _ & H0 & H100). auto.
Qed.

Lemma breezy_env_deviates : numpy_deviates breezy_env.
Proof.
  intros k. unfold breezy_env; cbn [standard_normal].
  destruct (Nat.eqb k 1); split; discriminate.
Qed.

Lemma C2_tool_wear_within_bounds_witness :
  numpy_deviates breezy_env
  /\ exists sim s',
      simulate breezy_env (1 # 4) "Mild Steel" "turning" 1 fresh
      = (inr sim, s')
      /\ nth 1 (tool_wear sim) 0
         = Qmin 100 (0.15 * nth 1 (elapsed_minutes sim) 0
                     * (1 + 0.05 * -(12)))
      /\ 0 <= nth 1 (tool_wear sim) 0
      /\ nth 1 (tool_wear sim) 0 <= 100.
Proof.
  split; [exact breezy_env_deviates|].
  destruct (simulate breezy_env (1 # 4) "Mild Steel" "turning" 1 fresh)
    as [[e|sim] s'] eqn:E.
  - exfalso. vm_compute in E. discriminate E.
  - assert (Hn : n_points sim = 3%Z).
    { vm_compute in E. injection E as <- _. reflexivity. }
    exists sim, s'. split; [reflexivity|].
    destruct (proj1 (C2_tool_wear_within_bounds breezy_env 1 "JOB0101"
                       (1 # 4) "Mild Steel" "turning" 1 breezy_env_deviates)
                    fresh sim s' E)
      as (rate & Hrate & F).
    vm_compute in Hrate. injection Hrate as <-.
    destruct (F 1%nat ltac:(rewrite Hn; vm_compute; lia)) as (H1 & _ & H2 & H3).
    split; [exact H1|]. split; [exact H2|exact H3].
Defined.

(** C7. With every noise deviate at zero, in every run that returns
    samples the tool wear does not decrease along the samples, each rpm
    value is max(100, baseRpm * (1 - wear/500)) for the run's base rpm, the
    rpm does not increase along the samples, and for a fixed base rpm that
    formula does not increase when the wear grows. *)
Theorem C7_monotone_without_noise
        (env : Env) (duration : Q) (material job_type : string)
        (tool_no : Z) (s s' : State) (sim : Simulation) :
  (forall k, standard_normal env k == 0) ->
  simulate env duration material job_type tool_no s = (inr sim, s') ->
  exists base_rpm : Z,
    (forall i, (i < Z.to_nat (n_points sim))%nat ->
        nth i (current_rpm sim) 0
        == Qmax 100 (inject_Z base_rpm * (1 - nth i (tool_wear sim) 0 / 500)))
    /\ (forall i j, (i <= j)%nat -> (j < Z.to_nat (n_points sim))%nat ->
          nth i (tool_wear sim) 0 <= nth j (tool_wear sim) 0
          /\ nth j (current_rpm sim) 0 <= nth i (current_rpm sim) 0)
    /\ (forall wear1 wear2, wear1 <= wear2 ->
          Qmax 100 (inject_Z base_rpm * (1 - wear2 / 500))
          <= Qmax 100 (inject_Z base_rpm * (1 - wear1 / 500))).
Proof.
  intros Hz Es.
  destruct (simulate_inr env _ _ _ _ _ _ _ Es)
    as (base_rpm & base_power & rate & props & vb & s1 & Hcalc & Hrate & _
        & _ & Hnp & Hel & (_ & F) & _).
  apply calculate_machine_parameters_inr in Hcalc as [Hb _].
  assert (Hb0 : 0 < inject_Z base_rpm) by (unfold Qlt; simpl; lia).
  assert (Hrate0 : 0 < rate) by exact (TOOL_WEAR_RATES_pos material rate Hrate).
  assert (Mono : forall wear1 wear2, wear1 <= wear2 ->
            Qmax 100 (inject_Z base_rpm * (1 - wear2 / 500))
            <= Qmax 100 (inject_Z base_rpm * (1 - wear1 / 500))).
  { intros w1 w2 Hw. apply Q.max_le_compat_l.
    apply Qmult_le_l; [exact Hb0|].
    unfold Qdiv. change (/ 500) with (1 # 500). lra. }
  assert (Rpm : forall i, (i < Z.to_nat (n_points sim))%nat ->
            nth i (current_rpm sim) 0
            == Qmax 100 (inject_Z base_rpm
                         * (1 - nth i (tool_wear sim) 0 / 500))).
  { intros i Hi. destruct (F i Hi) as (_ & Er & _). cbv zeta in Er.
    rewrite Er, Hz.
    setoid_replace (1 + (0 + 0.03 * 0)) with 1 by ring.
    now rewrite Qmult_1_r. }
  assert (Wear : forall i j, (i <= j)%nat -> (j < Z.to_nat (n_points sim))%nat ->
            nth i (tool_wear sim) 0 <= nth j (tool_wear sim) 0).
  { intros i j Hij Hj.
    destruct (F i ltac:(lia)) as (Ei & _). destruct (F j Hj) as (Ej & _).
    cbv zeta in Ei, Ej. rewrite Ei, Ej, !Hz.
    setoid_replace (1 + 0.05 * 0) with 1 by ring. rewrite !Qmult_1_r.
    apply Q.min_le_compat_l. apply Qmult_le_l; [exact Hrate0|].
    rewrite Hnp in Hel, Hj.
    now destruct (elapsed_minutes_monotone duration _ i j Hel Hij Hj). }
  exists base_rpm. split; [exact Rpm|]. split; [|exact Mono].
  intros i j Hij Hj. split; [now apply Wear|].
  rewrite (Rpm i), (Rpm j) by lia. apply Mono. now apply Wear.
Qed.

Lemma C7_monotone_without_noise_witness :
  (forall k, standard_normal calm_env k == 0)
  /\ exists sim s',
      simulate calm_env (1 # 4) "Mild Steel" "turning" 1 fresh = (inr sim, s')
      /\ nth 1 (tool_wear sim) 0 <= nth 2 (tool_wear sim) 0
      /\ nth 2 (current_rpm sim) 0 <= nth 1 (current_rpm sim) 0.
Proof.
  assert (Hz : forall k, standard_normal calm_env k == 0)
    by (intros k; reflexivity).
  split; [exact Hz|].
  destruct (simulate calm_env (1 # 4) "Mild Steel" "turning" 1 fresh)
    as [[e|sim] s'] eqn:E.
  - exfalso. vm_compute in E. discriminate E.
  - assert (Hn : n_points sim = 3%Z).
    { vm_compute in E. injection E as <- _. reflexivity. }
    exists sim, s'. split; [reflexivity|].
    destruct (C7_monotone_without_noise calm_env (1 # 4) "Mild Steel"
                "turning" 1 fresh s' sim Hz E) as (base_rpm & _ & H & _).
    apply (H 1%nat 2%nat); rewrite ?Hn; vm_compute; lia.
Defined.

(** C8. The sample arrays are a function of the inputs and of the draws of
    the two generators alone: two runs that are handed the same draws end
    the same way, whatever the database, the clock and the rest of the
    state are; on Mild Steel, turning, tool 1 and 10 minutes both return
    the same arrays, of exactly 120 entries each. *)
Theorem C8_reproducible_run (env env' : Env) (s s' : State) :
  same_draws env env' s s' ->
  (forall duration material job_type tool_no,
      fst (simulate env duration material job_type tool_no s)
      = fst (simulate env' duration material job_type tool_no s'))
  /\ exists sim,
      fst (simulate env 10 "Mild Steel" "turning" 1 s) = inr sim
      /\ fst (simulate env' 10 "Mild Steel" "turning" 1 s') = inr sim
      /\ n_points sim = 120%Z
      /\ length (elapsed_minutes sim) = 120%nat
      /\ length (tool_wear sim) = 120%nat
      /\ length (current_rpm sim) = 120%nat
      /\ length (current_power sim) = 120%nat
      /\ length (workpiece_temp sim) = 120%nat
      /\ length (vibration sim) = 120%nat.
Proof.
  intros Hs.
  assert (D : forall duration material job_type tool_no,
             fst (simulate env duration material job_type tool_no s)
             = fst (simulate env' duration material job_type tool_no s')).
  { intros. now apply agree_simulate. }
  split; [exact D|].
  assert (Hm : known_material "Mild Steel")
    by (unfold known_material; simpl; auto).
  assert (Hj : known_job_type "turning") by (unfold known_job_type; simpl; auto).
  assert (Hn : int (10 * 60 / 5) = 120%Z) by reflexivity.
  destruct (simulate_total env 10 "Mild Steel" "turning" 1 s Hm Hj)
    as (sim & s1 & Es); [rewrite Hn; lia|].
  exists sim. rewrite <- D, Es. split; [reflexivity|]. split; [reflexivity|].
  destruct (simulate_inr env _ _ _ _ _ _ _ Es)
    as (_ & _ & _ & _ & _ & _ & _ & _ & _ & _ & Hnp & _ & (L & _) & _).
  rewrite Hnp, Hn in L. rewrite Hnp, Hn.
  split; [reflexivity|]. exact L.
Qed.

Lemma C8_reproducible_run_witness :
  same_draws calm_env offline_env fresh used
  /\ fst (simulate calm_env 10 "Mild Steel" "turning" 1 fresh)
     = fst (simulate offline_env 10 "Mild Steel" "turning" 1 used).
Proof.
  assert (Hs : same_draws calm_env offline_env fresh used).
  { split; intros k; reflexivity. }
  split; [exact Hs|].
  exact (proj1 (C8_reproducible_run calm_env offline_env fresh used Hs)
               10 "Mild Steel" "turning" 1%Z).
Defined.

(** C9. [generate_batch_sensor_data] never lets an exception through: on
    every input and in every environment it returns a text; when its body
    raises [e] the text is "Error occurred: " followed by [str(e)], and
    this is what happens on every unknown material or operation. *)
Theorem C9_always_answers_with_text
        (env : Env) (lathe_id : Z) (job_id : string) (duration : Q)
        (material job_type : string) (tool_no : Z) (s : State) :
  exists message s',
    generate_batch_sensor_data env lathe_id job_id duration material
                               job_type tool_no s = (inr message, s')
    /\ (forall e s1,
           try_body env lathe_id job_id duration material job_type tool_no
                    (with_client false false s) = (inl e, s1) ->
           message = "Error occurred: " ++ str e)
    /\ (~ known_material material \/ ~ known_job_type job_type ->
        String.prefix "Error occurred: " message = true).
Proof.
  destruct (generate_batch_sensor_data_answer env lathe_id job_id duration
              material job_type tool_no s) as (r & s1 & Hbody & Hgen).
  eexists; eexists. split; [exact Hgen|]. split.
  - intros e s2 E. rewrite E in Hbody. injection Hbody as <- _. reflexivity.
  - intros Hunknown.
    assert (Hr : exists e, r = inl e).
    { destruct (known_material_dec material) as [Hm|Hm].
      - destruct Hunknown as [Hm'|Hj]; [contradiction|].
        destruct (try_body_when_simulate_raises env (fun _ => True)
                    lathe_id job_id duration material job_type tool_no
                    _ _ _
                    (fun sa => ex_intro _ _
                       (conj I (simulate_unknown_job_type env duration
                                  material job_type tool_no sa Hm Hj)))
                    Hbody) as ((e & -> & _) & _).
        eauto.
      - destruct (try_body_when_simulate_raises env (fun _ => True)
                    lathe_id job_id duration material job_type tool_no
                    _ _ _
                    (fun sa => ex_intro _ _
                       (conj I (simulate_unknown_material env duration
                                  material job_type tool_no sa Hm)))
                    Hbody) as ((e & -> & _) & _).
        eauto. }
    destruct Hr as [e ->]. apply answer_raised.
Qed.

Lemma C9_always_answers_with_text_witness :
  ~ known_material "Nonexistent"
  /\ exists message s',
      generate_batch_sensor_data offline_env 1 "JOB0101" 10 "Nonexistent"
                                 "turning" 1 used = (inr message, s')
      /\ String.prefix "Error occurred: " message = true.
Proof.
  assert (Hm : ~ known_material "Nonexistent").
  { unfold known_material; simpl. intros [H|[H|[H|[]]]]; discriminate H. }
  split; [exact Hm|].
  destruct (C9_always_answers_with_text offline_env 1 "JOB0101" 10
              "Nonexistent" "turning" 1 used)
    as (message & s' & Hgen & _ & Hprefix).
  exists message, s'. split; [exact Hgen|]. apply Hprefix. left; exact Hm.
Defined.

(** C3 (as stated, refuted). On the material "Nonexistent" the call does
    not raise a typed error: it returns the text
    "Error occurred: 'Nonexistent'". *)
Lemma C3_unknown_material_counterexample :
  fst (generate_batch_sensor_data calm_env 1 "JOB0101" 10 "Nonexistent"
                                  "turning" 1 fresh)
  = inr "Error occurred: 'Nonexistent'"
  /\ forall e,
      fst (generate_batch_sensor_data calm_env 1 "JOB0101" 10 "Nonexistent"
                                      "turning" 1 fresh) <> inl e.
Proof.
  assert (E : fst (generate_batch_sensor_data calm_env 1 "JOB0101" 10
                     "Nonexistent" "turning" 1 fresh)
              = inr "Error occurred: 'Nonexistent'") by (vm_compute; reflexivity).
  split; [exact E|]. intros e. rewrite E. discriminate.
Qed.

(** C3 (amended). On a material that is not a key of the lookups, the
    simulation block raises [KeyError(material)] at the base-speed lookup
    of [calculate_machine_parameters], before any numpy draw; the call then
    returns a text that begins with "Error occurred: ", has drawn no sample
    and has written no document.  When the database is available the text
    is "Error occurred: " followed by Python's [repr] of the material
    (stated for ASCII names: between single quotes, or double quotes when
    the name has an apostrophe), and the job record inserted before the
    simulation stays behind with status "Running". *)
Theorem C3_unknown_material_stops_before_sampling
        (env : Env) (lathe_id : Z) (job_id : string) (duration : Q)
        (material job_type : string) (tool_no : Z) (s : State) :
  ~ known_material material ->
  simulate env duration material job_type tool_no s
  = (inl (KeyError material), with_random_pos (3 + random_pos s) s)
  /\ exists message s',
      generate_batch_sensor_data env lathe_id job_id duration material
                                 job_type tool_no s = (inr message, s')
      /\ String.prefix "Error occurred: " message = true
      /\ SensoryData s' = SensoryData s
      /\ normal_pos s' = normal_pos s
      /\ (db_available env ->
          (is_ascii material = true ->
           message = "Error occurred: " ++ repr material)
          /\ exists job_record,
              JobDetails s' = (JobDetails s ++ [job_record])%list
              /\ job_JobID job_record = job_id
              /\ job_LatheID job_record = lathe_id
              /\ Status job_record = "Running").
Proof.
  intros Hm. split; [now apply simulate_unknown_material|].
  destruct (generate_batch_sensor_data_answer env lathe_id job_id duration
              material job_type tool_no s) as (r & s1 & Hbody & Hgen).
  destruct (try_body_when_simulate_raises env
              (fun e => e = KeyError material)
              lathe_id job_id duration material job_type tool_no _ _ _
              (fun sa => ex_intro _ _
                 (conj eq_refl (simulate_unknown_material env duration
                                  material job_type tool_no sa Hm)))
              Hbody) as ((e & -> & He) & F1 & F2).
  eexists; eexists. split; [exact Hgen|].
  split; [apply answer_raised|].
  split; [now destruct (client_bound s1)|].
  split; [now destruct (client_bound s1)|].
  intros Hdb. split; [intros _; rewrite (He Hdb); reflexivity|].
  destruct (open_job_available env lathe_id job_id material job_type tool_no
              (with_client false false s) Hdb) as [sa Eo].
  destruct (open_job_record env _ _ _ _ _ _ _ Hdb Eo)
    as (job_record & Hjob & Hrest).
  exists job_record. split; [|exact Hrest].
  rewrite try_body_phases, (bind_eq_inr _ _ _ _ _ Eo) in Hbody.
  rewrite (bind_eq_inl _ _ _ _ _
             (simulate_unknown_material env duration material job_type
                tool_no sa Hm)) in Hbody.
  injection Hbody as _ <-.
  match goal with |- context [if ?c then _ else _] => destruct c end;
    exact Hjob.
Qed.

Lemma C3_unknown_material_stops_before_sampling_witness :
  ~ known_material "it's" /\ db_available calm_env
  /\ is_ascii "it's" = true
  /\ simulate calm_env 10 "it's" "turning" 1 used
     = (inl (KeyError "it's"), with_random_pos 3 used)
  /\ exists s',
      generate_batch_sensor_data calm_env 1 "JOB0101" 10 "it's" "turning" 1
                                 used
      = (inr ("Error occurred: "
                ++ String double_quote
                          ("it's" ++ String double_quote EmptyString)),
         s').
Proof.
  assert (Hm : ~ known_material "it's").
  { unfold known_material; simpl. intros [H|[H|[H|[]]]]; discriminate H. }
  split; [exact Hm|]. split; [exact calm_env_available|].
  split; [reflexivity|].
  destruct (C3_unknown_material_stops_before_sampling calm_env 1 "JOB0101"
              10 "it's" "turning" 1 used Hm)
    as (Hsim & message & s' & Hgen & _ & _ & _ & Hdb).
  split; [exact Hsim|].
  destruct (Hdb calm_env_available) as [Hmessage _].
  rewrite (Hmessage eq_refl) in Hgen.
  exists s'. exact Hgen.
Defined.

(** C4 (as stated, refuted). A tool index of 0 is not rejected: on
    otherwise valid input the call writes its 120 samples and reports
    success.  A duration of 0 is not rejected by a typed error either: the
    call returns a text. *)
Lemma C4_nonpositive_inputs_counterexample :
  fst (generate_batch_sensor_data calm_env 1 "JOB0101" 10 "Mild Steel"
                                  "turning" 0 fresh)
  = inr "Successfully generated 120 data points for Job JOB0101 (Lathe 1)"
  /\ length (SensoryData
               (snd (generate_batch_sensor_data calm_env 1 "JOB0101" 10
                       "Mild Steel" "turning" 0 fresh))) = 120%nat
  /\ fst (generate_batch_sensor_data calm_env 1 "JOB0101" 0 "Mild Steel"
                                     "turning" 1 fresh)
     = inr "Error occurred: index -1 is out of bounds for axis 0 with size 0".
Proof.
  split; [vm_compute; reflexivity|].
  split; vm_compute; reflexivity.
Qed.

(** C4 (amended). For every non-positive duration the call produces no
    sample and returns a text that begins with "Error occurred: ".  A
    non-positive tool index is not rejected: with a known material and
    operation, an available database and a duration that yields at least
    one sample, the call writes its int(duration * 60 / 5) samples and
    reports success. *)
Theorem C4_nonpositive_inputs
        (env : Env) (lathe_id : Z) (job_id : string) (duration : Q)
        (material job_type : string) (tool_no : Z) (s : State) :
  (duration <= 0 ->
   exists message s',
     generate_batch_sensor_data env lathe_id job_id duration material
                                job_type tool_no s = (inr message, s')
     /\ String.prefix "Error occurred: " message = true
     /\ SensoryData s' = SensoryData s)
  /\ ((tool_no <= 0)%Z -> db_available env ->
      known_material material -> known_job_type job_type ->
      (1 <= int (duration * 60 / 5))%Z ->
      exists s' documents,
        generate_batch_sensor_data env lathe_id job_id duration material
                                   job_type tool_no s
        = (inr ("Successfully generated "
                  ++ str_int (int (duration * 60 / 5))
                  ++ " data points for Job " ++ job_id
                  ++ " (Lathe " ++ str_int lathe_id ++ ")"), s')
        /\ SensoryData s' = (SensoryData s ++ documents)%list
        /\ length documents = Z.to_nat (int (duration * 60 / 5))).
Proof.
  split.
  - intros Hd. pose proof (n_points_of_nonpositive duration Hd) as Hn.
    destruct (generate_batch_sensor_data_answer env lathe_id job_id duration
                material job_type tool_no s) as (r & s1 & Hbody & Hgen).
    destruct (try_body_no_points env _ _ _ _ _ _ _ _ _ Hn Hbody) as [e ->].
    eexists; eexists. split; [exact Hgen|].
    split; [apply answer_raised|].
    exact (writes_nothing _ _ _ _
             (generate_batch_sensor_data_no_points env lathe_id job_id
                duration material job_type tool_no Hn) Hgen).
  - intros _ Hdb Hm Hj Hn.
    now apply generate_batch_sensor_data_success.
Qed.

Lemma C4_nonpositive_inputs_witness :
  (-3 <= 0 /\ (-2 <= 0)%Z /\ db_available calm_env
   /\ known_material "Wood" /\ known_job_type "boring"
   /\ (1 <= int ((1 # 4) * 60 / 5))%Z)
  /\ (exists message s',
         generate_batch_sensor_data offline_env 1 "JOB0101" (-3) "Wood"
                                    "boring" 1 used = (inr message, s')
         /\ String.prefix "Error occurred: " message = true
         /\ SensoryData s' = SensoryData used)
  /\ exists s' documents,
      generate_batch_sensor_data calm_env 1 "JOB0101" (1 # 4) "Wood"
                                 "boring" (-2) used
      = (inr "Successfully generated 3 data points for Job JOB0101 (Lathe 1)",
         s')
      /\ SensoryData s' = (SensoryData used ++ documents)%list
      /\ length documents = 3%nat.
Proof.
  assert (Hd : -3 <= 0) by discriminate.
  assert (Ht : (-2 <= 0)%Z) by lia.
  assert (Hm : known_material "Wood") by (unfold known_material; simpl; auto).
  assert (Hj : known_job_type "boring")
    by (unfold known_job_type; simpl; auto 10).
  assert (Hn : (1 <= int ((1 # 4) * 60 / 5))%Z) by (vm_compute; discriminate).
  split; [auto 10 using calm_env_available|]. split.
  - exact (proj1 (C4_nonpositive_inputs offline_env 1 "JOB0101" (-3) "Wood"
                    "boring" 1 used) Hd).
  - exact (proj2 (C4_nonpositive_inputs calm_env 1 "JOB0101" (1 # 4) "Wood"
                    "boring" (-2) used) Ht calm_env_available Hm Hj Hn).
Defined.

(** * Further properties of the module *)

(** ** [calculate_machine_parameters] *)

(** X1. When [calculate_machine_parameters] returns, the base rpm lies in
    the range of the material (Mild Steel 800-1200, Aluminum 1500-2500,
    Wood 2800-3500), the base power is the factor of the operation times
    a tenth of the tool diameter, and exactly three draws of [random] have
    been consumed. *)
Theorem X1_base_parameters
        (env : Env) (material job_type : string) (tool_diameter : Z)
        (s s1 : State) (base_rpm : Z) (base_power : Q) :
  calculate_machine_parameters env material job_type tool_diameter s
  = (inr (base_rpm, base_power), s1) ->
  exists lo hi factor,
    getitem [ ("Mild Steel", (800, 1200)%Z); ("Aluminum", (1500, 2500)%Z);
              ("Wood", (2800, 3500)%Z) ] material = inr (lo, hi)
    /\ (lo <= base_rpm <= hi)%Z
    /\ getitem [ ("turning", 3.5); ("facing", 4.0); ("threading", 2.8);
                 ("drilling", 5.0); ("boring", 3.0); ("knurling", 2.5) ]
               job_type = inr factor
    /\ base_power = factor * (inject_Z tool_diameter / 10)
    /\ s1 = with_random_pos (3 + random_pos s) s.
Proof.
  unfold calculate_machine_parameters, randint, bind, lift, ret.
  cbn [random_pos with_random_pos].
  set (r1 := (800 + _ mod _)%Z). set (r2 := (1500 + _ mod _)%Z).
  set (r3 := (2800 + _ mod _)%Z).
  assert (B1 : (800 <= r1 <= 1200)%Z).
  { subst r1. match goal with |- context [(?a mod ?b)%Z] =>
      pose proof (Z.mod_pos_bound a b) end. lia. }
  assert (B2 : (1500 <= r2 <= 2500)%Z).
  { subst r2. match goal with |- context [(?a mod ?b)%Z] =>
      pose proof (Z.mod_pos_bound a b) end. lia. }
  assert (B3 : (2800 <= r3 <= 3500)%Z).
  { subst r3. match goal with |- context [(?a mod ?b)%Z] =>
      pose proof (Z.mod_pos_bound a b) end. lia. }
  clearbody r1 r2 r3.
  destruct (getitem [("Mild Steel", r1); ("Aluminum", r2); ("Wood", r3)]
                    material) as [e|b] eqn:E; [discriminate|].
  destruct (getitem _ job_type) as [e|factor] eqn:F; [discriminate|].
  intros H; injection H as <- <- <-.
  apply getitem_inr in E. simpl in E.
  destruct E as [E|[E|[E|[]]]]; injection E as <- <-;
    do 3 eexists; (split; [reflexivity|]); (split; [lia|]);
    (split; [first [exact F | reflexivity]|]); split; reflexivity.
Qed.

Lemma X1_base_parameters_witness :
  exists base_rpm base_power s1,
    calculate_machine_parameters calm_env "Aluminum" "drilling" 14 fresh
    = (inr (base_rpm, base_power), s1)
    /\ (1500 <= base_rpm <= 2500)%Z /\ base_power == 7.
Proof.
  destruct (calculate_machine_parameters calm_env "Aluminum" "drilling" 14
              fresh) as [[e|[base_rpm base_power]] s1] eqn:E.
  - exfalso. vm_compute in E. discriminate E.
  - exists base_rpm, base_power, s1. split; [reflexivity|].
    destruct (X1_base_parameters calm_env "Aluminum" "drilling" 14 fresh s1
                base_rpm base_power E)
      as (lo & hi & factor & Hr & Hb & Hf & Hp & _).
    vm_compute in Hr. injection Hr as <- <-.
    vm_compute in Hf. injection Hf as <-.
    split; [exact Hb|]. rewrite Hp. reflexivity.
Defined.

(** ** Observations that a computation leaves alone *)

Section Preserves.

Context {X : Type} (f : State -> X).

Lemma preserves_bind {A B : Type} (m : M A) (k : A -> M B) :
  preserves f m -> (forall a, preserves f (k a)) -> preserves f (bind m k).
Proof.
  intros Hm Hk s r s'. unfold bind.
  destruct (m s) as [[e|a] s1] eqn:E.
  - intros H; injection H as <- <-. exact (Hm _ _ _ E).
  - intros H. rewrite (Hk _ _ _ _ H). exact (Hm _ _ _ E).
Qed.

Lemma preserves_ret {A : Type} (a : A) : preserves f (ret a).
Proof. intros s r s' H; injection H as <- <-; reflexivity. Qed.

Lemma preserves_lift {A : Type} (r : exn + A) : preserves f (lift r).
Proof. intros s r' s' H; injection H as <- <-; reflexivity. Qed.

Lemma preserves_request (o : option exn) : preserves f (request o).
Proof. destruct o; intros s r s' H; injection H as <- <-; reflexivity. Qed.

Variable env : Env.

Hypothesis f_random : forall n s, f (with_random_pos n s) = f s.
Hypothesis f_normal : forall n s, f (with_normal_pos n s) = f s.

Lemma preserves_randint (a b : Z) : preserves f (randint env a b).
Proof. intros s r s' H; injection H as <- <-; apply f_random. Qed.

Lemma preserves_np_random_normal (loc scale : Q) (size : Z) :
  preserves f (np_random_normal env loc scale size).
Proof.
  intros s r s'. unfold np_random_normal.
  destruct (size <? 0)%Z; intros H; injection H as <- <-;
    [reflexivity|apply f_normal].
Qed.

Lemma preserves_simulate (duration : Q) (material job_type : string)
      (tool_no : Z) :
  preserves f (simulate env duration material job_type tool_no).
Proof.
  unfold simulate, calculate_machine_parameters.
  repeat first [ apply preserves_randint | apply preserves_np_random_normal
               | apply preserves_lift | apply preserves_ret
               | apply preserves_bind; [|intros ?]
               | match goal with
                 | |- preserves _ (match ?x with pair _ _ => _ end) =>
                     destruct x
                 end ].
Qed.

Hypothesis f_clock : forall n s, f (with_clock_pos n s) = f s.
Hypothesis f_jobs : forall l s, f (with_JobDetails l s) = f s.
Hypothesis f_samples : forall l s, f (with_SensoryData l s) = f s.

Lemma preserves_now : preserves f (now env).
Proof. intros s r s' H; injection H as <- <-; apply f_clock. Qed.

Lemma preserves_insert_one (r : JobRecord) : preserves f (insert_one env r).
Proof.
  apply preserves_bind; [apply preserves_request|].
  intros _ s r' s' H; injection H as <- <-; apply f_jobs.
Qed.

Lemma preserves_update_one (lathe_id : Z) (job_id : string)
      (set : JobRecord -> JobRecord) :
  preserves f (update_one env lathe_id job_id set).
Proof.
  apply preserves_bind; [apply preserves_request|].
  intros _ s r' s' H; injection H as <- <-; apply f_jobs.
Qed.

Lemma preserves_insert_many (k : nat) (batch : list Document) :
  preserves f (insert_many env k batch).
Proof.
  intros s r s'. unfold insert_many.
  destruct (insert_many_outcome env k) as [[e written]|];
    intros H; injection H as <- <-; apply f_samples.
Qed.

Lemma preserves_insert_batches (starts : list nat)
      (documents : list Document) (count : nat) :
  preserves f (insert_batches env starts documents count).
Proof.
  revert count. induction starts as [|i rest IH]; intros count;
    cbn [insert_batches].
  - apply preserves_ret.
  - apply preserves_bind; [apply preserves_insert_many|intros; apply IH].
Qed.

Lemma preserves_store_samples
      (lathe_id : Z) (job_id material job_type : string)
      (tool_no : Z) (sim : Simulation) :
  preserves f (store_samples env lathe_id job_id material job_type tool_no
                             sim).
Proof.
  unfold store_samples.
  repeat first [ apply preserves_now | apply preserves_insert_batches
               | apply preserves_update_one
               | apply preserves_lift | apply preserves_ret
               | apply preserves_bind; [|intros ?] ].
Qed.

Hypothesis f_client : forall s, f (with_client true (client_closed s) s) = f s.

Lemma preserves_connect_loop (attempts : list nat) :
  preserves f (connect_loop env attempts).
Proof.
  induction attempts as [|k rest IH]; [apply preserves_ret|].
  intros s r s'. cbn [connect_loop].
  destruct (connect_outcome env k); [| destruct (Nat.eqb _ _) ..];
    intros H; try (injection H as <- <-; auto; fail).
  - now apply IH in H.
  - apply IH in H. now rewrite H.
Qed.

Lemma preserves_open_job (lathe_id : Z) (job_id material job_type : string)
      (tool_no : Z) :
  preserves f (open_job env lathe_id job_id material job_type tool_no).
Proof.
  unfold open_job, ensure_collections_exist.
  repeat first [ apply preserves_connect_loop | apply preserves_request
               | apply preserves_now | apply preserves_insert_one
               | apply preserves_bind; [|intros ?] ].
Qed.

Lemma preserves_try_body (lathe_id : Z) (job_id : string) (duration : Q)
      (material job_type : string) (tool_no : Z) :
  preserves f (try_body env lathe_id job_id duration material job_type
                        tool_no).
Proof.
  intros s r s' H. rewrite try_body_phases in H. revert s r s' H.
  apply preserves_bind; [apply preserves_open_job|intros _].
  apply preserves_bind; [apply preserves_simulate|intros sim].
  apply preserves_store_samples.
Qed.

End Preserves.

(** ** Failures of a call *)

(** X2. On a known material and an operation that the table of power
    factors does not have, the simulation block raises
    [KeyError(job_type)] after the three draws of [random] and before any
    numpy draw.  The call returns a text that begins with
    "Error occurred: ", has drawn no sample and has written no document;
    on an available database the text is "Error occurred: " followed by
    Python's [repr] of the operation (stated for ASCII names: between
    single quotes, or double quotes when the name has an apostrophe), and
    the job record stays behind with status "Running". *)
Theorem X2_unknown_operation
        (env : Env) (lathe_id : Z) (job_id : string) (duration : Q)
        (material job_type : string) (tool_no : Z) (s : State) :
  known_material material -> ~ known_job_type job_type ->
  simulate env duration material job_type tool_no s
  = (inl (KeyError job_type), with_random_pos (3 + random_pos s) s)
  /\ exists message s',
      generate_batch_sensor_data env lathe_id job_id duration material
                                 job_type tool_no s = (inr message, s')
      /\ String.prefix "Error occurred: " message = true
      /\ SensoryData s' = SensoryData s
      /\ normal_pos s' = normal_pos s
      /\ (db_available env ->
          (is_ascii job_type = true ->
           message = "Error occurred: " ++ repr job_type)
          /\ exists job_record,
              JobDetails s' = (JobDetails s ++ [job_record])%list
              /\ job_JobID job_record = job_id
              /\ job_LatheID job_record = lathe_id
              /\ Status job_record = "Running").
Proof.
  intros Hm Hj. split; [now apply simulate_unknown_job_type|].
  destruct (generate_batch_sensor_data_answer env lathe_id job_id duration
              material job_type tool_no s) as (r & s1 & Hbody & Hgen).
  destruct (try_body_when_simulate_raises env
              (fun e => e = KeyError job_type)
              lathe_id job_id duration material job_type tool_no _ _ _
              (fun sa => ex_intro _ _
                 (conj eq_refl (simulate_unknown_job_type env duration
                                  material job_type tool_no sa Hm Hj)))
              Hbody) as ((e & -> & He) & F1 & F2).
  eexists; eexists. split; [exact Hgen|].
  split; [apply answer_raised|].
  split; [now destruct (client_bound s1)|].
  split; [now destruct (client_bound s1)|].
  intros Hdb. split; [intros _; rewrite (He Hdb); reflexivity|].
  destruct (open_job_available env lathe_id job_id material job_type tool_no
              (with_client false false s) Hdb) as [sa Eo].
  destruct (open_job_record env _ _ _ _ _ _ _ Hdb Eo)
    as (job_record & Hjob & Hrest).
  exists job_record. split; [|exact Hrest].
  rewrite try_body_phases, (bind_eq_inr _ _ _ _ _ Eo) in Hbody.
  rewrite (bind_eq_inl _ _ _ _ _
             (simulate_unknown_job_type env duration material job_type
                tool_no sa Hm Hj)) in Hbody.
  injection Hbody as _ <-.
  match goal with |- context [if ?c then _ else _] => destruct c end;
    exact Hjob.
Qed.

Lemma X2_unknown_operation_witness :
  known_material "Wood" /\ ~ known_job_type "milling"
  /\ db_available calm_env /\ is_ascii "milling" = true
  /\ exists s',
      generate_batch_sensor_data calm_env 1 "JOB0101" 10 "Wood" "milling" 1
                                 used
      = (inr "Error occurred: 'milling'", s')
      /\ SensoryData s' = SensoryData used.
Proof.
  assert (Hm : known_material "Wood") by (unfold known_material; simpl; auto).
  assert (Hj : ~ known_job_type "milling").
  { unfold known_job_type; simpl.
    intros [H|[H|[H|[H|[H|[H|[]]]]]]]; discriminate H. }
  split; [exact Hm|]. split; [exact Hj|].
  split; [exact calm_env_available|]. split; [reflexivity|].
  destruct (proj2 (X2_unknown_operation calm_env 1 "JOB0101" 10 "Wood"
                     "milling" 1 used Hm Hj))
    as (message & s' & Hgen & _ & Hs & _ & Hdb).
  destruct (Hdb calm_env_available) as [Hmessage _].
  rewrite (Hmessage eq_refl) in Hgen.
  exists s'. split; [exact Hgen|exact Hs].
Defined.

(** X3. When none of the three connection attempts connects, the call
    returns "Error occurred: " followed by the text of the exception of the
    third attempt, and it has touched neither the database nor the
    generators nor the clock. *)
Theorem X3_unreachable_database
        (env : Env) (lathe_id : Z) (job_id : string) (duration : Q)
        (material job_type : string) (tool_no : Z) (s : State) :
  connects env = false ->
  exists e s',
    raised_by (connect_outcome env 2) = Some e
    /\ generate_batch_sensor_data env lathe_id job_id duration material
                                  job_type tool_no s
       = (inr ("Error occurred: " ++ str e), s')
    /\ same_but_client s s'.
Proof.
  unfold connects, max_retries. cbn [seq existsb]. intros Hc.
  unfold generate_batch_sensor_data, try_body. unfold bind at 1.
  unfold max_retries. cbn [seq connect_loop Nat.sub Nat.eqb].
  destruct (connect_outcome env 0) as [|e0|e0]; [discriminate| |];
    (destruct (connect_outcome env 1) as [|e1|e1]; [discriminate| |]);
    (destruct (connect_outcome env 2) as [|e2|e2]; [discriminate| |]);
    exists e2; eexists; (split; [reflexivity|]);
    (split; [reflexivity|]); repeat split.
Qed.

Lemma X3_unreachable_database_witness :
  connects down_env = false
  /\ exists s',
      generate_batch_sensor_data down_env 1 "JOB0101" 10 "Wood" "turning" 1
                                 used
      = (inr "Error occurred: localhost:27017: timed out", s')
      /\ same_but_client used s'.
Proof.
  assert (Hc : connects down_env = false) by reflexivity.
  split; [exact Hc|].
  destruct (X3_unreachable_database down_env 1 "JOB0101" 10 "Wood" "turning"
              1 used Hc) as (e & s' & He & Hgen & Hs).
  vm_compute in He. injection He as <-.
  exists s'. split; [exact Hgen|exact Hs].
Defined.

(** X4. Whatever happens inside a call, when it returns the client is
    closed exactly if one was created; a call whose connection loop gets
    through always ends with its client closed. *)
Theorem X4_client_is_closed
        (env : Env) (lathe_id : Z) (job_id : string) (duration : Q)
        (material job_type : string) (tool_no : Z)
        (s s' : State) (r : exn + string) :
  generate_batch_sensor_data env lathe_id job_id duration material job_type
                             tool_no s = (r, s') ->
  client_closed s' = client_bound s'
  /\ (connects env = true -> client_closed s' = true).
Proof.
  intros H.
  destruct (generate_batch_sensor_data_answer env lathe_id job_id duration
              material job_type tool_no s) as (r1 & s1 & Hbody & Hgen).
  rewrite Hgen in H. injection H as _ <-.
  assert (Hclosed : client_closed s1 = false).
  { apply (preserves_try_body client_closed env) in Hbody; auto. }
  split.
  - destruct (client_bound s1) eqn:Eb; [reflexivity|].
    now rewrite Hclosed, Eb.
  - intros Hc.
    assert (Hbound : client_bound s1 = true).
    { unfold try_body in Hbody. unfold bind at 1 in Hbody.
      destruct (connect_loop env (seq 0 max_retries)
                             (with_client false false s))
        as [[e|[]] sa] eqn:Ec.
      - exfalso. revert Ec. unfold connects, max_retries in *.
        cbn [seq existsb connect_loop Nat.sub Nat.eqb] in *.
        destruct (connect_outcome env 0); [discriminate|..];
          (destruct (connect_outcome env 1); [discriminate|..]);
          (destruct (connect_outcome env 2); discriminate).
      - assert (Ba : client_bound sa = true).
        { revert Ec. unfold max_retries.
          cbn [seq connect_loop Nat.sub Nat.eqb].
          destruct (connect_outcome env 0); [|
            destruct (connect_outcome env 1); [|
              destruct (connect_outcome env 2) ..] ..];
            intros Ec;
            first [discriminate Ec | injection Ec as <-; reflexivity]. }
        rewrite <- Ba.
        match type of Hbody with
        | ?m sa = _ => assert (P : preserves client_bound m)
        end.
        { unfold ensure_collections_exist.
          repeat first [ apply preserves_request | apply preserves_now
                       | apply preserves_insert_one
                       | apply preserves_simulate
                       | apply preserves_insert_batches
                       | apply preserves_update_one
                       | apply preserves_lift | apply preserves_ret
                       | apply preserves_bind; [|intros ?] ];
            reflexivity. }
        exact (P _ _ _ Hbody). }
    now rewrite Hbound.
Qed.

Lemma X4_client_is_closed_witness :
  connects full_disk_env = true
  /\ client_closed
       (snd (generate_batch_sensor_data full_disk_env 1 "JOB0101" (1 # 4)
               "Wood" "turning" 1 fresh)) = true.
Proof.
  split; [reflexivity|].
  destruct (generate_batch_sensor_data full_disk_env 1 "JOB0101" (1 # 4)
              "Wood" "turning" 1 fresh) as [r s'] eqn:E.
  exact (proj2 (X4_client_is_closed full_disk_env 1 "JOB0101" (1 # 4) "Wood"
                  "turning" 1 fresh s' r E) eq_refl).
Defined.

(** ** A successful call, step by step *)

Lemma make_documents_nth (job_id : string) (lathe_id : Z)
      (material job_type : string) (tool_no : Z) (n i : nat)
      (timestamps : list Z) (temps vibs rpms pwrs wears : list Q)
      (d : Document) :
  length timestamps = n -> length temps = n -> length vibs = n ->
  length rpms = n -> length pwrs = n -> length wears = n ->
  (i < n)%nat ->
  nth i (make_documents job_id lathe_id material job_type tool_no
           timestamps temps vibs rpms pwrs wears) d
  = {| timestamp := nth i timestamps 0%Z; JobID := job_id;
       LatheID := lathe_id; Material := material; JobType := job_type;
       ToolNo := tool_no; Temperature := nth i temps 0;
       Vibration := nth i vibs 0; RPM := nth i rpms 0;
       Power := nth i pwrs 0; ToolWear := nth i wears 0 |}.
Proof.
  revert i timestamps temps vibs rpms pwrs wears.
  induction n as [|n IH];
    intros i [|ts tss] [|t ts'] [|v vs] [|r rs] [|p ps] [|w ws];
    simpl; intros; try discriminate; try lia.
  destruct i as [|i]; [reflexivity|].
  apply IH; try congruence; lia.
Qed.

Lemma make_documents_tagged (job_id : string) (lathe_id : Z)
      (material job_type : string) (tool_no : Z)
      (timestamps : list Z) (temps vibs rpms pwrs wears : list Q) :
  Forall (tagged lathe_id job_id material job_type tool_no)
         (make_documents job_id lathe_id material job_type tool_no
            timestamps temps vibs rpms pwrs wears).
Proof.
  revert temps vibs rpms pwrs wears.
  induction timestamps as [|ts tss IH];
    intros [|t ts'] [|v vs] [|r rs] [|p ps] [|w ws]; simpl; auto.
  constructor; [repeat split|apply IH].
Qed.

Lemma update_first_fresh (lathe_id : Z) (job_id : string)
      (set : JobRecord -> JobRecord) (col : list JobRecord) (r : JobRecord) :
  no_record_of lathe_id job_id col ->
  job_LatheID r = lathe_id -> job_JobID r = job_id ->
  update_first lathe_id job_id set (col ++ [r]) = (col ++ [set r])%list.
Proof.
  intros Hcol Hl Hj. induction Hcol as [|r0 col H0 _ IH]; simpl.
  - now rewrite Hl, Hj, Z.eqb_refl, String.eqb_refl.
  - destruct (Z.eqb_spec (job_LatheID r0) lathe_id) as [E1|E1];
      [destruct (String.eqb_spec (job_JobID r0) job_id) as [E2|E2]|];
      simpl; [tauto| |]; now rewrite IH.
Qed.

Lemma timestamps_last (base_time : Z) (n : nat) :
  last (map (fun i => add_seconds base_time (5 * Z.of_nat i)) (seq 0 (S n)))
       base_time
  = add_seconds base_time (5 * Z.of_nat n).
Proof.
  rewrite seq_S, map_app. simpl. apply last_last.
Qed.

Lemma last_cons (x d : Q) (a : list Q) : last (x :: a) d = last a x.
Proof.
  revert x d; induction a as [|y a IH]; intros x d; [reflexivity|].
  change (last (x :: y :: a) d) with (last (y :: a) d).
  now rewrite !IH.
Qed.

Lemma last_In (x : Q) (a : list Q) : In (last a x) (x :: a).
Proof.
  revert x; induction a as [|y a IH]; intros x; [left; reflexivity|].
  rewrite last_cons. right. apply IH.
Qed.

Lemma last_item_inr (a : list Q) (w : Q) :
  last_item a = inr w -> w = last a 0 /\ In w a.
Proof.
  destruct a as [|x a]; [discriminate|]. simpl last_item.
  intros E; injection E as <-. split.
  - symmetry. apply last_cons.
  - apply last_In.
Qed.

Section SuccessfulCall.

Variable env : Env.

(** The first phase on an available database. *)
Lemma open_job_available_state
      (lathe_id : Z) (job_id material job_type : string)
      (tool_no : Z) (s : State) :
  db_available env ->
  exists s',
    open_job env lathe_id job_id material job_type tool_no s = (inr tt, s')
    /\ random_pos s' = random_pos s /\ normal_pos s' = normal_pos s
    /\ clock_pos s' = S (clock_pos s)
    /\ SensoryData s' = SensoryData s
    /\ JobDetails s'
       = (JobDetails s
          ++ [ {| job_JobID := job_id; job_LatheID := lathe_id;
                  job_Material := material; job_JobType := job_type;
                  job_ToolNo := tool_no;
                  StartTime := datetime_now env (clock_pos s);
                  Status := "Running"; FinalToolWear := 0;
                  EndTime := None |} ])%list.
Proof.
  intros (Hc & Hi & Ho & _ & _).
  unfold open_job, ensure_collections_exist, insert_one.
  rewrite !Hi, Ho.
  unfold connects, max_retries in Hc. simpl in Hc.
  unfold bind, max_retries. simpl.
  destruct (connect_outcome env 0); [|destruct (connect_outcome env 1);
    [|destruct (connect_outcome env 2); [|discriminate ..] ..] ..];
    eexists; (split; [reflexivity|]); repeat split.
Qed.

(** The last phase on an available database and a non-empty wear array. *)
Lemma store_samples_available_state
      (lathe_id : Z) (job_id material job_type : string)
      (tool_no : Z) (sim : Simulation) (s : State) (final_wear : Q) :
  db_available env -> last_item (tool_wear sim) = inr final_wear ->
  let base_time := datetime_now env (clock_pos s) in
  let documents :=
    documents_of lathe_id job_id material job_type tool_no base_time sim in
  exists s',
    store_samples env lathe_id job_id material job_type tool_no sim s
    = (inr ("Successfully generated "
              ++ str_int (Z.of_nat (length documents))
              ++ " data points for Job " ++ job_id
              ++ " (Lathe " ++ str_int lathe_id ++ ")"), s')
    /\ SensoryData s' = (SensoryData s ++ documents)%list
    /\ random_pos s' = random_pos s /\ normal_pos s' = normal_pos s
    /\ clock_pos s' = S (clock_pos s)
    /\ JobDetails s'
       = update_first lathe_id job_id
           (fun r =>
              {| job_JobID := job_JobID r; job_LatheID := job_LatheID r;
                 job_Material := job_Material r;
                 job_JobType := job_JobType r;
                 job_ToolNo := job_ToolNo r; StartTime := StartTime r;
                 Status := "Completed"; FinalToolWear := final_wear;
                 EndTime :=
                   Some (last (map (fun i => add_seconds base_time
                                                (5 * Z.of_nat i))
                                   (seq 0 (Z.to_nat (n_points sim))))
                              base_time) |})
           (JobDetails s).
Proof.
  intros (_ & _ & _ & Hmany & Hupd) Hlast base_time documents.
  unfold store_samples. unfold bind at 1. unfold now at 1.
  fold base_time. fold documents. unfold range_step.
  unfold bind at 1.
  rewrite (insert_batches_available env documents Hmany).
  cbn [skipn Nat.mul].
  rewrite firstn_all2 by (apply range_step_covers, batch_size_pos).
  rewrite Hlast.
  unfold bind at 1, lift at 1.
  unfold update_one. rewrite Hupd. unfold bind, request, ret.
  eexists; split; [reflexivity|]. repeat split.
Qed.

End SuccessfulCall.

Lemma last_as_nth {A : Type} (l : list A) (d : A) :
  l <> [] -> last l d = nth (length l - 1) l d.
Proof.
  induction l as [|a [|b l] IH]; intros H; [congruence|reflexivity|].
  change (last (a :: b :: l) d) with (last (b :: l) d).
  rewrite IH by discriminate. simpl. now rewrite Nat.sub_0_r.
Qed.

Lemma last_app_nonempty {A : Type} (l w : list A) (d : A) :
  w <> [] -> last (l ++ w) d = last w d.
Proof.
  intros H. induction l as [|a l IH]; [reflexivity|].
  simpl. rewrite IH. destruct (l ++ w)%list eqn:E; [|reflexivity].
  apply app_eq_nil in E. tauto.
Qed.

Section SuccessfulCallState.

Variable env : Env.

(** The arrays of the simulation block depend on the state only through
    the positions of the two generators. *)
Lemma simulate_same_positions (duration : Q) (material job_type : string)
      (tool_no : Z) (s sa : State) :
  random_pos sa = random_pos s -> normal_pos sa = normal_pos s ->
  fst (simulate env duration material job_type tool_no s)
  = fst (simulate env duration material job_type tool_no sa).
Proof.
  intros Hr Hn. apply agree_simulate.
  split; intros k; now rewrite ?Hr, ?Hn.
Qed.

(** A call with valid names and at least one sample on an available
    database: what it returns and the state it leaves. *)
Lemma generate_batch_sensor_data_success_state
      (lathe_id : Z) (job_id : string) (duration : Q)
      (material job_type : string) (tool_no : Z) (s : State) :
  db_available env ->
  known_material material -> known_job_type job_type ->
  (1 <= int (duration * 60 / 5))%Z ->
  let start_time := datetime_now env (clock_pos s) in
  let base_time := datetime_now env (S (clock_pos s)) in
  exists sim s0 s' final_wear,
    simulate env duration material job_type tool_no s = (inr sim, s0)
    /\ n_points sim = int (duration * 60 / 5)
    /\ last_item (tool_wear sim) = inr final_wear
    /\ generate_batch_sensor_data env lathe_id job_id duration material
                                  job_type tool_no s
       = (inr ("Successfully generated "
                 ++ str_int (int (duration * 60 / 5))
                 ++ " data points for Job " ++ job_id
                 ++ " (Lathe " ++ str_int lathe_id ++ ")"), s')
    /\ SensoryData s'
       = (SensoryData s
          ++ documents_of lathe_id job_id material job_type tool_no
                          base_time sim)%list
    /\ JobDetails s'
       = update_first lathe_id job_id
           (fun r =>
              {| job_JobID := job_JobID r; job_LatheID := job_LatheID r;
                 job_Material := job_Material r;
                 job_JobType := job_JobType r;
                 job_ToolNo := job_ToolNo r; StartTime := StartTime r;
                 Status := "Completed"; FinalToolWear := final_wear;
                 EndTime :=
                   Some (last (map (fun i => add_seconds base_time
                                                (5 * Z.of_nat i))
                                   (seq 0 (Z.to_nat (n_points sim))))
                              base_time) |})
           (JobDetails s
            ++ [ {| job_JobID := job_id; job_LatheID := lathe_id;
                    job_Material := material; job_JobType := job_type;
                    job_ToolNo := tool_no; StartTime := start_time;
                    Status := "Running"; FinalToolWear := 0;
                    EndTime := None |} ])
    /\ random_pos s' = (3 + random_pos s)%nat
    /\ normal_pos s' = (normal_pos s + 5 * Z.to_nat (n_points sim))%nat
    /\ clock_pos s' = (2 + clock_pos s)%nat.
Proof.
  intros Hdb Hm Hj Hn start_time base_time.
  destruct (generate_batch_sensor_data_answer env lathe_id job_id duration
              material job_type tool_no s) as (r & s1 & Hbody & Hgen).
  destruct (open_job_available_state env lathe_id job_id material job_type
              tool_no (with_client false false s) Hdb)
    as (sa & Eo & Ra & Na & Ca & Da & Ja).
  cbn [random_pos normal_pos clock_pos SensoryData JobDetails with_client]
    in Ra, Na, Ca, Da, Ja.
  destruct (simulate_total env duration material job_type tool_no sa
              Hm Hj ltac:(lia)) as (sim & sb & Es).
  destruct (simulate_inr env _ _ _ _ _ _ _ Es)
    as (base_rpm & base_power & rate & props & vb & sc & Hcalc & _ & _ & _
        & Hnp & _ & ((L1 & L2 & L3 & L4 & L5 & L6) & _) & Hsb).
  apply calculate_machine_parameters_inr in Hcalc as [_ Hsc].
  assert (Hw : exists final_wear, last_item (tool_wear sim) = inr final_wear).
  { destruct (tool_wear sim) as [|w ws]; [simpl in L2; lia|].
    eexists; reflexivity. }
  destruct Hw as [final_wear Hw].
  destruct (store_samples_available_state env lathe_id job_id material
              job_type tool_no sim sb final_wear Hdb Hw)
    as (s2 & Est & D2 & R2 & N2 & C2 & J2).
  rewrite try_body_phases, (bind_eq_inr _ _ _ _ _ Eo),
    (bind_eq_inr _ _ _ _ _ Es), Est in Hbody.
  injection Hbody as <- <-.
  assert (Csb : clock_pos sb = S (clock_pos s)).
  { rewrite Hsb, Hsc. exact Ca. }
  assert (Jsb : JobDetails sb = JobDetails sa) by (now rewrite Hsb, Hsc).
  assert (Dsb : SensoryData sb = SensoryData s) by (now rewrite Hsb, Hsc).
  assert (Rsb : random_pos sb = (3 + random_pos s)%nat).
  { rewrite Hsb, Hsc. cbn. now rewrite Ra. }
  assert (Nsb : normal_pos sb
                = (normal_pos s + 5 * Z.to_nat (n_points sim))%nat).
  { rewrite Hsb, Hsc. cbn. now rewrite Na. }
  pose proof (simulate_same_positions duration material job_type tool_no
                s sa Ra Na) as Hsame.
  rewrite Es in Hsame. cbn [fst] in Hsame.
  destruct (simulate env duration material job_type tool_no s)
    as [r0 s0] eqn:E0. cbn [fst] in Hsame. subst r0.
  exists sim, s0, (if client_bound s2 then with_client true true s2 else s2),
    final_wear.
  split; [reflexivity|]. split; [exact Hnp|]. split; [exact Hw|].
  assert (Ld : length (documents_of lathe_id job_id material job_type
                         tool_no (datetime_now env (clock_pos sb)) sim)
               = Z.to_nat (n_points sim)).
  { unfold documents_of. apply make_documents_length; auto.
    now rewrite length_map, length_seq. }
  split.
  { rewrite Hgen. unfold answer. rewrite Ld, Hnp, Z2Nat.id by lia.
    reflexivity. }
  rewrite Csb in *. rewrite Jsb, Ja in J2. rewrite Dsb in D2.
  destruct (client_bound s2);
    cbn [SensoryData JobDetails random_pos normal_pos clock_pos with_client];
    (split; [exact D2|]); (split; [exact J2|]);
    (split; [congruence|]); (split; [congruence|]); lia.
Qed.

End SuccessfulCallState.

(** ** What a call writes *)

(** X5. In every environment, also when a batch fails half way, every
    document a call writes carries the job id, lathe id, material,
    operation and tool number the call was given. *)
Theorem X5_documents_are_tagged
        (env : Env) (lathe_id : Z) (job_id : string) (duration : Q)
        (material job_type : string) (tool_no : Z) :
  writes (tagged lathe_id job_id material job_type tool_no)
         (generate_batch_sensor_data env lathe_id job_id duration material
                                     job_type tool_no).
Proof.
  apply writes_generate_batch_sensor_data.
  intros s sim s1 base_time _. apply make_documents_tagged.
Qed.

(** X6. A call with a known material and operation and at least one
    sample, on an available database, appends exactly n_points documents
    to SensoryData, in sample order: document i holds entry i of the five
    arrays of the simulation block and the time stamp
    base_time + 5 * i seconds, base_time being the second reading of the
    clock. *)
Theorem X6_written_documents
        (env : Env) (lathe_id : Z) (job_id : string) (duration : Q)
        (material job_type : string) (tool_no : Z) (s : State) :
  db_available env ->
  known_material material -> known_job_type job_type ->
  (1 <= int (duration * 60 / 5))%Z ->
  exists sim s0 s' documents,
    simulate env duration material job_type tool_no s = (inr sim, s0)
    /\ fst (generate_batch_sensor_data env lathe_id job_id duration material
                                       job_type tool_no s)
       = inr ("Successfully generated "
                ++ str_int (int (duration * 60 / 5))
                ++ " data points for Job " ++ job_id
                ++ " (Lathe " ++ str_int lathe_id ++ ")")
    /\ snd (generate_batch_sensor_data env lathe_id job_id duration material
                                       job_type tool_no s) = s'
    /\ SensoryData s' = (SensoryData s ++ documents)%list
    /\ length documents = Z.to_nat (int (duration * 60 / 5))
    /\ forall i d, (i < Z.to_nat (int (duration * 60 / 5)))%nat ->
         nth i documents d
         = {| timestamp :=
                add_seconds (datetime_now env (S (clock_pos s)))
                            (5 * Z.of_nat i);
              JobID := job_id; LatheID := lathe_id; Material := material;
              JobType := job_type; ToolNo := tool_no;
              Temperature := nth i (workpiece_temp sim) 0;
              Vibration := nth i (vibration sim) 0;
              RPM := nth i (current_rpm sim) 0;
              Power := nth i (current_power sim) 0;
              ToolWear := nth i (tool_wear sim) 0 |}.
Proof.
  intros Hdb Hm Hj Hn.
  destruct (generate_batch_sensor_data_success_state env lathe_id job_id
              duration material job_type tool_no s Hdb Hm Hj Hn)
    as (sim & s0 & s' & final_wear & Es & Hnp & _ & Hgen & Hd & _).
  destruct (simulate_inr env _ _ _ _ _ _ _ Es)
    as (_ & _ & _ & _ & _ & _ & _ & _ & _ & _ & _ & _
        & ((L1 & L2 & L3 & L4 & L5 & L6) & _) & _).
  rewrite Hnp in *.
  exists sim, s0, s'. eexists. rewrite Hgen.
  split; [exact Es|]. split; [reflexivity|]. split; [reflexivity|].
  split; [exact Hd|].
  assert (Lt : length (map (fun i => add_seconds
                                       (datetime_now env (S (clock_pos s)))
                                       (5 * Z.of_nat i))
                           (seq 0 (Z.to_nat (int (duration * 60 / 5)))))
               = Z.to_nat (int (duration * 60 / 5)))
    by now rewrite length_map, length_seq.
  unfold documents_of. rewrite Hnp. split.
  - now apply make_documents_length.
  - intros i d Hi.
    rewrite (make_documents_nth _ _ _ _ _ _ i _ _ _ _ _ _ d
               Lt L5 L6 L3 L4 L2 Hi).
    f_equal.
    rewrite (nth_indep _ 0%Z (add_seconds (datetime_now env (S (clock_pos s)))
                                          (5 * Z.of_nat 0)))
      by (rewrite Lt; exact Hi).
    rewrite (map_nth (fun i => add_seconds _ (5 * Z.of_nat i))).
    now rewrite seq_nth.
Qed.

Lemma X6_written_documents_witness :
  db_available calm_env /\ known_material "Wood" /\ known_job_type "facing"
  /\ (1 <= int ((1 # 4) * 60 / 5))%Z
  /\ exists s' documents,
      snd (generate_batch_sensor_data calm_env 3 "JOB0301" (1 # 4) "Wood"
                                      "facing" 2 used) = s'
      /\ SensoryData s' = (SensoryData used ++ documents)%list
      /\ length documents = 3%nat
      /\ timestamp (nth 2 documents blank_document) = 10000008%Z.
Proof.
  assert (Hm : known_material "Wood") by (unfold known_material; simpl; auto).
  assert (Hj : known_job_type "facing")
    by (unfold known_job_type; simpl; auto).
  assert (Hn : (1 <= int ((1 # 4) * 60 / 5))%Z) by (vm_compute; discriminate).
  refine (conj calm_env_available (conj Hm (conj Hj (conj Hn _)))).
  destruct (X6_written_documents calm_env 3 "JOB0301" (1 # 4) "Wood" "facing"
              2 used calm_env_available Hm Hj Hn)
    as (sim & s0 & s' & documents & _ & _ & Hs & Hd & Hl & Hnth).
  exists s', documents. split; [exact Hs|]. split; [exact Hd|].
  split; [exact Hl|].
  rewrite (Hnth 2%nat) by (vm_compute; lia). reflexivity.
Defined.

(** X7. After a call with a known material and operation and at least one
    sample, on an available database whose JobDetails held no record of
    this lathe and job id, JobDetails holds one more record: the job's,
    with status "Completed", the start time read before the simulation,
    an end time equal to the time stamp of the last document written, and
    a final tool wear equal to that document's ToolWear, at most 100. *)
Theorem X7_job_record_completed
        (env : Env) (lathe_id : Z) (job_id : string) (duration : Q)
        (material job_type : string) (tool_no : Z) (s : State)
        (d : Document) :
  db_available env ->
  known_material material -> known_job_type job_type ->
  (1 <= int (duration * 60 / 5))%Z ->
  no_record_of lathe_id job_id (JobDetails s) ->
  exists s' job_record,
    snd (generate_batch_sensor_data env lathe_id job_id duration material
                                    job_type tool_no s) = s'
    /\ JobDetails s' = (JobDetails s ++ [job_record])%list
    /\ job_JobID job_record = job_id /\ job_LatheID job_record = lathe_id
    /\ job_Material job_record = material
    /\ job_JobType job_record = job_type /\ job_ToolNo job_record = tool_no
    /\ Status job_record = "Completed"
    /\ StartTime job_record = datetime_now env (clock_pos s)
    /\ EndTime job_record = Some (timestamp (last (SensoryData s') d))
    /\ FinalToolWear job_record = ToolWear (last (SensoryData s') d)
    /\ FinalToolWear job_record <= 100.
Proof.
  intros Hdb Hm Hj Hn Hfresh.
  destruct (generate_batch_sensor_data_success_state env lathe_id job_id
              duration material job_type tool_no s Hdb Hm Hj Hn)
    as (sim & s0 & s' & final_wear & Es & Hnp & Hw & Hgen & Hd & Hjobs & _).
  destruct (simulate_inr env _ _ _ _ _ _ _ Es)
    as (base_rpm & base_power & rate & props & vb & s1 & _ & _ & _ & _ & _
        & _ & ((L1 & L2 & L3 & L4 & L5 & L6) & F) & _).
  rewrite update_first_fresh in Hjobs by (auto; reflexivity).
  rewrite Hgen. cbn [snd]. eexists; eexists.
  split; [reflexivity|]. split; [exact Hjobs|].
  cbn [job_JobID job_LatheID job_Material job_JobType job_ToolNo Status
       StartTime EndTime FinalToolWear].
  do 7 (split; [reflexivity|]).
  set (n := Z.to_nat (n_points sim)) in *.
  assert (Hn1 : n = S (n - 1)) by (subst n; rewrite Hnp; lia).
  set (documents := documents_of lathe_id job_id material job_type tool_no
                      (datetime_now env (S (clock_pos s))) sim) in *.
  assert (Lt : length (map (fun i => add_seconds
                                       (datetime_now env (S (clock_pos s)))
                                       (5 * Z.of_nat i)) (seq 0 n)) = n)
    by now rewrite length_map, length_seq.
  assert (Ld : length documents = n).
  { unfold documents, documents_of. now apply make_documents_length. }
  assert (Hlast : last (SensoryData s') d
                  = nth (n - 1) documents d).
  { rewrite Hd, last_app_nonempty, last_as_nth, Ld; auto;
      intros E; rewrite E in Ld; simpl in Ld; lia. }
  rewrite Hlast. unfold documents, documents_of. fold n.
  rewrite (make_documents_nth _ _ _ _ _ n (n - 1) _ _ _ _ _ _ d
             Lt L5 L6 L3 L4 L2 ltac:(lia)).
  cbn [timestamp ToolWear].
  destruct (last_item_inr _ _ Hw) as [Ew Iw].
  split; [|split].
  - f_equal. rewrite Hn1 at 1. rewrite timestamps_last.
    rewrite (nth_indep _ 0%Z (add_seconds (datetime_now env (S (clock_pos s)))
                                          (5 * Z.of_nat 0)))
      by (rewrite Lt; lia).
    rewrite (map_nth (fun i => add_seconds _ (5 * Z.of_nat i))).
    now rewrite seq_nth by lia.
  - rewrite Ew, last_as_nth, L2;
      [reflexivity | intros E; rewrite E in L2; simpl in L2; lia].
  - apply (In_nth _ _ 0) in Iw as (i & Hi & <-). rewrite L2 in Hi.
    destruct (F i Hi) as (-> & _). apply Q.le_min_l.
Qed.

Lemma X7_job_record_completed_witness :
  db_available calm_env /\ known_material "Wood" /\ known_job_type "facing"
  /\ (1 <= int ((1 # 4) * 60 / 5))%Z
  /\ no_record_of 3 "JOB0301" (JobDetails used)
  /\ exists s' job_record,
      snd (generate_batch_sensor_data calm_env 3 "JOB0301" (1 # 4) "Wood"
                                      "facing" 2 used) = s'
      /\ JobDetails s' = (JobDetails used ++ [job_record])%list
      /\ Status job_record = "Completed"
      /\ FinalToolWear job_record <= 100.
Proof.
  assert (Hm : known_material "Wood") by (unfold known_material; simpl; auto).
  assert (Hj : known_job_type "facing")
    by (unfold known_job_type; simpl; auto).
  assert (Hn : (1 <= int ((1 # 4) * 60 / 5))%Z) by (vm_compute; discriminate).
  assert (Hf : no_record_of 3 "JOB0301" (JobDetails used)) by constructor.
  refine (conj calm_env_available (conj Hm (conj Hj (conj Hn (conj Hf _))))).
  destruct (X7_job_record_completed calm_env 3 "JOB0301" (1 # 4) "Wood"
              "facing" 2 used blank_document
              calm_env_available Hm Hj Hn Hf)
    as (s' & job_record & Hs & Hjd & _ & _ & _ & _ & _ & Hst & _ & _ & _ & Hw).
  exists s', job_record. auto.
Defined.

(** ** Calls that stop half way *)

Lemma batch_exists (len step k : nat) :
  (0 < step)%nat -> (k * step < len)%nat ->
  (k < (len + step - 1) / step)%nat.
Proof.
  intros Hs Hk.
  pose proof (Nat.div_mod_eq (len + step - 1) step) as E.
  pose proof (Nat.mod_upper_bound (len + step - 1) step) as B.
  nia.
Qed.

Section PartialCalls.

Variable env : Env.

Lemma open_job_reaches
      (lathe_id : Z) (job_id material job_type : string)
      (tool_no : Z) (s : State) :
  job_can_open env ->
  exists s',
    open_job env lathe_id job_id material job_type tool_no s = (inr tt, s')
    /\ random_pos s' = random_pos s /\ normal_pos s' = normal_pos s
    /\ clock_pos s' = S (clock_pos s)
    /\ SensoryData s' = SensoryData s
    /\ JobDetails s'
       = (JobDetails s
          ++ [ {| job_JobID := job_id; job_LatheID := lathe_id;
                  job_Material := material; job_JobType := job_type;
                  job_ToolNo := tool_no;
                  StartTime := datetime_now env (clock_pos s);
                  Status := "Running"; FinalToolWear := 0;
                  EndTime := None |} ])%list.
Proof.
  intros (Hc & Hi & Ho).
  unfold open_job, ensure_collections_exist, insert_one.
  rewrite !Hi, Ho.
  unfold connects, max_retries in Hc. simpl in Hc.
  unfold bind, max_retries. simpl.
  destruct (connect_outcome env 0); [|destruct (connect_outcome env 1);
    [|destruct (connect_outcome env 2); [|discriminate ..] ..] ..];
    eexists; (split; [reflexivity|]); repeat split.
Qed.

(** The batch loop when batch [a + k] is the first that fails. *)
Lemma insert_batches_fails (documents : list Document) (e : exn)
      (written : nat) :
  forall (k a m count : nat) (s : State),
    (forall j, (a <= j < a + k)%nat -> insert_many_outcome env j = None) ->
    insert_many_outcome env (a + k) = Some (e, written) ->
    (k < m)%nat ->
    insert_batches env (map (fun i => (i * batch_size)%nat) (seq a m))
                   documents count s
    = (inl e,
       with_SensoryData
         (SensoryData s
          ++ firstn (k * batch_size) (skipn (a * batch_size) documents)
          ++ firstn written
               (firstn batch_size
                       (skipn ((a + k) * batch_size) documents))) s).
Proof.
  induction k as [|k IH]; intros a m count s Hok Hfail Hm;
    (destruct m as [|m]; [lia|]); cbn [seq map insert_batches];
    unfold bind, insert_many at 1;
    rewrite Nat.div_mul by (pose proof batch_size_pos; lia).
  - rewrite Nat.add_0_r in Hfail. rewrite Hfail, Nat.add_0_r.
    cbn [Nat.mul firstn app]. reflexivity.
  - rewrite (Hok a) by lia.
    assert (Hok' : forall j, (S a <= j < S a + k)%nat ->
                             insert_many_outcome env j = None)
      by (intros j Hj; apply Hok; lia).
    assert (Hfail' : insert_many_outcome env (S a + k) = Some (e, written))
      by (now rewrite Nat.add_succ_comm).
    rewrite (IH (S a) m _ _ Hok' Hfail') by lia.
    replace (S k * batch_size)%nat with (batch_size + k * batch_size)%nat
      by lia.
    replace (S a * batch_size)%nat with (a * batch_size + batch_size)%nat
      by lia.
    replace ((S a + k) * batch_size)%nat with ((a + S k) * batch_size)%nat
      by lia.
    rewrite firstn_add_skipn, skipn_add.
    unfold with_SensoryData; cbn [SensoryData random_pos normal_pos
      clock_pos JobDetails client_bound client_closed].
    now rewrite <- !app_assoc.
Qed.

End PartialCalls.

(** X8. When the connection, the indexes and the job record get through
    and batch [k] is the first whose [insert_many] raises, after the server
    took [written] of its documents, the call returns "Error occurred: "
    with the text of that exception; SensoryData has grown by the [k] full
    batches before it and by the first [written] documents of batch [k],
    and the job record stays behind with status "Running". *)
Theorem X8_batch_failure_leaves_partial_data
        (env : Env) (lathe_id : Z) (job_id : string) (duration : Q)
        (material job_type : string) (tool_no : Z) (s : State)
        (k written : nat) (e : exn) :
  job_can_open env ->
  (forall j, (j < k)%nat -> insert_many_outcome env j = None) ->
  insert_many_outcome env k = Some (e, written) ->
  known_material material -> known_job_type job_type ->
  (Z.of_nat (k * batch_size) < int (duration * 60 / 5))%Z ->
  exists sim s0 s',
    simulate env duration material job_type tool_no s = (inr sim, s0)
    /\ generate_batch_sensor_data env lathe_id job_id duration material
                                  job_type tool_no s
       = (inr ("Error occurred: " ++ str e), s')
    /\ (let documents :=
          documents_of lathe_id job_id material job_type tool_no
                       (datetime_now env (S (clock_pos s))) sim in
        SensoryData s'
        = (SensoryData s
           ++ firstn (k * batch_size) documents
           ++ firstn written
                (firstn batch_size (skipn (k * batch_size) documents)))%list)
    /\ exists job_record,
        JobDetails s' = (JobDetails s ++ [job_record])%list
        /\ job_JobID job_record = job_id /\ job_LatheID job_record = lathe_id
        /\ Status job_record = "Running".
Proof.
  intros Hopen Hok Hfail Hm Hj Hn.
  destruct (generate_batch_sensor_data_answer env lathe_id job_id duration
              material job_type tool_no s) as (r & s1 & Hbody & Hgen).
  destruct (open_job_reaches env lathe_id job_id material job_type tool_no
              (with_client false false s) Hopen)
    as (sa & Eo & Ra & Na & Ca & Da & Ja).
  cbn [random_pos normal_pos clock_pos SensoryData JobDetails with_client]
    in Ra, Na, Ca, Da, Ja.
  destruct (simulate_total env duration material job_type tool_no sa
              Hm Hj ltac:(lia)) as (sim & sb & Es).
  destruct (simulate_inr env _ _ _ _ _ _ _ Es)
    as (base_rpm & base_power & rate & props & vb & sc & Hcalc & _ & _ & _
        & Hnp & _ & ((L1 & L2 & L3 & L4 & L5 & L6) & _) & Hsb).
  apply calculate_machine_parameters_inr in Hcalc as [_ Hsc].
  assert (Csb : clock_pos sb = S (clock_pos s)) by (rewrite Hsb, Hsc; exact Ca).
  assert (Jsb : JobDetails sb = JobDetails sa) by (now rewrite Hsb, Hsc).
  assert (Dsb : SensoryData sb = SensoryData s) by (now rewrite Hsb, Hsc).
  pose proof (simulate_same_positions env duration material job_type tool_no
                s sa Ra Na) as Hsame.
  rewrite Es in Hsame. cbn [fst] in Hsame.
  destruct (simulate env duration material job_type tool_no s)
    as [r0 s0] eqn:E0. cbn [fst] in Hsame. subst r0.
  rewrite try_body_phases, (bind_eq_inr _ _ _ _ _ Eo),
    (bind_eq_inr _ _ _ _ _ Es) in Hbody.
  unfold store_samples in Hbody. unfold bind at 1, now at 1 in Hbody.
  rewrite Csb in Hbody.
  set (documents := documents_of lathe_id job_id material job_type tool_no
                      (datetime_now env (S (clock_pos s))) sim) in *.
  assert (Ld : length documents = Z.to_nat (n_points sim)).
  { unfold documents, documents_of. apply make_documents_length; auto.
    now rewrite length_map, length_seq. }
  unfold range_step in Hbody. unfold bind at 1 in Hbody.
  rewrite (insert_batches_fails env documents e written k 0) in Hbody.
  - injection Hbody as <- <-.
    exists sim, s0. eexists. split; [reflexivity|]. split; [exact Hgen|].
    cbn [skipn Nat.mul Nat.add] in *.
    split.
    + cbv zeta. rewrite <- Dsb.
      match goal with |- context [if ?c then _ else _] => destruct c end;
        reflexivity.
    + eexists. split.
      * match goal with |- context [if ?c then _ else _] => destruct c end;
          cbn [JobDetails with_client with_SensoryData with_clock_pos];
          rewrite Jsb; exact Ja.
      * repeat split.
  - intros j Hj'. apply Hok. lia.
  - exact Hfail.
  - rewrite Ld, Hnp. apply batch_exists; [apply batch_size_pos|lia].
Qed.

Lemma full_disk_env_can_open : job_can_open full_disk_env.
Proof. repeat split. Qed.

Lemma X8_batch_failure_leaves_partial_data_witness :
  job_can_open full_disk_env
  /\ insert_many_outcome full_disk_env 0
     = Some (PyMongoError "disk full", 2%nat)
  /\ known_material "Wood" /\ known_job_type "turning"
  /\ (Z.of_nat (0 * batch_size) < int ((1 # 4) * 60 / 5))%Z
  /\ exists s',
      generate_batch_sensor_data full_disk_env 1 "JOB0101" (1 # 4) "Wood"
                                 "turning" 1 used
      = (inr "Error occurred: disk full", s')
      /\ length (SensoryData s') = 3%nat.
Proof.
  assert (Hm : known_material "Wood") by (unfold known_material; simpl; auto).
  assert (Hj : known_job_type "turning")
    by (unfold known_job_type; simpl; auto).
  assert (Hn : (Z.of_nat (0 * batch_size) < int ((1 # 4) * 60 / 5))%Z)
    by (vm_compute; reflexivity).
  assert (Hf : insert_many_outcome full_disk_env 0
               = Some (PyMongoError "disk full", 2%nat)) by reflexivity.
  refine (conj full_disk_env_can_open (conj Hf (conj Hm (conj Hj
            (conj Hn _))))).
  destruct (X8_batch_failure_leaves_partial_data full_disk_env 1 "JOB0101"
              (1 # 4) "Wood" "turning" 1 used 0 2
              (PyMongoError "disk full") full_disk_env_can_open
              (fun j Hj0 => match Nat.nlt_0_r j Hj0 with end) Hf Hm Hj Hn)
    as (sim & s0 & s' & Es & Hgen & Hd & _).
  exists s'. split; [exact Hgen|].
  destruct (simulate_inr full_disk_env _ _ _ _ _ _ _ Es)
    as (_ & _ & _ & _ & _ & _ & _ & _ & _ & _ & Hnp & _
        & ((L1 & L2 & L3 & L4 & L5 & L6) & _) & _).
  cbv zeta in Hd. rewrite Hd.
  assert (Hn3 : Z.to_nat (n_points sim) = 3%nat)
    by (rewrite Hnp; vm_compute; reflexivity).
  rewrite Hn3 in *.
  set (documents := documents_of _ _ _ _ _ _ sim).
  assert (Ld : length documents = 3%nat).
  { unfold documents, documents_of. apply make_documents_length; auto.
    rewrite Hn3. reflexivity. }
  rewrite !length_app, !length_firstn, length_skipn, Ld.
  reflexivity.
Defined.

(** ** Durations that yield no sample *)

Lemma int_small (x : Q) : -(1) < x -> x < 1 -> int x = 0%Z.
Proof.
  unfold Qlt, int; simpl. intros H1 H2.
  destruct (Z.le_gt_cases 0 (Qnum x)) as [H|H].
  - apply Z.quot_small; lia.
  - rewrite <- (Z.opp_involutive (Qnum x)), Z.quot_opp_l by lia.
    rewrite Z.quot_small; lia.
Qed.

Lemma int_negative (x : Q) : x <= -(1) -> (int x < 0)%Z.
Proof.
  unfold Qle, int; simpl. intros H.
  rewrite <- (Z.opp_involutive (Qnum x)), Z.quot_opp_l by lia.
  assert (1 <= - Qnum x ÷ Z.pos (Qden x))%Z; [|lia].
  apply Z.quot_le_lower_bound; lia.
Qed.

Lemma n_points_of_short (duration : Q) :
  -(5 / 60) < duration -> duration < 5 / 60 ->
  int (duration * 60 / 5) = 0%Z.
Proof.
  intros H1 H2. apply int_small.
  - apply Qlt_shift_div_l; [reflexivity|].
    unfold Qdiv in H1. change (/ 60) with (1 # 60) in H1. lra.
  - apply Qlt_shift_div_r; [reflexivity|].
    unfold Qdiv in H2. change (/ 60) with (1 # 60) in H2. lra.
Qed.

Lemma n_points_of_negative (duration : Q) :
  duration <= -(5 / 60) -> (int (duration * 60 / 5) < 0)%Z.
Proof.
  intros H. apply int_negative.
  apply Qle_shift_div_r; [reflexivity|].
  unfold Qdiv in H. change (/ 60) with (1 # 60) in H. lra.
Qed.

Section NoSampleCalls.

Variable env : Env.

Lemma simulate_negative_points_message
      (duration : Q) (material job_type : string) (tool_no : Z) (s : State) :
  known_material material -> known_job_type job_type ->
  (int (duration * 60 / 5) < 0)%Z ->
  simulate env duration material job_type tool_no s
  = (inl (ValueError ("Number of samples, "
                        ++ str_int (int (duration * 60 / 5))
                        ++ ", must be non-negative.")),
     with_random_pos (3 + random_pos s) s).
Proof.
  intros Hm Hj Hn.
  destruct (calculate_machine_parameters_known env material job_type
              (10 + tool_no * 2) s Hm Hj) as (base_rpm & factor & E & _ & _).
  unfold simulate. rewrite (bind_eq_inr _ _ _ _ _ E).
  apply bind_eq_inl. apply lift_raises. unfold linspace.
  destruct (Z.ltb_spec (int (duration * 60 / 5)) 0); [reflexivity|lia].
Qed.

Lemma store_samples_no_points
      (lathe_id : Z) (job_id material job_type : string)
      (tool_no : Z) (sim : Simulation) (s : State) :
  n_points sim = 0%Z -> tool_wear sim = [] ->
  store_samples env lathe_id job_id material job_type tool_no sim s
  = (inl (IndexError "index -1 is out of bounds for axis 0 with size 0"),
     with_clock_pos (S (clock_pos s)) s).
Proof.
  intros Hn Hw. unfold store_samples. unfold bind at 1, now at 1.
  rewrite documents_of_no_points by lia.
  unfold range_step. cbn [length Nat.add].
  rewrite Nat.div_small by (pose proof batch_size_pos; lia).
  cbn [seq map insert_batches]. unfold bind at 1, ret at 1.
  rewrite Hw. reflexivity.
Qed.

End NoSampleCalls.

(** X9. On an available database and with a known material and
    operation, a duration under five seconds (in absolute value) makes the
    call return "Error occurred: index -1 is out of bounds for axis 0 with
    size 0", and a duration of minus five seconds or less makes it return
    "Error occurred: Number of samples, n, must be non-negative." with n
    the negative [n_points]; in both cases nothing is written to
    SensoryData and the job record stays behind with status "Running". *)
Theorem X9_no_sample_durations
        (env : Env) (lathe_id : Z) (job_id : string) (duration : Q)
        (material job_type : string) (tool_no : Z) (s : State) :
  db_available env -> known_material material -> known_job_type job_type ->
  duration < 5 / 60 ->
  exists s' job_record,
    generate_batch_sensor_data env lathe_id job_id duration material
                               job_type tool_no s
    = (inr (if Qlt_le_dec (-(5 / 60)) duration
            then "Error occurred: index -1 is out of bounds for axis 0 with size 0"
            else "Error occurred: Number of samples, "
                   ++ str_int (int (duration * 60 / 5))
                   ++ ", must be non-negative."), s')
    /\ SensoryData s' = SensoryData s
    /\ JobDetails s' = (JobDetails s ++ [job_record])%list
    /\ job_JobID job_record = job_id /\ job_LatheID job_record = lathe_id
    /\ Status job_record = "Running".
Proof.
  intros Hdb Hm Hj Hd.
  destruct (generate_batch_sensor_data_answer env lathe_id job_id duration
              material job_type tool_no s) as (r & s1 & Hbody & Hgen).
  destruct (open_job_available_state env lathe_id job_id material job_type
              tool_no (with_client false false s) Hdb)
    as (sa & Eo & Ra & Na & Ca & Da & Ja).
  cbn [random_pos normal_pos clock_pos SensoryData JobDetails with_client]
    in Ra, Na, Ca, Da, Ja.
  rewrite try_body_phases, (bind_eq_inr _ _ _ _ _ Eo) in Hbody.
  destruct (Qlt_le_dec (-(5 / 60)) duration) as [Hlo|Hlo].
  - pose proof (n_points_of_short duration Hlo Hd) as Hz.
    destruct (simulate_total env duration material job_type tool_no sa
                Hm Hj ltac:(lia)) as (sim & sb & Es).
    destruct (simulate_inr env _ _ _ _ _ _ _ Es)
      as (base_rpm & base_power & rate & props & vb & sc & Hcalc & _ & _ & _
          & Hnp & _ & ((_ & L2 & _) & _) & Hsb).
    apply calculate_machine_parameters_inr in Hcalc as [_ Hsc].
    rewrite (bind_eq_inr _ _ _ _ _ Es) in Hbody.
    rewrite store_samples_no_points in Hbody;
      [|congruence|rewrite Hnp, Hz in L2; now destruct (tool_wear sim)].
    injection Hbody as <- <-.
    eexists; eexists. split; [exact Hgen|].
    rewrite Hsb, Hsc.
    match goal with |- context [if ?c then _ else _] => destruct c end;
      cbn [SensoryData JobDetails with_client with_clock_pos with_normal_pos
           with_random_pos];
      (split; [exact Da|]); (split; [exact Ja|]); repeat split.
  - pose proof (n_points_of_negative duration Hlo) as Hneg.
    rewrite (bind_eq_inl _ _ _ _ _
               (simulate_negative_points_message env duration material
                  job_type tool_no sa Hm Hj Hneg)) in Hbody.
    injection Hbody as <- <-.
    eexists; eexists. split; [exact Hgen|].
    match goal with |- context [if ?c then _ else _] => destruct c end;
      cbn [SensoryData JobDetails with_client with_random_pos];
      (split; [exact Da|]); (split; [exact Ja|]); repeat split.
Qed.

Lemma X9_no_sample_durations_witness :
  db_available calm_env /\ known_material "Wood" /\ known_job_type "turning"
  /\ (1 # 20) < 5 / 60 /\ -(1) < 5 / 60
  /\ (exists s',
         generate_batch_sensor_data calm_env 1 "JOB0101" (1 # 20) "Wood"
                                    "turning" 1 fresh
         = (inr "Error occurred: index -1 is out of bounds for axis 0 with size 0",
            s'))
  /\ exists s',
      generate_batch_sensor_data calm_env 1 "JOB0101" (-(1)) "Wood"
                                 "turning" 1 fresh
      = (inr "Error occurred: Number of samples, -12, must be non-negative.",
         s').
Proof.
  assert (Hm : known_material "Wood") by (unfold known_material; simpl; auto).
  assert (Hj : known_job_type "turning")
    by (unfold known_job_type; simpl; auto).
  assert (H1 : (1 # 20) < 5 / 60) by reflexivity.
  assert (H2 : -(1) < 5 / 60) by reflexivity.
  refine (conj calm_env_available (conj Hm (conj Hj (conj H1 (conj H2 _))))).
  split.
  - destruct (X9_no_sample_durations calm_env 1 "JOB0101" (1 # 20) "Wood"
                "turning" 1 fresh calm_env_available Hm Hj H1)
      as (s' & job_record & Hgen & _).
    exists s'. exact Hgen.
  - destruct (X9_no_sample_durations calm_env 1 "JOB0101" (-(1)) "Wood"
                "turning" 1 fresh calm_env_available Hm Hj H2)
      as (s' & job_record & Hgen & _).
    exists s'. exact Hgen.
Defined.

(** ** The simulation block and the generators *)

(** X10. The simulation block always consumes exactly three draws of
    [random]; it consumes five numpy deviates per sample when it returns
    its arrays and none when it raises, and it touches nothing else: a run
    that follows starts on fresh draws. *)
Theorem X10_draws_consumed
        (env : Env) (duration : Q) (material job_type : string)
        (tool_no : Z) (s s' : State) (r : exn + Simulation) :
  simulate env duration material job_type tool_no s = (r, s') ->
  s' = with_normal_pos
         (normal_pos s
          + match r with
            | inr sim => 5 * Z.to_nat (n_points sim)
            | inl _ => 0
            end)
         (with_random_pos (3 + random_pos s) s).
Proof.
  intros H.
  assert (Hid : with_random_pos (3 + random_pos s) s
                = with_normal_pos (normal_pos s + 0)
                    (with_random_pos (3 + random_pos s) s)).
  { unfold with_normal_pos. cbn. now rewrite Nat.add_0_r. }
  destruct r as [e|sim].
  - destruct (known_material_dec material) as [Hm|Hm].
    2:{ rewrite simulate_unknown_material in H by exact Hm.
        injection H as _ <-. exact Hid. }
    destruct (known_job_type_dec job_type) as [Hj|Hj].
    2:{ rewrite simulate_unknown_job_type in H by assumption.
        injection H as _ <-. exact Hid. }
    destruct (Z.lt_ge_cases (int (duration * 60 / 5)) 0) as [Hn|Hn].
    + destruct (simulate_negative_points env duration material job_type
                  tool_no s Hm Hj Hn) as [msg E].
      rewrite E in H. injection H as _ <-. exact Hid.
    + destruct (simulate_total env duration material job_type tool_no s
                  Hm Hj Hn) as (sim & s1 & E).
      rewrite E in H. discriminate H.
  - destruct (simulate_inr env _ _ _ _ _ _ _ H)
      as (base_rpm & base_power & rate & props & vb & s1 & Hcalc & _ & _ & _
          & _ & _ & _ & ->).
    apply calculate_machine_parameters_inr in Hcalc as [_ ->].
    reflexivity.
Qed.

Lemma X10_draws_consumed_witness :
  exists sim s',
    simulate calm_env (1 # 4) "Wood" "boring" 1 used = (inr sim, s')
    /\ random_pos s' = 3%nat /\ normal_pos s' = 15%nat
    /\ SensoryData s' = SensoryData used.
Proof.
  destruct (simulate calm_env (1 # 4) "Wood" "boring" 1 used)
    as [[e|sim] s'] eqn:E.
  - exfalso. vm_compute in E. discriminate E.
  - exists sim, s'. split; [reflexivity|].
    rewrite (X10_draws_consumed calm_env (1 # 4) "Wood" "boring" 1 used s'
               (inr sim) E).
    assert (Hn : n_points sim = 3%Z).
    { vm_compute in E. injection E as <- _. reflexivity. }
    rewrite Hn. repeat split.
Defined.

(** ** The model without noise *)

Section NoiseFree.

Variable env : Env.

Hypothesis no_noise : forall k, standard_normal env k == 0.

(** With every deviate at zero each sample follows the closed formulas of
    lines 110-143 without their noise factors. *)
Lemma noise_free_samples
      (duration : Q) (material job_type : string) (tool_no : Z)
      (s s' : State) (sim : Simulation) :
  simulate env duration material job_type tool_no s = (inr sim, s') ->
  exists (base_rpm : Z) (base_power rate : Q) (props : MaterialProfile)
         (vb : Q),
    (800 <= base_rpm <= 3500)%Z /\ 0 < rate
    /\ 0 < specific_heat props * hardness props /\ 0 < vb
    /\ forall i, (i < Z.to_nat (n_points sim))%nat ->
         let t := nth i (elapsed_minutes sim) 0 in
         let wear := nth i (tool_wear sim) 0 in
         let rpm := nth i (current_rpm sim) 0 in
         let pwr := nth i (current_power sim) 0 in
         wear == Qmin 100 (rate * t)
         /\ rpm == Qmax 100 (inject_Z base_rpm * (1 - wear / 500))
         /\ pwr == Qmax 0.5 (base_power * (1 + (wear / 100) * 0.5))
         /\ nth i (workpiece_temp sim) 0
            == clip (25 + (pwr * 1000 * 0.8 * t * 60)
                          / (specific_heat props * hardness props)
                          * (1 - 0.7)) 25 300
         /\ nth i (vibration sim) 0
            == Qmax 0 (vb * (rpm / 1000) * (1 + wear / 50)).
Proof.
  intros Es.
  destruct (simulate_inr env _ _ _ _ _ _ _ Es)
    as (base_rpm & base_power & rate & props & vb & s1 & Hcalc & Hrate
        & Hprops & Hvb & _ & _ & (_ & F) & _).
  apply calculate_machine_parameters_inr in Hcalc as [Hb _].
  exists base_rpm, base_power, rate, props, vb.
  split; [exact Hb|].
  split; [exact (TOOL_WEAR_RATES_pos material rate Hrate)|].
  split.
  { apply getitem_inr in Hprops. simpl in Hprops.
    destruct Hprops as [H|[H|[H|[]]]]; injection H as _ <-; reflexivity. }
  split.
  { apply getitem_inr in Hvb. simpl in Hvb.
    destruct Hvb as [H|[H|[H|[]]]]; injection H as _ <-; reflexivity. }
  intros i Hi t wear rpm pwr.
  destruct (F i Hi) as (Ew & Er & Ep & Et & Ev). cbv zeta in Ew, Er, Ep, Et, Ev.
  fold t wear rpm pwr in Ew, Er, Ep, Et, Ev.
  repeat split.
  - rewrite Ew, no_noise.
    setoid_replace (1 + 0.05 * 0) with 1 by ring. now rewrite Qmult_1_r.
  - rewrite Er, no_noise.
    setoid_replace (1 + (0 + 0.03 * 0)) with 1 by ring. now rewrite Qmult_1_r.
  - rewrite Ep, no_noise.
    setoid_replace (1 + (0 + 0.05 * 0)) with 1 by ring. now rewrite Qmult_1_r.
  - rewrite Et. unfold clip. rewrite no_noise.
    setoid_replace (0 + 2 * 0) with 0 by ring. now rewrite Qplus_0_r.
  - rewrite Ev, no_noise.
    setoid_replace (1 + (0 + 0.1 * 0)) with 1 by ring. now rewrite Qmult_1_r.
Qed.

End NoiseFree.

Lemma Qmult_nonpos_nonneg (a c : Q) : a <= 0 -> 0 <= c -> a * c <= 0.
Proof.
  intros Ha Hc.
  assert (H : 0 <= (- a) * c) by (apply Qmult_le_0_compat; lra).
  setoid_replace (a * c) with (- ((- a) * c)) by ring. lra.
Qed.

Lemma rpm_above_floor (b wear : Q) :
  800 <= b -> 0 <= wear -> wear <= 100 ->
  (8 # 10) * b <= b * (1 - wear / 500)
  /\ b * (1 - wear / 500) <= b
  /\ Qmax 100 (b * (1 - wear / 500)) == b * (1 - wear / 500).
Proof.
  intros Hb H0 H100.
  unfold Qdiv. change (/ 500) with (1 # 500).
  assert (L : (8 # 10) * b <= b * (1 - wear * (1 # 500))).
  { rewrite (Qmult_comm (8 # 10) b). apply Qmult_le_l; lra. }
  split; [exact L|]. split.
  - rewrite <- (Qmult_1_r b) at 2. apply Qmult_le_l; lra.
  - apply Q.max_r. lra.
Qed.

(** [b * (1 - w/500) * (1 + w/50)] does not decrease in [w] on 0..100. *)
Lemma rpm_times_wear_factor_monotone (b w1 w2 : Q) :
  0 <= b -> 0 <= w1 -> w1 <= w2 -> w2 <= 100 ->
  b * (1 - w1 / 500) * (1 + w1 / 50) <= b * (1 - w2 / 500) * (1 + w2 / 50).
Proof.
  intros Hb H0 H12 H100.
  unfold Qdiv. change (/ 500) with (1 # 500). change (/ 50) with (1 # 50).
  apply Qle_minus_iff.
  setoid_replace (b * (1 - w2 * (1 # 500)) * (1 + w2 * (1 # 50))
                  + - (b * (1 - w1 * (1 # 500)) * (1 + w1 * (1 # 50))))
    with (b * ((w2 - w1) * ((9 # 500) - (w1 + w2) * (1 # 25000))))
    by ring.
  apply Qmult_le_0_compat; [exact Hb|].
  apply Qmult_le_0_compat; lra.
Qed.

(** X11. With every noise deviate at zero, in every run that returns
    samples: the rpm never reaches its floor of 100 (it stays between 80%
    of the base rpm and the base rpm), the tool wear stays within 0..100,
    and along the samples the power, the temperature and the vibration do
    not decrease. *)
Theorem X11_noise_free_trends
        (env : Env) (duration : Q) (material job_type : string)
        (tool_no : Z) (s s' : State) (sim : Simulation) :
  (forall k, standard_normal env k == 0) ->
  simulate env duration material job_type tool_no s = (inr sim, s') ->
  exists base_rpm : Z,
    (800 <= base_rpm <= 3500)%Z
    /\ forall i j, (i <= j)%nat -> (j < Z.to_nat (n_points sim))%nat ->
         (0 <= nth i (tool_wear sim) 0 /\ nth i (tool_wear sim) 0 <= 100)
         /\ ((8 # 10) * inject_Z base_rpm <= nth i (current_rpm sim) 0
             /\ nth i (current_rpm sim) 0 <= inject_Z base_rpm)
         /\ nth i (current_power sim) 0 <= nth j (current_power sim) 0
         /\ nth i (workpiece_temp sim) 0 <= nth j (workpiece_temp sim) 0
         /\ nth i (vibration sim) 0 <= nth j (vibration sim) 0.
Proof.
  intros Hz Es.
  destruct (noise_free_samples env Hz _ _ _ _ _ _ _ Es)
    as (base_rpm & base_power & rate & props & vb & Hb & Hrate & Hc & Hvb & F).
  destruct (simulate_inr env _ _ _ _ _ _ _ Es)
    as (_ & _ & _ & _ & _ & _ & _ & _ & _ & _ & Hnp & Hel & _).
  exists base_rpm. split; [exact Hb|]. intros i j Hij Hj.
  assert (HB : 800 <= inject_Z base_rpm) by (unfold Qle; simpl; lia).
  rewrite Hnp in Hel.
  assert (Ht : 0 <= nth i (elapsed_minutes sim) 0
               /\ nth i (elapsed_minutes sim) 0
                  <= nth j (elapsed_minutes sim) 0).
  { apply (elapsed_minutes_monotone duration _ i j Hel Hij). now rewrite <- Hnp. }
  assert (Htj : 0 <= nth j (elapsed_minutes sim) 0)
    by (eapply Qle_trans; [apply Ht|apply Ht]).
  destruct Ht as [Hti Htij].
  destruct (F i ltac:(lia)) as (Ewi & Eri & Epi & Eti & Evi).
  destruct (F j Hj) as (Ewj & Erj & Epj & Etj & Evj).
  cbv zeta in *.
  set (ti := nth i (elapsed_minutes sim) 0) in *.
  set (tj := nth j (elapsed_minutes sim) 0) in *.
  set (wi := nth i (tool_wear sim) 0) in *.
  set (wj := nth j (tool_wear sim) 0) in *.
  set (ri := nth i (current_rpm sim) 0) in *.
  set (rj := nth j (current_rpm sim) 0) in *.
  set (pi := nth i (current_power sim) 0) in *.
  set (pj := nth j (current_power sim) 0) in *.
  assert (Wi0 : 0 <= wi).
  { rewrite Ewi. apply Q.min_glb; [discriminate|].
    apply Qmult_le_0_compat; lra. }
  assert (Wj100 : wj <= 100) by (rewrite Ewj; apply Q.le_min_l).
  assert (Wij : wi <= wj).
  { rewrite Ewi, Ewj. apply Q.min_le_compat_l. apply Qmult_le_l; assumption. }
  assert (Wi100 : wi <= 100) by lra.
  assert (Wj0 : 0 <= wj) by lra.
  destruct (rpm_above_floor (inject_Z base_rpm) wi HB Wi0 Wi100)
    as (Ri1 & Ri2 & Ri3).
  destruct (rpm_above_floor (inject_Z base_rpm) wj HB Wj0 Wj100)
    as (Rj1 & Rj2 & Rj3).
  rewrite Ri3 in Eri. rewrite Rj3 in Erj.
  assert (P05i : 0.5 <= pi) by (rewrite Epi; apply Q.le_max_l).
  assert (Pij : pi <= pj).
  { rewrite Epi, Epj. apply Q.max_lub; [apply Q.le_max_l|].
    destruct (Qlt_le_dec base_power 0) as [Hneg|Hpos].
    - apply Qle_trans with 0.5; [|apply Q.le_max_l].
      apply Qle_trans with 0; [|discriminate].
      apply Qmult_nonpos_nonneg; [lra|].
      unfold Qdiv. change (/ 100) with (1 # 100). lra.
    - apply Qle_trans with (base_power * (1 + wj / 100 * 0.5));
        [|apply Q.le_max_r].
      destruct (Qle_lt_or_eq _ _ Hpos) as [Hp|Hp].
      + apply Qmult_le_l; [exact Hp|].
        unfold Qdiv. change (/ 100) with (1 # 100). lra.
      + rewrite <- Hp. rewrite !Qmult_0_l. apply Qle_refl. }
  split; [split; assumption|].
  split; [split; rewrite Eri; assumption|].
  split; [exact Pij|]. split.
  - rewrite Eti, Etj. unfold clip.
    apply Q.min_le_compat_l, Q.max_le_compat_r.
    apply Qplus_le_r. apply Qmult_le_compat_r; [|discriminate].
    unfold Qdiv. apply Qmult_le_compat_r;
      [|apply Qlt_le_weak, Qinv_lt_0_compat, Hc].
    setoid_replace (pi * 1000 * 0.8 * ti * 60) with (48000 * (pi * ti))
      by ring.
    setoid_replace (pj * 1000 * 0.8 * tj * 60) with (48000 * (pj * tj))
      by ring.
    apply Qmult_le_l; [reflexivity|].
    apply Qle_trans with (pj * ti).
    + apply Qmult_le_compat_r; assumption.
    + destruct (Qle_lt_or_eq 0 pj ltac:(lra)) as [Hp|Hp].
      * apply Qmult_le_l; assumption.
      * exfalso. lra.
  - rewrite Evi, Evj. apply Q.max_le_compat_l. rewrite Eri, Erj.
    setoid_replace (vb * (inject_Z base_rpm * (1 - wi / 500) / 1000)
                    * (1 + wi / 50))
      with ((vb * (1 # 1000))
            * (inject_Z base_rpm * (1 - wi / 500) * (1 + wi / 50)))
      by (unfold Qdiv; change (/ 1000) with (1 # 1000); ring).
    setoid_replace (vb * (inject_Z base_rpm * (1 - wj / 500) / 1000)
                    * (1 + wj / 50))
      with ((vb * (1 # 1000))
            * (inject_Z base_rpm * (1 - wj / 500) * (1 + wj / 50)))
      by (unfold Qdiv; change (/ 1000) with (1 # 1000); ring).
    apply Qmult_le_l; [lra|].
    apply rpm_times_wear_factor_monotone; lra.
Qed.

Lemma X11_noise_free_trends_witness :
  (forall k, standard_normal calm_env k == 0)
  /\ exists sim s',
      simulate calm_env (1 # 4) "Aluminum" "drilling" 3 fresh = (inr sim, s')
      /\ nth 0 (current_power sim) 0 <= nth 2 (current_power sim) 0
      /\ nth 0 (workpiece_temp sim) 0 <= nth 2 (workpiece_temp sim) 0
      /\ nth 0 (vibration sim) 0 <= nth 2 (vibration sim) 0.
Proof.
  assert (Hz : forall k, standard_normal calm_env k == 0)
    by (intros k; reflexivity).
  split; [exact Hz|].
  destruct (simulate calm_env (1 # 4) "Aluminum" "drilling" 3 fresh)
    as [[e|sim] s'] eqn:E.
  - exfalso. vm_compute in E. discriminate E.
  - assert (Hn : n_points sim = 3%Z).
    { vm_compute in E. injection E as <- _. reflexivity. }
    exists sim, s'. split; [reflexivity|].
    destruct (X11_noise_free_trends calm_env (1 # 4) "Aluminum" "drilling" 3
                fresh s' sim Hz E) as (base_rpm & _ & H).
    destruct (H 0%nat 2%nat ltac:(lia) ltac:(rewrite Hn; vm_compute; lia))
      as (_ & _ & H1 & H2 & H3).
    auto.
Defined.

(** ** The driver *)

Lemma pairs_length {A B : Type} (xs : list A) (ys : list B) :
  length (flat_map (fun x => map (pair x) ys) xs)
  = (length xs * length ys)%nat.
Proof.
  induction xs as [|x xs IH]; [reflexivity|].
  cbn [flat_map length]. now rewrite length_app, IH, length_map.
Qed.

Lemma job_numbers_length (num_lathes jobs_per_lathe : Z) :
  length (job_numbers num_lathes jobs_per_lathe)
  = (Z.to_nat num_lathes * Z.to_nat jobs_per_lathe)%nat.
Proof.
  unfold job_numbers, range_from_1.
  now rewrite pairs_length, !length_map, !length_seq.
Qed.

Lemma n_points_of_driver_duration (duration : Q) :
  5 <= duration -> duration < 30 ->
  (60 <= int (duration * 60 / 5) <= 359)%Z.
Proof.
  intros H5 H30.
  assert (Hx : 60 <= duration * 60 / 5 /\ duration * 60 / 5 < 360).
  { unfold Qdiv. change (/ 5) with (1 # 5). split; lra. }
  destruct Hx as [Hlo Hhi].
  rewrite int_floor by lra. split.
  - change 60%Z with (Qfloor 60). now apply Qfloor_resp_le.
  - assert (Qfloor (duration * 60 / 5) < 360)%Z; [|lia].
    rewrite Zlt_Qlt. eapply Qle_lt_trans; [apply Qfloor_le|exact Hhi].
Qed.

Section RandomDraws.

Variable env : Env.

Lemma choice_In {A : Type} (seq : list A) (s : State) :
  seq <> [] ->
  exists x, choice env seq s = (inr x, with_random_pos (S (random_pos s)) s)
            /\ In x seq.
Proof.
  intros H. destruct seq as [|a seq]; [congruence|].
  unfold choice. eexists; split; [reflexivity|].
  apply nth_In.
  pose proof (Z.mod_pos_bound (random_raw env (random_pos s))
                (Z.of_nat (length (a :: seq))) ltac:(simpl; lia)).
  lia.
Qed.

Lemma uniform_range (a b : Q) (s : State) :
  a < b ->
  exists v, uniform env a b s = (inr v, with_random_pos (S (random_pos s)) s)
            /\ a <= v /\ v < b.
Proof.
  intros Hab. unfold uniform, random_random, bind, ret.
  eexists; split; [reflexivity|].
  set (r := (random_raw env (random_pos s) mod 2 ^ 53)%Z).
  assert (Hr : (0 <= r < 2 ^ 53)%Z) by (apply Z.mod_pos_bound; reflexivity).
  assert (H0 : 0 <= inject_Z r / inject_Z (2 ^ 53)).
  { apply Qle_shift_div_l; [reflexivity|].
    rewrite Qmult_0_l. unfold Qle; simpl; lia. }
  assert (H1 : inject_Z r / inject_Z (2 ^ 53) < 1).
  { apply Qlt_shift_div_r; [reflexivity|].
    rewrite Qmult_1_l. rewrite <- Zlt_Qlt. lia. }
  set (u := inject_Z r / inject_Z (2 ^ 53)) in *.
  split.
  - assert (0 <= (b - a) * u) by (apply Qmult_le_0_compat; lra). lra.
  - assert ((b - a) * u < (b - a) * 1) by (apply Qmult_lt_l; lra). lra.
Qed.

(** A text the body of a call returns is a success report. *)
Lemma try_body_message
      (lathe_id : Z) (job_id : string) (duration : Q)
      (material job_type : string) (tool_no : Z)
      (s s' : State) (message : string) :
  try_body env lathe_id job_id duration material job_type tool_no s
  = (inr message, s') ->
  String.prefix "Successfully generated " message = true.
Proof.
  intros H. rewrite try_body_phases in H.
  apply bind_inr in H as (_ & sa & _ & H).
  apply bind_inr in H as (sim & sb & _ & H).
  unfold store_samples in H.
  apply bind_inr in H as (base_time & s1 & _ & H).
  apply bind_inr in H as (count & s2 & _ & H).
  apply bind_inr in H as (final_wear & s3 & _ & H).
  apply bind_inr in H as (_ & s4 & _ & H).
  injection H as <- _. apply (prefix_app "Successfully generated ").
Qed.

Lemma generate_batch_sensor_data_text
      (lathe_id : Z) (job_id : string) (duration : Q)
      (material job_type : string) (tool_no : Z) (s : State) :
  exists message s',
    generate_batch_sensor_data env lathe_id job_id duration material
                               job_type tool_no s = (inr message, s')
    /\ (String.prefix "Error occurred: " message = true
        \/ String.prefix "Successfully generated " message = true).
Proof.
  destruct (generate_batch_sensor_data_answer env lathe_id job_id duration
              material job_type tool_no s) as (r & s1 & Hbody & Hgen).
  eexists; eexists. split; [exact Hgen|].
  destruct r as [e|message].
  - left. apply answer_raised.
  - right. exact (try_body_message _ _ _ _ _ _ _ _ _ Hbody).
Qed.

End RandomDraws.

Section DriverRuns.

Variable env_of_call : nat -> Env.

Lemma materials_not_empty : keys MATERIAL_PROFILES <> [].
Proof. discriminate. Qed.

Lemma JOB_TYPES_not_empty : JOB_TYPES <> [].
Proof. discriminate. Qed.

(** The four draws that precede a call of the driver. *)
Lemma driver_draws (call : nat) (s : State) :
  exists material job_type tool_no duration s4,
    choice (env_of_call call) (keys MATERIAL_PROFILES) s
    = (inr material, with_random_pos (S (random_pos s)) s)
    /\ choice (env_of_call call) JOB_TYPES
              (with_random_pos (S (random_pos s)) s)
       = (inr job_type, with_random_pos (2 + random_pos s) s)
    /\ randint (env_of_call call) 1 10 (with_random_pos (2 + random_pos s) s)
       = (inr tool_no, with_random_pos (3 + random_pos s) s)
    /\ uniform (env_of_call call) 5 30 (with_random_pos (3 + random_pos s) s)
       = (inr duration, s4)
    /\ s4 = with_random_pos (4 + random_pos s) s
    /\ known_material material /\ known_job_type job_type
    /\ (1 <= tool_no <= 10)%Z /\ 5 <= duration /\ duration < 30.
Proof.
  destruct (choice_In (env_of_call call) (keys MATERIAL_PROFILES) s
              materials_not_empty) as (material & E1 & I1).
  destruct (choice_In (env_of_call call) JOB_TYPES
              (with_random_pos (S (random_pos s)) s) JOB_TYPES_not_empty)
    as (job_type & E2 & I2).
  destruct (randint_range (env_of_call call) 1 10
              (with_random_pos (2 + random_pos s) s) ltac:(lia))
    as (tool_no & E3 & I3).
  destruct (uniform_range (env_of_call call) 5 30
              (with_random_pos (3 + random_pos s) s) ltac:(reflexivity))
    as (duration & E4 & I4 & I5).
  exists material, job_type, tool_no, duration. eexists.
  split; [exact E1|]. split; [exact E2|]. split; [exact E3|].
  split; [exact E4|]. split; [reflexivity|]. auto.
Qed.

Lemma run_jobs_returns (jobs : list (Z * Z)) :
  forall (call : nat) (results : list string) (s : State),
  exists new s',
    run_jobs env_of_call (keys MATERIAL_PROFILES) jobs call results s
    = (inr (results ++ new)%list, s')
    /\ length new = length jobs
    /\ Forall (fun text =>
                 String.prefix "Error occurred: " text = true
                 \/ String.prefix "Successfully generated " text = true)
              new.
Proof.
  induction jobs as [|[lathe_id job_num] jobs IH]; intros call results s.
  - exists [], s. rewrite app_nil_r. repeat split. constructor.
  - cbn [run_jobs].
    destruct (driver_draws call s)
      as (material & job_type & tool_no & duration & s4 & E1 & E2 & E3 & E4
          & _).
    rewrite (bind_eq_inr _ _ _ _ _ E1), (bind_eq_inr _ _ _ _ _ E2),
      (bind_eq_inr _ _ _ _ _ E3), (bind_eq_inr _ _ _ _ _ E4).
    destruct (generate_batch_sensor_data_text (env_of_call call) lathe_id
                (job_id_of lathe_id job_num) duration material job_type
                tool_no s4) as (message & s5 & E5 & Htext).
    rewrite (bind_eq_inr _ _ _ _ _ E5).
    destruct (IH (S call) (results ++ [message])%list s5)
      as (new & s' & E & Hl & Hf).
    exists (message :: new), s'. rewrite E, <- app_assoc.
    split; [reflexivity|]. split; [simpl; now rewrite Hl|].
    constructor; assumption.
Qed.

Lemma run_jobs_available (jobs : list (Z * Z)) :
  (forall call, db_available (env_of_call call)) ->
  forall (call : nat) (results : list string) (s : State),
  exists new s',
    run_jobs env_of_call (keys MATERIAL_PROFILES) jobs call results s
    = (inr (results ++ new)%list, s')
    /\ Forall2 job_succeeded jobs new
    /\ (length (SensoryData s) + 60 * length jobs
        <= length (SensoryData s')
        <= length (SensoryData s) + 360 * length jobs)%nat.
Proof.
  intros Hdb.
  induction jobs as [|[lathe_id job_num] jobs IH]; intros call results s.
  - exists [], s. rewrite app_nil_r. split; [reflexivity|].
    split; [constructor|simpl; lia].
  - cbn [run_jobs].
    destruct (driver_draws call s)
      as (material & job_type & tool_no & duration & s4 & E1 & E2 & E3 & E4
          & Hs4 & Hm & Hj & _ & H5 & H30).
    rewrite (bind_eq_inr _ _ _ _ _ E1), (bind_eq_inr _ _ _ _ _ E2),
      (bind_eq_inr _ _ _ _ _ E3), (bind_eq_inr _ _ _ _ _ E4).
    pose proof (n_points_of_driver_duration duration H5 H30) as Hn.
    destruct (generate_batch_sensor_data_success (env_of_call call) lathe_id
                (job_id_of lathe_id job_num) duration material job_type
                tool_no s4 (Hdb call) Hm Hj ltac:(lia))
      as (s5 & documents & E5 & Hd & Hl).
    rewrite (bind_eq_inr _ _ _ _ _ E5).
    match type of E5 with _ = (inr ?m, _) => set (message := m) in * end.
    destruct (IH (S call) (results ++ [message])%list s5)
      as (new & s' & E & Hf & Hc).
    exists (message :: new), s'. rewrite E, <- app_assoc.
    split; [reflexivity|]. split.
    + constructor; [|exact Hf].
      exists (int (duration * 60 / 5)). split; [lia|reflexivity].
    + rewrite Hd, length_app, Hl in Hc. rewrite Hs4 in Hc.
      cbn [SensoryData with_random_pos length] in *. lia.
Qed.

End DriverRuns.

(** X12. [generate_sample_data] never raises: in every environment it
    returns one text per job, num_lathes * jobs_per_lathe of them, each an
    error report or a success report. *)
Theorem X12_driver_returns_one_text_per_job
        (env_of_call : nat -> Env) (num_lathes jobs_per_lathe : Z)
        (s : State) :
  exists results s',
    generate_sample_data env_of_call num_lathes jobs_per_lathe s
    = (inr results, s')
    /\ length results
       = (Z.to_nat num_lathes * Z.to_nat jobs_per_lathe)%nat
    /\ Forall (fun text =>
                 String.prefix "Error occurred: " text = true
                 \/ String.prefix "Successfully generated " text = true)
              results.
Proof.
  unfold generate_sample_data.
  destruct (run_jobs_returns env_of_call
              (job_numbers num_lathes jobs_per_lathe) 0 [] s)
    as (new & s' & E & Hl & Hf).
  exists new, s'. split; [exact E|].
  split; [now rewrite Hl, job_numbers_length|exact Hf].
Qed.

(** X13. The driver only asks for valid runs: every material and operation
    it draws is a known one, and every duration lies in 5..30 minutes.  So
    when the database is available to every job, every text it returns is
    a success report, for the job id JOB<lathe><job> of its lathe and
    with between 60 and 360 data points, and SensoryData grows by between
    60 and 360 documents per job. *)
Theorem X13_driver_succeeds_on_available_database
        (env_of_call : nat -> Env) (num_lathes jobs_per_lathe : Z)
        (s : State) :
  (forall call, db_available (env_of_call call)) ->
  exists results s',
    generate_sample_data env_of_call num_lathes jobs_per_lathe s
    = (inr results, s')
    /\ Forall2 job_succeeded (job_numbers num_lathes jobs_per_lathe) results
    /\ (length (SensoryData s)
        + 60 * (Z.to_nat num_lathes * Z.to_nat jobs_per_lathe)
        <= length (SensoryData s')
        <= length (SensoryData s)
           + 360 * (Z.to_nat num_lathes * Z.to_nat jobs_per_lathe))%nat.
Proof.
  intros Hdb. unfold generate_sample_data.
  destruct (run_jobs_available env_of_call
              (job_numbers num_lathes jobs_per_lathe) Hdb 0 [] s)
    as (new & s' & E & Hf & Hc).
  exists new, s'. split; [exact E|]. split; [exact Hf|].
  now rewrite job_numbers_length in Hc.
Qed.

Lemma X13_driver_succeeds_on_available_database_witness :
  (forall call : nat, db_available calm_env)
  /\ exists results s',
      generate_sample_data (fun _ => calm_env) 2 2 used = (inr results, s')
      /\ Forall2 job_succeeded (job_numbers 2 2) results
      /\ (1 + 240 <= length (SensoryData s') <= 1 + 1440)%nat.
Proof.
  split; [intros _; exact calm_env_available|].
  exact (X13_driver_succeeds_on_available_database (fun _ => calm_env) 2 2
           used (fun _ => calm_env_available)).
Defined.

(** ** Job ids *)

Lemma append_same_length_inj (a a' b b' : string) :
  String.length a = String.length a' -> (a ++ b = a' ++ b')%string ->
  a = a' /\ b = b'.
Proof.
  revert a'; induction a as [|c a IH]; intros [|c' a'] Hl H;
    simpl in *; try discriminate; auto.
  injection H as -> H. injection Hl as Hl.
  destruct (IH a' Hl H) as [-> ->]. auto.
Qed.

Lemma below_100 (P : nat -> bool) :
  forallb P (seq 0 100) = true ->
  forall n, (0 <= n < 100)%Z -> P (Z.to_nat n) = true.
Proof.
  intros H n Hn. rewrite forallb_forall in H. apply H.
  apply in_seq. lia.
Qed.

Lemma format_02d_length (n : Z) :
  (0 <= n < 100)%Z -> String.length (format_02d n) = 2%nat.
Proof.
  intros Hn.
  pose proof (below_100
                (fun k => Nat.eqb (String.length (format_02d (Z.of_nat k))) 2)
                ltac:(vm_compute; reflexivity) n Hn) as H.
  cbv beta in H. rewrite Z2Nat.id in H by lia. now apply Nat.eqb_eq.
Qed.

Lemma format_02d_inj (n m : Z) :
  (0 <= n < 100)%Z -> (0 <= m < 100)%Z ->
  format_02d n = format_02d m -> n = m.
Proof.
  intros Hn Hm E.
  pose proof (below_100
                (fun a =>
                   forallb (fun b =>
                              implb (String.eqb (format_02d (Z.of_nat a))
                                                (format_02d (Z.of_nat b)))
                                    (Nat.eqb a b))
                           (seq 0 100))
                ltac:(vm_compute; reflexivity) n Hn) as H.
  cbv beta in H.
  pose proof (below_100 _ H m Hm) as H'. cbv beta in H'.
  rewrite !Z2Nat.id in H' by lia.
  rewrite E, String.eqb_refl in H'. simpl in H'.
  apply Nat.eqb_eq in H'. lia.
Qed.

(** X14. For lathe and job numbers of 0..99, which covers the default run
    of 10 lathes with 2 jobs each, the job id JOB<lathe><job> determines
    both numbers: two different jobs never share a job id. *)
Theorem X14_job_ids_are_distinct (lathe_id job_num lathe_id' job_num' : Z) :
  (0 <= lathe_id < 100)%Z -> (0 <= job_num < 100)%Z ->
  (0 <= lathe_id' < 100)%Z -> (0 <= job_num' < 100)%Z ->
  job_id_of lathe_id job_num = job_id_of lathe_id' job_num' ->
  lathe_id = lathe_id' /\ job_num = job_num'.
Proof.
  intros Hl Hj Hl' Hj' E. unfold job_id_of in E.
  simpl in E. injection E as E.
  apply append_same_length_inj in E as [E1 E2];
    [|now rewrite !format_02d_length].
  split; apply format_02d_inj; assumption.
Qed.

Lemma X14_job_ids_are_distinct_witness :
  job_id_of 10 2 = "JOB1002" /\ (10 = 10 /\ 2 = 2)%Z.
Proof.
  split; [reflexivity|].
  apply (X14_job_ids_are_distinct 10 2 10 2); try lia. reflexivity.
Defined.
